(** * localtuya: the device cache, its subscribers and the climate platform

    A shallow embedding of [custom_components/localtuya/common.py]
    (classes [TuyaDevice] and [LocalTuyaEntity]) and of the preset and
    mode operations of [custom_components/localtuya/climate.py]
    (class [LocaltuyaClimate]).

    Python objects become records, attribute mutation becomes explicit
    state passing in a small state-and-exception monad, and every call
    that leaves the two modules (the pytuya transport, the Home Assistant
    dispatcher, the logger, asyncio) appends an [event] to a trace.  The
    status an entity holds is a reference into the cache of its device,
    read through the device. *)

From stdpp Require Import gmap strings list fin_maps pretty.
From Stdlib Require Import ZArith.

#[local] Set Warnings "-register-all".
#[local] Open Scope Z_scope.

(** ** Python values *)

(** Datapoint values, configuration values and datapoint indices:
    [None], booleans, integers and strings. *)
Inductive scalar :=
  | SNone
  | SBool (b : bool)
  | SInt (z : Z)
  | SStr (s : string).

(** A status payload is decoded JSON: its dictionaries have string keys. *)
Inductive pyval :=
  | PyScalar (a : scalar)
  | PyDict (d : gmap string pyval).

Coercion PyScalar : scalar >-> pyval.

(** [bool(v)]: the truth value Python's [if v:] tests. *)
Definition scalar_truthy (a : scalar) : bool :=
  match a with
  | SNone => false
  | SBool b => b
  | SInt z => negb (z =? 0)
  | SStr s => negb (String.eqb s "")
  end.

Definition truthy (v : pyval) : bool :=
  match v with
  | PyScalar a => scalar_truthy a
  | PyDict d => negb (Nat.eqb (size d) 0)
  end.

(** [str(a)] for a scalar. *)
Definition py_str (a : scalar) : string :=
  match a with
  | SNone => "None"
  | SBool true => "True"
  | SBool false => "False"
  | SInt z => pretty z
  | SStr s => s
  end.

(** An optional sub-device id as an argument: [cid=None] or a string.
    [if cid:] holds for a non-empty string only. *)
Definition cid_truthy (cid : option string) : option string :=
  match cid with
  | Some c => if String.eqb c "" then None else Some c
  | None => None
  end.

(** ** Exceptions and results *)

Inductive exn :=
  | AttributeError
  | KeyError
  | TypeError
  | ValueError
  | OtherException      (* any other [Exception]: raised inside pytuya, [Exception(...)], [OverflowError] *)
  | CancelledError.     (* asyncio.CancelledError, a [BaseException] *)

(** [except Exception:] catches every exception of the model but
    [asyncio.CancelledError], which derives from [BaseException]. *)
Definition is_Exception (e : exn) : bool :=
  match e with
  | CancelledError => false
  | _ => true
  end.

Inductive result (A : Type) :=
  | Ok (a : A)
  | Raise (e : exn).
Arguments Ok {A} a.
Arguments Raise {A} e.

(** ** Operations of Python's [dict] and of its other values *)

(** [v[k]] with a string [k]. *)
Definition py_getitem (v : pyval) (k : string) : result pyval :=
  match v with
  | PyDict d => match d !! k with Some x => Ok x | None => Raise KeyError end
  | PyScalar _ => Raise TypeError
  end.

(** [v.get(k)]: only a dictionary has the method; a missing key gives [None]. *)
Definition py_get (v : pyval) (k : string) : result pyval :=
  match v with
  | PyDict d => Ok (default (PyScalar SNone) (d !! k))
  | PyScalar _ => Raise AttributeError
  end.

(** [d.update(other)]: the keys of [other] overwrite those of [d].  An empty
    string is an empty sequence of pairs; any other scalar is refused. *)
Definition dict_update (d : gmap string pyval) (other : pyval)
  : result (gmap string pyval) :=
  match other with
  | PyDict u => Ok (u ∪ d)
  | PyScalar (SStr s) => if String.eqb s "" then Ok d else Raise ValueError
  | PyScalar _ => Raise TypeError
  end.

(** [k in v] with a string [k]: key membership for a dictionary, substring
    test for a string, [TypeError] for the other scalars. *)
Fixpoint is_prefix (p s : string) : bool :=
  match p, s with
  | EmptyString, _ => true
  | String a p', String b s' => if Ascii.eqb a b then is_prefix p' s' else false
  | String _ _, EmptyString => false
  end.

Fixpoint is_substring (p s : string) : bool :=
  if is_prefix p s then true
  else match s with
       | EmptyString => false
       | String _ s' => is_substring p s'
       end.

Definition py_contains (k : string) (v : pyval) : result bool :=
  match v with
  | PyDict d => Ok (bool_decide (is_Some (d !! k)))
  | PyScalar (SStr s) => Ok (is_substring k s)
  | PyScalar _ => Raise TypeError
  end.

(** ** Events: the calls that leave the two modules *)

Inductive log_level := Debug | Warning | Error | Exception.

Inductive event :=
  | EvCreateTask                                  (* asyncio.create_task(self._make_connection()) *)
  | EvConnect                                     (* pytuya.connect(host, id, key, version, self) *)
  | EvAddDpsToRequest                             (* interface.add_dps_to_request(...) *)
  | EvSetDp (state index : scalar) (cid : option string)   (* interface.set_dp(state, index, cid) *)
  | EvSetDps (states : list (scalar * scalar)) (cid : option string)
                                                  (* interface.set_dps(states, cid) *)
  | EvStatus (cid : option string)                (* interface.status(cid) *)
  | EvInterfaceClose                              (* interface.close() *)
  | EvTaskCancel                                  (* self._connect_task.cancel() *)
  | EvDispatch (payload : pyval)                  (* async_dispatcher_send(hass, signal, payload) *)
  | EvHook                                        (* the subclass's status_updated() *)
  | EvScheduleUpdate                              (* self.schedule_update_ha_state() *)
  | EvLog (level : log_level).                    (* self.debug / warning / error / exception *)

Definition trace := list event.

(** ** The state-and-exception monad

    A computation reads and writes a state [S] (the attributes of [self]),
    appends to the trace, and returns or raises.  What was written before an
    exception stays written, as in Python. *)
Definition M (S A : Type) : Type := S → trace → result A * S * trace.

Definition ret {S A} (a : A) : M S A := λ s tr, (Ok a, s, tr).

Definition bind {S A B} (m : M S A) (f : A → M S B) : M S B :=
  λ s tr,
    match m s tr with
    | (Ok a, s', tr') => f a s' tr'
    | (Raise e, s', tr') => (Raise e, s', tr')
    end.

#[global] Instance M_ret {S} : MRet (M S) := λ A, ret.
#[global] Instance M_bind {S} : MBind (M S) := λ A B f m, bind m f.

Definition raise {S A} (e : exn) : M S A := λ s tr, (Raise e, s, tr).
Definition get {S} : M S S := λ s tr, (Ok s, s, tr).
Definition modify {S} (f : S → S) : M S unit := λ s tr, (Ok tt, f s, tr).
Definition emit {S} (ev : event) : M S unit := λ s tr, (Ok tt, s, tr ++ [ev]).
Definition history {S} : M S trace := λ s tr, (Ok tr, s, tr).

(** A pure operation that may raise. *)
Definition lift_result {S A} (r : result A) : M S A := λ s tr, (r, s, tr).

(** [try: body / except Exception: handler]. *)
Definition try_except_Exception {S A} (body handler : M S A) : M S A :=
  λ s tr,
    match body s tr with
    | (Raise e, s', tr') =>
        if is_Exception e then handler s' tr' else (Raise e, s', tr')
    | r => r
    end.

(** ** The transport: what [pytuya] hands back

    The connection object is opaque.  Each of its methods answers from the
    history of calls so far, so that a transport may succeed once and fail
    the next time. *)
Record Interface := {
  if_set_dp : trace → scalar → scalar → option string → result unit;
  if_set_dps : trace → list (scalar * scalar) → option string → result unit;
  if_status : trace → option string → result pyval;
  if_close : trace → result unit;
}.

(** ** Persisted configuration

    One entry of [config_entry[CONF_ENTITIES]], as the configuration flow
    stores it.  The keys are the constants of [const.py]; a key that may be
    missing from the dictionary is an [option]. *)
Record RefreshConfig := {
  CONF_ZIGBEE_REFRESH_DP : scalar;
  CONF_ZIGBEE_REFRESH_VALUE : scalar;
  CONF_ZIGBEE_REFRESH_INITIAL_VALUE : option scalar;
}.

Record ZigbeeConfig := {
  CONF_ZIGBEE_CID : string;
  CONF_ZIGBEE_REFRESH : option RefreshConfig;
}.

(** The keys a platform reads with [self._config.get(key)]. *)
Inductive conf_key :=
  | CONF_TARGET_TEMPERATURE_DP
  | CONF_CURRENT_TEMPERATURE_DP
  | CONF_HVAC_MODE_DP
  | CONF_PRESET_MODE_DP
  | CONF_MAX_TEMP_DP
  | CONF_MIN_TEMP_DP.

Record EntityConfig := {
  CONF_ID : scalar;
  CONF_ZIGBEE : option ZigbeeConfig;
  platform_conf : conf_key → option scalar;
}.

(** ** class TuyaDevice *)
Module TuyaDevice.

(** What [self._connect_task] refers to: a task still running
    [_make_connection], or one that is done with a result. *)
Inductive task :=
  | TaskPending
  | TaskDone (r : result unit).

(** The closure [refresh_callback] that [refresh_subdevice] stores: it
    captures [cid], [dp] and [initial_value]. *)
Record refresh_closure := {
  rc_cid : string;
  rc_dp : scalar;
  rc_initial_value : scalar;
}.

(** The attributes of a device.  [_refresh_callbacks] is created by the
    first [refresh_subdevice]; until then the attribute does not exist
    ([None]).  [pytuya_connect] is the module function [pytuya.connect]. *)
Record t := mk {
  _config_entry : list EntityConfig;
  pytuya_connect : trace → result Interface;
  _interface : option Interface;
  _status : gmap string pyval;
  _is_closing : bool;
  _connect_task : option task;
  _refresh_callbacks : option (gmap string refresh_closure);
}.

Definition set_interface (i : option Interface) (d : t) : t :=
  mk (_config_entry d) (pytuya_connect d) i (_status d) (_is_closing d)
     (_connect_task d) (_refresh_callbacks d).
Definition set_status (s : gmap string pyval) (d : t) : t :=
  mk (_config_entry d) (pytuya_connect d) (_interface d) s (_is_closing d)
     (_connect_task d) (_refresh_callbacks d).
Definition set_is_closing (b : bool) (d : t) : t :=
  mk (_config_entry d) (pytuya_connect d) (_interface d) (_status d) b
     (_connect_task d) (_refresh_callbacks d).
Definition set_connect_task (k : option task) (d : t) : t :=
  mk (_config_entry d) (pytuya_connect d) (_interface d) (_status d)
     (_is_closing d) k (_refresh_callbacks d).
Definition set_refresh_callbacks (c : option (gmap string refresh_closure))
    (d : t) : t :=
  mk (_config_entry d) (pytuya_connect d) (_interface d) (_status d)
     (_is_closing d) (_connect_task d) c.

(** [__init__] *)
Definition init (config : list EntityConfig)
    (connect : trace → result Interface) : t :=
  mk config connect None ∅ false None None.

(** [connected] *)
Definition connected (self : t) : bool :=
  match _interface self with Some _ => true | None => false end.

(** [async_connect].  The connection object defines neither [__bool__] nor
    [__len__], so [not self._interface] is [self._interface is None]. *)
Definition async_connect : M t unit :=
  self ← get;
  if negb (_is_closing self)
     && bool_decide (_connect_task self = None :> option task)
     && negb (connected self)
  then emit EvCreateTask;; modify (set_connect_task (Some TaskPending))
  else mret tt.

(** [status_updated(status, cid)]: the merge into [self._status], then the
    dispatch of the whole cache.  In [self._status[cid].update(status[cid])]
    the method is looked up before its argument is evaluated. *)
Definition status_updated (status : pyval) (cid : option string) : M t unit :=
  self ← get;
  match cid_truthy cid with
  | Some c =>
      match _status self !! c with
      | Some old =>
          match old with
          | PyDict store =>
              sub ← lift_result (py_getitem status c);
              store' ← lift_result (dict_update store sub);
              modify (set_status (<[c := PyDict store']> (_status self)))
          | PyScalar _ => raise AttributeError
          end
      | None =>
          sub ← lift_result (py_getitem status c);
          modify (set_status (<[c := sub]> (_status self)))
      end
  | None =>
      top ← lift_result (dict_update (_status self) status);
      modify (set_status top)
  end;;
  self ← get;
  emit (EvDispatch (PyDict (_status self))).

(** [self._interface.set_dps(states, cid)], called on the attribute
    without a guard: [None] has no such method. *)
Definition interface_set_dps (states : list (scalar * scalar))
    (cid : option string) : M t unit :=
  self ← get;
  match _interface self with
  | Some i =>
      emit (EvSetDps states cid);;
      h ← history;
      lift_result (if_set_dps i h states cid)
  | None => raise AttributeError
  end.

(** [status(cid)].  A transport that returns [None] is turned into an
    exception, and every [Exception] of the body is logged and dropped. *)
Definition status (cid : option string) : M t unit :=
  self ← get;
  match _interface self with
  | Some i =>
      emit (EvLog Debug);;
      try_except_Exception
        (emit (EvStatus cid);;
         h ← history;
         st ← lift_result (if_status i h cid);
         match st with
         | PyScalar SNone => raise OtherException
         | _ => status_updated st cid
         end)
        (emit (EvLog Exception))
  | None => emit (EvLog Error)
  end.

(** [set_dp(state, dp_index, cid)] *)
Definition set_dp (state dp_index : scalar) (cid : option string) : M t unit :=
  self ← get;
  match _interface self with
  | Some i =>
      try_except_Exception
        (emit (EvSetDp state dp_index cid);;
         h ← history;
         lift_result (if_set_dp i h state dp_index cid))
        (emit (EvLog Exception))
  | None => emit (EvLog Error)
  end.

(** [set_dps(states, cid)] *)
Definition set_dps (states : list (scalar * scalar)) (cid : option string)
  : M t unit :=
  self ← get;
  match _interface self with
  | Some i =>
      try_except_Exception (interface_set_dps states cid) (emit (EvLog Exception))
  | None => emit (EvLog Error)
  end.

(** The inner function [refresh_callback] of [refresh_subdevice]. *)
Definition refresh_callback (rc : refresh_closure) : M t unit :=
  self ← get;
  (* del self._refresh_callbacks[cid] *)
  match _refresh_callbacks self with
  | Some cbs =>
      match cbs !! rc_cid rc with
      | Some _ => modify (set_refresh_callbacks (Some (delete (rc_cid rc) cbs)))
      | None => raise KeyError
      end
  | None => raise AttributeError
  end;;
  emit (EvLog Debug);;
  (if scalar_truthy (rc_initial_value rc)
   then emit (EvLog Debug);;
        interface_set_dps [(rc_dp rc, rc_initial_value rc)] (Some (rc_cid rc))
   else mret tt);;
  status (Some (rc_cid rc)).

(** [refresh_subdevice(cid, dp, value, initial_value=None)] *)
Definition refresh_subdevice (cid : string) (dp value initial_value : scalar)
  : M t unit :=
  emit (EvLog Debug);;
  self ← get;
  (* if not hasattr(self, '_refresh_callbacks'): self._refresh_callbacks = {} *)
  let cbs := default ∅ (_refresh_callbacks self) in
  modify (set_refresh_callbacks
            (Some (<[cid := {| rc_cid := cid; rc_dp := dp;
                               rc_initial_value := initial_value |}]> cbs)));;
  interface_set_dps [(dp, value)] (Some cid).

(** The loop of [_make_connection] over the configured entities; it
    returns [request_status]. *)
Fixpoint query_subdevices (entities : list EntityConfig) (request_status : bool)
  : M t bool :=
  match entities with
  | [] => mret request_status
  | entity :: rest =>
      match CONF_ZIGBEE entity with
      | Some zigbee =>
          match CONF_ZIGBEE_REFRESH zigbee with
          | Some refresh =>
              refresh_subdevice (CONF_ZIGBEE_CID zigbee)
                (CONF_ZIGBEE_REFRESH_DP refresh)
                (CONF_ZIGBEE_REFRESH_VALUE refresh)
                (default SNone (CONF_ZIGBEE_REFRESH_INITIAL_VALUE refresh))
          | None => status (Some (CONF_ZIGBEE_CID zigbee))
          end;;
          query_subdevices rest false
      | None => query_subdevices rest request_status
      end
  end.

(** [_make_connection], the body of the connection task, run from its
    first line to its end.  A cancellation of the task shows as
    [CancelledError] raised by the call it is suspended in. *)
Definition _make_connection : M t unit :=
  emit (EvLog Debug);;
  try_except_Exception
    (emit EvConnect;;
     h ← history;
     self ← get;
     i ← lift_result (pytuya_connect self h);
     modify (set_interface (Some i));;
     emit EvAddDpsToRequest;;
     self ← get;
     request_status ← query_subdevices (_config_entry self) true;
     if (request_status : bool) then status None else mret tt)
    (emit (EvLog Exception);;
     self ← get;
     match _interface self with
     | Some i =>
         emit EvInterfaceClose;;
         h ← history;
         lift_result (if_close i h);;
         modify (set_interface None)
     | None => mret tt
     end);;
  modify (set_connect_task None).

(** [self._connect_task.cancel()] followed by [await self._connect_task].
    Cancelling a pending task throws [CancelledError] into
    [_make_connection] at the call it is suspended in; all its handlers
    are [except Exception], so the task ends cancelled, before its last
    line.  Awaiting a task that is done returns its result or raises its
    exception; for a cancelled task that is [CancelledError].  On a task
    that is done, [cancel] does nothing. *)
Definition cancel_and_await (k : task) : M t unit :=
  emit EvTaskCancel;;
  match k with
  | TaskPending =>
      modify (set_connect_task (Some (TaskDone (Raise CancelledError))));;
      raise CancelledError
  | TaskDone r => lift_result r
  end.

(** [close] *)
Definition close : M t unit :=
  modify (set_is_closing true);;
  self ← get;
  match _connect_task self with
  | Some k => cancel_and_await k
  | None => mret tt
  end;;
  self ← get;
  match _interface self with
  | Some i =>
      emit EvInterfaceClose;;
      h ← history;
      lift_result (if_close i h)
  | None => mret tt
  end.

(** [disconnected] *)
Definition disconnected : M t unit :=
  emit (EvDispatch (PyScalar SNone));;
  modify (set_interface None);;
  emit (EvLog Debug).

End TuyaDevice.

(** ** References to dictionaries

    Python hands a dictionary on by reference.  The device publishes its
    cache itself, not a copy; the handler of an entity takes the cache or a
    part of it and stores that in [self._status]; and
    [TuyaDevice.status_updated] goes on changing both in place.  A [ref]
    says which object a variable of the handler, or the attribute [_status]
    of an entity, refers to.  What is in it is read from the device at the
    moment of the read.

    [Own v] is a value that no one else changes: [None], a scalar, a
    dictionary of one's own such as the [{}] the handler creates, or a value
    taken out of a dictionary of the second level, where values are replaced
    and never changed in place.  [Cache] is the dictionary [self._status] of
    the device.  [Store cid] is the dictionary the cache holds under [cid]:
    updates scoped to [cid] change it in place.  Only an unscoped update
    that has [cid] among its keys puts another dictionary in its place, and
    [Store cid] then follows the cache.  The dictionaries of a payload are
    new ones, which the transport hands over and does not keep. *)
Inductive ref :=
  | Own (v : pyval)
  | Cache
  | Store (cid : string).

Coercion Own : pyval >-> ref.

(** What a reference refers to, read now. *)
Definition deref (device : TuyaDevice.t) (r : ref) : pyval :=
  match r with
  | Own v => v
  | Cache => PyDict (TuyaDevice._status device)
  | Store cid => default (PyScalar SNone) (TuyaDevice._status device !! cid)
  end.

(** [cache.get(k)]: the dictionary the cache holds under [k], itself; or
    the scalar it holds there; or [None]. *)
Definition cache_get (device : TuyaDevice.t) (k : string) : ref :=
  match TuyaDevice._status device !! k with
  | Some (PyDict _) => Store k
  | Some (PyScalar a) => Own (PyScalar a)
  | None => Own (PyScalar SNone)
  end.

(** [r.get(k)] *)
Definition ref_get (device : TuyaDevice.t) (r : ref) (k : string) : result ref :=
  match r with
  | Cache => Ok (cache_get device k)
  | Own _ | Store _ =>
      match py_get (deref device r) k with
      | Ok v => Ok (Own v)
      | Raise e => Raise e
      end
  end.

(** ** class LocalTuyaEntity *)
Module LocalTuyaEntity.

(** The method [status_updated] of the entity's class, which the update
    handler calls after it has stored a status: what it makes of the status
    it finds in [self._status], that is, whether it returns or raises and
    which calls it makes on the way (the warnings of [dps], for one).  The
    attributes it sets belong to the platform class. *)
Definition hook : Type := pyval → result unit * trace.

(** [status_updated] of class [LocalTuyaEntity] itself: "Override in
    subclasses"; it does nothing. *)
Definition status_updated_base : hook := λ _, (Ok tt, []).

(** The attributes of an entity, and the status hook of its class.
    [_status] starts as a [{}] of the entity's own and is later what the
    update handler stores: a reference. *)
Record t := mk {
  _cid : option string;
  _dp_id : scalar;
  _config : EntityConfig;
  _status : ref;
  status_updated : hook;
}.

Definition set_status (s : ref) (e : t) : t :=
  mk (_cid e) (_dp_id e) (_config e) s (status_updated e).

(** A method of the entity that also reaches into [self._device]. *)
Definition state : Type := t * TuyaDevice.t.

(** What [self._status] holds at this moment. *)
Definition status_of (s : state) : pyval := deref s.2 (_status s.1).

Definition on_self (f : t → t) : M state unit :=
  modify (λ s : state, (f s.1, s.2)).

(** A method of the device called from the entity. *)
Definition on_device {A} (m : M TuyaDevice.t A) : M state A :=
  λ s tr, let '(r, d, tr') := m s.2 tr in (r, (s.1, d), tr').

(** The call of the hook: its calls go to the trace, and it returns or
    raises. *)
Definition call_hook (outcome : result unit * trace) : M state unit :=
  λ s tr, (outcome.1, s, tr ++ outcome.2).

(** The tail of [_update_handler]: store and call the hook, or clear; then
    refresh the presentation.  An exception of the hook ends the handler. *)
Definition store_status (status : ref) : M state unit :=
  s ← get;
  (if truthy (deref s.2 status)
   then on_self (set_status status);;
        emit EvHook;;
        s ← get;
        call_hook (status_updated s.1 (status_of s))
   else on_self (set_status (PyDict ∅)));;
  emit EvScheduleUpdate.

(** [_update_handler(status)], the subscriber of the device's signal. *)
Definition _update_handler (status : ref) : M state unit :=
  s ← get;
  let self : t := s.1 in
  let device : TuyaDevice.t := s.2 in
  match cid_truthy (_cid self) with
  | Some cid =>
      status ← lift_result (ref_get device status cid);
      if truthy (deref device status) then
        (* self._cid in self._device._refresh_callbacks *)
        match TuyaDevice._refresh_callbacks device with
        | Some cbs =>
            match cbs !! cid with
            | Some callback => on_device (TuyaDevice.refresh_callback callback)
            | None => store_status status
            end
        | None => raise AttributeError
        end
      else store_status status
  | None => store_status status
  end.

(** [has_config(attr)] *)
Definition has_config (self : t) (attr : conf_key) : bool :=
  match platform_conf (_config self) attr with
  | Some SNone => false
  | Some (SStr s) => negb (String.eqb s "-1")
  | Some _ => true
  | None => false
  end.

(** [available] *)
Definition available (s : state) : result bool :=
  py_contains (py_str (_dp_id s.1)) (status_of s).

(** [dps(dp_index)] *)
Definition dps (dp_index : scalar) : M state pyval :=
  s ← get;
  value ← lift_result (py_get (status_of s) (py_str dp_index));
  match value with
  | PyScalar SNone => emit (EvLog Warning)
  | _ => mret tt
  end;;
  mret value.

(** [dps_conf(conf_item)] *)
Definition dps_conf (conf_item : conf_key) : M state pyval :=
  s ← get;
  let dp_index := default SNone (platform_conf (_config s.1) conf_item) in
  match dp_index with
  | SNone => emit (EvLog Warning)
  | _ => mret tt
  end;;
  dps dp_index.

(** [set_dp(state, dp_index)] *)
Definition set_dp (value dp_index : scalar) : M state unit :=
  s ← get;
  on_device (TuyaDevice.set_dp value dp_index (_cid s.1)).

(** [set_dps(states)] *)
Definition set_dps (states : list (scalar * scalar)) : M state unit :=
  s ← get;
  on_device (TuyaDevice.set_dps states (_cid s.1)).

End LocalTuyaEntity.

(** ** The dispatcher

    [async_dispatcher_send(hass, signal, payload)] runs every handler
    connected to the signal on the payload, each as a job of its own: an
    exception ends that job and no other.  The payload is the object the
    device sent: its cache ([Cache]) or the sentinel [None].  The handlers
    run one after the other on the event loop; each finds the device as the
    one before left it.  A handler is run to its end here, the calls of its
    callback on the transport included, before the next one starts. *)
Fixpoint deliver (payload : ref) (subscribers : list LocalTuyaEntity.t)
    (device : TuyaDevice.t) (tr : trace)
  : list (result unit * LocalTuyaEntity.t) * TuyaDevice.t * trace :=
  match subscribers with
  | [] => ([], device, tr)
  | e :: rest =>
      let '(r, s, tr') := LocalTuyaEntity._update_handler payload (e, device) tr in
      let '(rs, device', tr'') := deliver payload rest s.2 tr' in
      ((r, s.1) :: rs, device', tr'')
  end.

(** ** class LocaltuyaClimate *)
Module LocaltuyaClimate.

(** Constants of [homeassistant.components.climate.const]. *)
Definition HVAC_MODE_HEAT : string := "heat".
Definition PRESET_ECO : string := "eco".
Definition PRESET_BOOST : string := "boost".
Definition PRESET_COMFORT : string := "comfort".
Definition PRESET_AWAY : string := "away".
Definition PRESET_HOME : string := "home".

(** [PRESET_REMAP], in the order of the literal; [PRESET_BOOST.upper()]
    is written out. *)
Definition PRESET_REMAP : list (string * string) :=
  [(PRESET_AWAY, "holiday"); (PRESET_BOOST, "BOOST"); (PRESET_HOME, "manual")].

(** [HVAC_PRESET_REMAP = {HVAC_MODE_HEAT: PRESET_REMAP[PRESET_HOME]}] *)
Definition HVAC_PRESET_REMAP : list (string * string) :=
  [(HVAC_MODE_HEAT, "manual")].

(** [d[k]] and [k in d] for such a table. *)
Fixpoint table_get (d : list (string * string)) (k : string) : option string :=
  match d with
  | [] => None
  | (k', v) :: rest => if String.eqb k' k then Some v else table_get rest k
  end.

(** [v == s] for a string [s]: only an equal string compares equal. *)
Definition py_eq_str (v : pyval) (s : string) : bool :=
  match v with
  | PyScalar (SStr x) => String.eqb x s
  | _ => false
  end.

(** What a property or method hands back: a value, or the instance
    [NotImplementedError()], returned and not raised. *)
Inductive returned (A : Type) :=
  | Value (v : A)
  | NotImplementedError_instance.
Arguments Value {A} v.
Arguments NotImplementedError_instance {A}.

Record t := mk {
  entity : LocalTuyaEntity.t;
  _preset_mode : pyval;
}.

Definition state : Type := t * TuyaDevice.t.

Definition has_config (self : t) (attr : conf_key) : bool :=
  LocalTuyaEntity.has_config (entity self) attr.

(** [self.set_dp(state, dp_index)], inherited. *)
Definition set_dp (value dp_index : scalar) : M state unit :=
  λ s tr,
    let '(r, s', tr') := LocalTuyaEntity.set_dp value dp_index (entity s.1, s.2) tr in
    (r, (mk s'.1 (_preset_mode s.1), s'.2), tr').

(** [[PRESET_COMFORT, PRESET_ECO] + list(PRESET_REMAP.keys())] *)
Definition preset_list : list string :=
  [PRESET_COMFORT; PRESET_ECO] ++ PRESET_REMAP.*1.

(** [preset_modes] *)
Definition preset_modes (self : t) : returned (list string) :=
  if has_config self CONF_PRESET_MODE_DP
  then Value preset_list
  else NotImplementedError_instance.

(** The loop [for preset in PRESET_REMAP: if PRESET_REMAP[preset] == v:
    return preset]. *)
Fixpoint remapped_from (d : list (string * string)) (v : pyval) : option string :=
  match d with
  | [] => None
  | (preset, code) :: rest =>
      if py_eq_str v code then Some preset else remapped_from rest v
  end.

(** [preset_mode].  Where it reads [self.preset_modes] the key is
    configured, so the property is the list. *)
Definition preset_mode (self : t) : returned pyval :=
  if has_config self CONF_PRESET_MODE_DP then
    match remapped_from PRESET_REMAP (_preset_mode self) with
    | Some preset => Value (PyScalar (SStr preset))
    | None =>
        if existsb (py_eq_str (_preset_mode self)) preset_list
        then Value (_preset_mode self)
        else Value (PyScalar (SStr PRESET_HOME))
    end
  else NotImplementedError_instance.

(** [async_set_preset_mode(preset_mode)]; a method that falls off its end
    returns [None]. *)
Definition async_set_preset_mode (preset_mode : string) : M state (returned scalar) :=
  s ← get;
  if has_config s.1 CONF_PRESET_MODE_DP then
    set_dp (SStr (default preset_mode (table_get PRESET_REMAP preset_mode)))
           (default SNone (platform_conf (LocalTuyaEntity._config (entity s.1))
                             CONF_PRESET_MODE_DP));;
    mret (Value SNone)
  else mret NotImplementedError_instance.

(** [async_set_hvac_mode(hvac_mode)] *)
Definition async_set_hvac_mode (hvac_mode : string) : M state (returned scalar) :=
  s ← get;
  match table_get HVAC_PRESET_REMAP hvac_mode with
  | Some preset =>
      async_set_preset_mode preset;;
      mret (Value SNone)
  | None =>
      if has_config s.1 CONF_HVAC_MODE_DP then
        set_dp (SStr hvac_mode)
               (default SNone (platform_conf (LocalTuyaEntity._config (entity s.1))
                                 CONF_HVAC_MODE_DP));;
        mret (Value SNone)
      else mret NotImplementedError_instance
  end.

End LocaltuyaClimate.

(** ** [LocaltuyaClimate.status_updated], the status hook of the climate
    platform *)
Module ClimateStatus.

(** Constants of [homeassistant.components.climate.const]. *)
Definition CURRENT_HVAC_HEAT : string := "heating".
Definition CURRENT_HVAC_IDLE : string := "idle".

(** [self._precision]: what the configuration flow offers for
    [CONF_PRECISION], that is [PRECISION_WHOLE] (the int 1),
    [PRECISION_HALVES] (0.5) or [PRECISION_TENTHS] (0.1, the default). *)
Inductive precision :=
  | PRECISION_WHOLE
  | PRECISION_HALVES
  | PRECISION_TENTHS.

(** A temperature as the hook computes it: the product of a datapoint value
    and the precision, kept as its two factors; or, for a string and the
    int precision, that string repeated once. *)
Inductive temperature :=
  | Times (z : Z) (p : precision)
  | Repeated (s : string).

(** [value * self._precision].  A number can be multiplied, [True] and
    [False] being 1 and 0; for a float precision the int is converted to a
    float first, which raises [OverflowError] from [2**1024 - 2**970] on.
    A string can be multiplied by an int only; [None] and a dictionary not
    at all. *)
Definition times_precision (value : pyval) (p : precision) : result temperature :=
  match value, p with
  | PyScalar (SInt z), PRECISION_WHOLE => Ok (Times z p)
  | PyScalar (SInt z), _ =>
      if Z.abs z <? 2 ^ 1024 - 2 ^ 970 then Ok (Times z p)
      else Raise OtherException
  | PyScalar (SBool b), _ => Ok (Times (if b then 1 else 0) p)
  | PyScalar (SStr s), PRECISION_WHOLE => Ok (Repeated s)
  | _, _ => Raise TypeError
  end.

(** The attributes the hook assigns; [__init__] sets each to [None]. *)
Record t := mk {
  _state : pyval;
  _hvac_action : pyval;
  _target_temperature : option temperature;
  _current_temperature : option temperature;
  _min_temp : pyval;
  _max_temp : pyval;
  _hvac_mode : pyval;
  _preset_mode : pyval;
}.

Definition init : t :=
  mk (PyScalar SNone) (PyScalar SNone) None None (PyScalar SNone)
     (PyScalar SNone) (PyScalar SNone) (PyScalar SNone).

Definition set_state (v : pyval) (a : t) : t :=
  mk v (_hvac_action a) (_target_temperature a) (_current_temperature a)
     (_min_temp a) (_max_temp a) (_hvac_mode a) (_preset_mode a).
Definition set_hvac_action (v : pyval) (a : t) : t :=
  mk (_state a) v (_target_temperature a) (_current_temperature a)
     (_min_temp a) (_max_temp a) (_hvac_mode a) (_preset_mode a).
Definition set_target_temperature (v : temperature) (a : t) : t :=
  mk (_state a) (_hvac_action a) (Some v) (_current_temperature a)
     (_min_temp a) (_max_temp a) (_hvac_mode a) (_preset_mode a).
Definition set_current_temperature (v : temperature) (a : t) : t :=
  mk (_state a) (_hvac_action a) (_target_temperature a) (Some v)
     (_min_temp a) (_max_temp a) (_hvac_mode a) (_preset_mode a).
Definition set_min_temp (v : pyval) (a : t) : t :=
  mk (_state a) (_hvac_action a) (_target_temperature a) (_current_temperature a)
     v (_max_temp a) (_hvac_mode a) (_preset_mode a).
Definition set_max_temp (v : pyval) (a : t) : t :=
  mk (_state a) (_hvac_action a) (_target_temperature a) (_current_temperature a)
     (_min_temp a) v (_hvac_mode a) (_preset_mode a).
Definition set_hvac_mode (v : pyval) (a : t) : t :=
  mk (_state a) (_hvac_action a) (_target_temperature a) (_current_temperature a)
     (_min_temp a) (_max_temp a) v (_preset_mode a).
Definition set_preset_mode (v : pyval) (a : t) : t :=
  mk (_state a) (_hvac_action a) (_target_temperature a) (_current_temperature a)
     (_min_temp a) (_max_temp a) (_hvac_mode a) v.

(** The hook runs on the climate attributes, the attributes of the entity
    and, through [self._status], the device. *)
Definition state : Type := t * LocalTuyaEntity.state.

Definition assign (f : t → t) : M state unit :=
  modify (λ s : state, (f s.1, s.2)).

(** An inherited method. *)
Definition inherited {A} (m : M LocalTuyaEntity.state A) : M state A :=
  λ s tr, let '(r, e, tr') := m s.2 tr in (r, (s.1, e), tr').

(** [status_updated] *)
Definition status_updated (_precision : precision) : M state unit :=
  s ← get;
  let self : LocalTuyaEntity.t := s.2.1 in
  value ← inherited (LocalTuyaEntity.dps (LocalTuyaEntity._dp_id self));
  assign (set_state value);;
  assign (set_hvac_action
            (PyScalar (SStr (if truthy value then CURRENT_HVAC_HEAT
                             else CURRENT_HVAC_IDLE))));;
  (if LocalTuyaEntity.has_config self CONF_TARGET_TEMPERATURE_DP
   then value ← inherited (LocalTuyaEntity.dps_conf CONF_TARGET_TEMPERATURE_DP);
        product ← lift_result (times_precision value _precision);
        assign (set_target_temperature product)
   else mret tt);;
  (if LocalTuyaEntity.has_config self CONF_CURRENT_TEMPERATURE_DP
   then value ← inherited (LocalTuyaEntity.dps_conf CONF_CURRENT_TEMPERATURE_DP);
        product ← lift_result (times_precision value _precision);
        assign (set_current_temperature product)
   else mret tt);;
  (if LocalTuyaEntity.has_config self CONF_MIN_TEMP_DP
   then value ← inherited (LocalTuyaEntity.dps_conf CONF_MIN_TEMP_DP);
        assign (set_min_temp value)
   else mret tt);;
  (if LocalTuyaEntity.has_config self CONF_MAX_TEMP_DP
   then value ← inherited (LocalTuyaEntity.dps_conf CONF_MAX_TEMP_DP);
        assign (set_max_temp value)
   else mret tt);;
  (if LocalTuyaEntity.has_config self CONF_HVAC_MODE_DP
   then value ← inherited (LocalTuyaEntity.dps_conf CONF_HVAC_MODE_DP);
        assign (set_hvac_mode value)
   else assign (set_hvac_mode (PyScalar (SStr LocaltuyaClimate.HVAC_MODE_HEAT))));;
  (if LocalTuyaEntity.has_config self CONF_PRESET_MODE_DP
   then value ← inherited (LocalTuyaEntity.dps_conf CONF_PRESET_MODE_DP);
        assign (set_preset_mode value)
   else mret tt).

(** The hook as the update handler of a climate entity meets it: how
    [status_updated] ends on the status just stored, and the calls it
    makes.  It reads the status through [self._status] and nothing else of
    the device, and none of the climate attributes. *)
Definition hook (_precision : precision) (cid : option string) (dp_id : scalar)
    (config : EntityConfig) : LocalTuyaEntity.hook :=
  λ status,
    let self :=
      LocalTuyaEntity.mk cid dp_id config (Own status)
        LocalTuyaEntity.status_updated_base in
    let device := TuyaDevice.init [] (λ _, Raise OtherException) in
    let '(r, _, calls) := status_updated _precision (init, (self, device)) [] in
    (r, calls).

(** A climate entity as its class builds it. *)
Definition entity (_precision : precision) (cid : option string) (dp_id : scalar)
    (config : EntityConfig) : LocalTuyaEntity.t :=
  LocalTuyaEntity.mk cid dp_id config (PyDict ∅)
    (hook _precision cid dp_id config).

End ClimateStatus.

(** * Vocabulary and scenarios of the properties *)

(** The per-cid store of a device's cache; empty when there is none. *)
Definition store_of (dev : TuyaDevice.t) (cid : string) : gmap string pyval :=
  match TuyaDevice._status dev !! cid with
  | Some (PyDict m) => m
  | _ => ∅
  end.

(** What is under [cid] in the cache, if anything, is a dictionary. *)
Definition store_ok (dev : TuyaDevice.t) (cid : string) : Prop :=
  ∀ v, TuyaDevice._status dev !! cid = Some v → ∃ old, v = PyDict old.

(** A device as [__init__] leaves it, with no entity configured and a
    transport that cannot be reached. *)
Definition fresh_device : TuyaDevice.t :=
  TuyaDevice.init [] (λ _, Raise OtherException).

(** How many connection tasks a trace has created. *)
Definition is_create_task (ev : event) : bool :=
  match ev with
  | EvCreateTask => true
  | _ => false
  end.

Definition tasks_created (tr : trace) : nat :=
  length (List.filter is_create_task tr).

(** The three conditions under which [async_connect] does nothing. *)
Definition guarded (dev : TuyaDevice.t) : Prop :=
  TuyaDevice._is_closing dev = true
  ∨ TuyaDevice._connect_task dev ≠ None
  ∨ TuyaDevice._interface dev ≠ None.

(** An entity whose local status is, at this moment, the dictionary [m]. *)
Definition holds (s : LocalTuyaEntity.state) (m : gmap string pyval) : Prop :=
  LocalTuyaEntity.status_of s = PyDict m.

(** A switch on datapoint 1 of the device itself, configured with a target
    temperature on datapoint 2, that has heard of datapoint 1 only. *)
Definition entity_1 : LocalTuyaEntity.t :=
  LocalTuyaEntity.mk None (SInt 1)
    {| CONF_ID := SInt 1; CONF_ZIGBEE := None;
       platform_conf := λ k, match k with
                             | CONF_TARGET_TEMPERATURE_DP => Some (SInt 2)
                             | _ => None
                             end |}
    (PyDict {["1"%string := PyScalar (SBool true)]})
    LocalTuyaEntity.status_updated_base.

(** The events only an entity emits. *)
Definition is_entity_event (ev : event) : bool :=
  match ev with
  | EvHook | EvScheduleUpdate => true
  | _ => false
  end.

Definition no_entity_event (evs : trace) : Prop :=
  forallb (negb ∘ is_entity_event) evs = true.

(** The calls made on the transport, in order. *)
Definition is_transport_call (ev : event) : bool :=
  match ev with
  | EvSetDp _ _ _ | EvSetDps _ _ | EvStatus _ => true
  | _ => false
  end.

Definition transport_calls (evs : trace) : trace :=
  List.filter is_transport_call evs.

(** The closure [refresh_subdevice] registers. *)
Definition closure_of (cid : string) (dp initial_value : scalar)
  : TuyaDevice.refresh_closure :=
  {| TuyaDevice.rc_cid := cid; TuyaDevice.rc_dp := dp;
     TuyaDevice.rc_initial_value := initial_value |}.

(** The sub-map of a published snapshot that an entity of [cid] looks at. *)
Definition sub_map (p : gmap string pyval) (cid : string) : pyval :=
  default (PyScalar SNone) (p !! cid).

(** *** The scenario of sub-device "30"

    A bridge whose transport accepts every write and answers a status query
    for a sub-device with that sub-device's datapoints.  Sub-device "30" is
    refreshed by writing [true] to datapoint "101", with seed [false]. *)
Definition accepting_interface : Interface :=
  {| if_set_dp := λ _ _ _ _, Ok tt;
     if_set_dps := λ _ _ _, Ok tt;
     if_status := λ _ cid,
       match cid with
       | Some c =>
           Ok (PyDict {[c := PyDict {["101"%string := PyScalar (SBool false);
                                      "2"%string := PyScalar (SStr "off")]}]})
       | None => Ok (PyDict {["1"%string := PyScalar (SStr "on")]})
       end;
     if_close := λ _, Ok tt |}.

Definition connected_device : TuyaDevice.t :=
  TuyaDevice.set_interface (Some accepting_interface) fresh_device.

(** [refresh("30", "101", true, false)] on the connected device. *)
Definition armed_device : TuyaDevice.t :=
  (TuyaDevice.refresh_subdevice "30" (SStr "101") (SBool true) (SBool false)
     connected_device []).1.2.

(** The entity of datapoint "2" of sub-device "30", built from the id
    "30_2"; it has not heard of the device yet. *)
Definition entity_30 : LocalTuyaEntity.t :=
  LocalTuyaEntity.mk (Some "30"%string) (SStr "2")
    {| CONF_ID := SInt 2;
       CONF_ZIGBEE := Some {| CONF_ZIGBEE_CID := "30";
                              CONF_ZIGBEE_REFRESH :=
                                Some {| CONF_ZIGBEE_REFRESH_DP := SStr "101";
                                        CONF_ZIGBEE_REFRESH_VALUE := SBool true;
                                        CONF_ZIGBEE_REFRESH_INITIAL_VALUE :=
                                          Some (SBool false) |} |};
       platform_conf := λ _, None |}
    (PyDict ∅)
    LocalTuyaEntity.status_updated_base.

(** The echo of the trigger write, and real data. *)
Definition echo_30 : gmap string pyval :=
  {["30"%string := PyDict {["101"%string := PyScalar (SBool true)]}]}.

Definition data_30 : gmap string pyval :=
  {["30"%string := PyDict {["101"%string := PyScalar (SBool false);
                            "2"%string := PyScalar (SStr "off")]}]}.

(** The device of the two-entity scenario: entity A on datapoint "1" of the
    device itself, entity B on datapoint "2" of sub-device "26"; both have
    received a status. *)
Definition entity_A : LocalTuyaEntity.t :=
  LocalTuyaEntity.mk None (SInt 1)
    {| CONF_ID := SInt 1; CONF_ZIGBEE := None; platform_conf := λ _, None |}
    (PyDict {["1"%string := PyScalar (SStr "on")]})
    LocalTuyaEntity.status_updated_base.

Definition entity_B : LocalTuyaEntity.t :=
  LocalTuyaEntity.mk (Some "26"%string) (SStr "2")
    {| CONF_ID := SInt 2;
       CONF_ZIGBEE := Some {| CONF_ZIGBEE_CID := "26";
                              CONF_ZIGBEE_REFRESH := None |};
       platform_conf := λ _, None |}
    (PyDict {["2"%string := PyScalar (SStr "off")]})
    LocalTuyaEntity.status_updated_base.

(** A device whose connection task has connected and is still querying. *)
Definition connecting_device : TuyaDevice.t :=
  TuyaDevice.set_connect_task (Some TuyaDevice.TaskPending) connected_device.

(** The value [async_set_preset_mode] writes. *)
Definition preset_code (preset_mode : string) : scalar :=
  SStr (default preset_mode
          (LocaltuyaClimate.table_get LocaltuyaClimate.PRESET_REMAP preset_mode)).

(** [self._config[key]] for a configured key. *)
Definition configured (self : LocaltuyaClimate.t) (key : conf_key) : scalar :=
  default SNone
    (platform_conf (LocalTuyaEntity._config (LocaltuyaClimate.entity self)) key).

(** How a setter of a climate entity ends that forwards the write of
    [value] to datapoint [dp_index]: on a connected device the transport is
    asked once, and what it raises is logged and dropped, a cancellation
    apart; a device without connection logs an error instead.  The setter
    returns [None] and changes neither the entity nor the device. *)
Definition forwards (value dp_index : scalar) (s : LocaltuyaClimate.state)
    (tr : trace)
  : result (LocaltuyaClimate.returned scalar) * LocaltuyaClimate.state * trace :=
  let cid := LocalTuyaEntity._cid (LocaltuyaClimate.entity s.1) in
  let write := EvSetDp value dp_index cid in
  match TuyaDevice._interface s.2 with
  | None => (Ok (LocaltuyaClimate.Value SNone), s, tr ++ [EvLog Error])
  | Some i =>
      match if_set_dp i (tr ++ [write]) value dp_index cid with
      | Ok _ => (Ok (LocaltuyaClimate.Value SNone), s, tr ++ [write])
      | Raise e =>
          if is_Exception e
          then (Ok (LocaltuyaClimate.Value SNone), s, tr ++ [write; EvLog Exception])
          else (Raise e, s, tr ++ [write])
      end
  end.

(** A climate entity on datapoint 1 with no optional datapoint configured,
    and one with the preset mode on datapoint 4, last reported "holiday". *)
Definition climate_plain : LocaltuyaClimate.t :=
  LocaltuyaClimate.mk entity_A (PyScalar SNone).

Definition climate_preset : LocaltuyaClimate.t :=
  LocaltuyaClimate.mk
    (LocalTuyaEntity.mk None (SInt 1)
       {| CONF_ID := SInt 1; CONF_ZIGBEE := None;
          platform_conf := λ k, match k with
                                | CONF_PRESET_MODE_DP => Some (SInt 4)
                                | _ => None
                                end |}
       (PyDict {["1"%string := PyScalar (SBool true);
                 "4"%string := PyScalar (SStr "holiday")]})
       LocalTuyaEntity.status_updated_base)
    (PyScalar (SStr "holiday")).

(** ** Vocabulary of the refresh of a sub-device *)

(** What the tail of the handler appends when it has stored a status and
    called the hook: the call, the calls of the hook, and a presentation
    refresh if the hook returned. *)
Definition hooked (outcome : result unit * trace) : trace :=
  EvHook :: outcome.2
  ++ match outcome.1 with
     | Ok _ => [EvScheduleUpdate]
     | Raise _ => []
     end.

(** An entity of sub-device [c]. *)
Definition scoped_to (c : string) (self : LocalTuyaEntity.t) : Prop :=
  cid_truthy (LocalTuyaEntity._cid self) = Some c.

(** The cache has data for [c]: what it holds under [c] is true in Python's
    sense. *)
Definition has_data (dev : TuyaDevice.t) (c : string) : Prop :=
  truthy (sub_map (TuyaDevice._status dev) c) = true.


(** How the handler of an entity of [c] ends when it stores the dictionary
    the cache holds under [c] and calls the hook: the result is the hook's,
    and [_status] refers to that dictionary. *)
Definition stored (c : string) (dev : TuyaDevice.t) (self : LocalTuyaEntity.t)
  : result unit * LocalTuyaEntity.t :=
  ((LocalTuyaEntity.status_updated self (sub_map (TuyaDevice._status dev) c)).1,
   LocalTuyaEntity.set_status (cache_get dev c) self).

Definition stored_events (c : string) (dev : TuyaDevice.t)
    (self : LocalTuyaEntity.t) : trace :=
  hooked (LocalTuyaEntity.status_updated self (sub_map (TuyaDevice._status dev) c)).


(** A climate entity of sub-device "30" on datapoint "2", with the target
    temperature configured on datapoint 3 and the default precision. *)
Definition config_30_climate : EntityConfig :=
  {| CONF_ID := SInt 2;
     CONF_ZIGBEE := CONF_ZIGBEE (LocalTuyaEntity._config entity_30);
     platform_conf := λ k, match k with
                           | CONF_TARGET_TEMPERATURE_DP => Some (SInt 3)
                           | _ => None
                           end |}.

Definition entity_30_climate : LocalTuyaEntity.t :=
  ClimateStatus.entity ClimateStatus.PRECISION_TENTHS (Some "30"%string)
    (SStr "2") config_30_climate.

(** The armed device after the echo of the trigger write was merged, then
    after the callback has run; and the armed device after an update with
    an empty entry for "30" was merged. *)
Definition echoed_device : TuyaDevice.t :=
  (TuyaDevice.status_updated (PyDict echo_30) (Some "30"%string)
     armed_device []).1.2.

Definition refreshed_device : TuyaDevice.t :=
  (TuyaDevice.refresh_callback (closure_of "30" (SStr "101") (SBool false))
     echoed_device []).1.2.


(** * Further code of the two modules *)

(** ** Entity ids, and the construction of an entity *)

(** [a == b] on scalars: [True] and [False] are the integers 1 and 0, and a
    string equals strings only. *)
Definition scalar_eq (a b : scalar) : bool :=
  match a, b with
  | SNone, SNone => true
  | SBool x, SBool y => Bool.eqb x y
  | SBool x, SInt z => (if x then 1 else 0) =? z
  | SInt z, SBool x => z =? (if x then 1 else 0)
  | SInt x, SInt y => x =? y
  | SStr x, SStr y => String.eqb x y
  | _, _ => false
  end.

(** [s.split(sep)] for a one-character separator: the pieces between the
    separators, empty ones included. *)
Fixpoint split_on (sep : Ascii.ascii) (s : string) : list string :=
  match s with
  | EmptyString => [EmptyString]
  | String c s' =>
      if Ascii.eqb c sep then EmptyString :: split_on sep s'
      else match split_on sep s' with
           | w :: ws => String c w :: ws
           | [] => [String c EmptyString]
           end
  end.

(** How often a character occurs in a string. *)
Fixpoint count_char (sep : Ascii.ascii) (s : string) : nat :=
  match s with
  | EmptyString => 0
  | String c s' => ((if Ascii.eqb c sep then 1 else 0) + count_char sep s')%nat
  end.

Definition underscore : Ascii.ascii := Ascii.Ascii true true true true true false true false.

(** The id [async_setup_entry] hands to the entity class:
    [f"{cid}_{id}"] for an entity of a sub-device, [device_config[CONF_ID]]
    otherwise. *)
Definition entity_id (device_config : EntityConfig) : scalar :=
  match CONF_ZIGBEE device_config with
  | Some zigbee =>
      SStr (CONF_ZIGBEE_CID zigbee ++ "_" ++ py_str (CONF_ID device_config))
  | None => CONF_ID device_config
  end.

(** [get_entity_config(config_entry, dp_id, cid)] over
    [config_entry.data[CONF_ENTITIES]].  With a cid, [entity[CONF_ZIGBEE]] is
    read for each entity passed; without one, [entity[CONF_ID]] is compared
    with [dp_id]. *)
Fixpoint get_entity_config (entities : list EntityConfig) (dp_id : scalar)
    (cid : option string) : result EntityConfig :=
  match entities with
  | [] => Raise OtherException
  | entity :: rest =>
      match cid_truthy cid with
      | Some c =>
          match CONF_ZIGBEE entity with
          | Some zigbee =>
              if String.eqb (CONF_ZIGBEE_CID zigbee) c then Ok entity
              else get_entity_config rest dp_id cid
          | None => Raise KeyError
          end
      | None =>
          if scalar_eq (CONF_ID entity) dp_id then Ok entity
          else get_entity_config rest dp_id cid
      end
  end.

(** The first lines of [LocalTuyaEntity.__init__]: an id with an underscore
    is split into cid and datapoint id, and the unpacking wants exactly two
    pieces. *)
Definition parse_id (dp_id : scalar) : result (option string * scalar) :=
  if is_substring "_" (py_str dp_id) then
    match split_on underscore (py_str dp_id) with
    | [cid; dp] => Ok (Some cid, SStr dp)
    | _ => Raise ValueError
    end
  else Ok (None, dp_id).

(** [LocalTuyaEntity.__init__(device, config_entry, dp_id, logger)], for
    an object of class [LocalTuyaEntity] itself; a platform class brings its
    own status hook. *)
Definition entity_init (entities : list EntityConfig) (dp_id : scalar)
  : result LocalTuyaEntity.t :=
  match parse_id dp_id with
  | Ok (cid, dp) =>
      match get_entity_config entities dp cid with
      | Ok config =>
          Ok (LocalTuyaEntity.mk cid dp config (PyDict ∅)
                LocalTuyaEntity.status_updated_base)
      | Raise e => Raise e
      end
  | Raise e => Raise e
  end.

(** [unique_id], with [device_id] for
    [self._config_entry.data[CONF_DEVICE_ID]]: [self._cid or self._dp_id]
    is the cid unless that is [None] or empty. *)
Definition unique_id (device_id : string) (self : LocalTuyaEntity.t) : string :=
  "local_" ++ device_id ++ "_"
  ++ match cid_truthy (LocalTuyaEntity._cid self) with
     | Some c => c
     | None => py_str (LocalTuyaEntity._dp_id self)
     end.

(** ** Further properties of class LocaltuyaClimate *)
Module ClimateEntity.

(** Constants of [homeassistant.components.climate]. *)
Definition HVAC_MODE_AUTO : string := "auto".
Definition HVAC_MODE_OFF : string := "off".
Definition SUPPORT_TARGET_TEMPERATURE : Z := 1.
Definition SUPPORT_PRESET_MODE : Z := 16.

(** A climate entity with [_hvac_mode], the attribute its status hook keeps
    beside [_preset_mode]. *)
Record t := mk {
  climate : LocaltuyaClimate.t;
  _hvac_mode : pyval;
}.

Definition has_config (self : t) (attr : conf_key) : bool :=
  LocaltuyaClimate.has_config (climate self) attr.

(** [has_config(CONF_ZIGBEE)]: the value under that key is the sub-device's
    dictionary, which is neither [None] nor ["-1"]. *)
Definition has_config_zigbee (self : t) : bool :=
  match CONF_ZIGBEE (LocalTuyaEntity._config (LocaltuyaClimate.entity (climate self))) with
  | Some _ => true
  | None => false
  end.

(** [supported_features] *)
Definition supported_features (self : t) : Z :=
  let supported_features := 0 in
  let supported_features :=
    if has_config self CONF_TARGET_TEMPERATURE_DP
    then Z.lor supported_features SUPPORT_TARGET_TEMPERATURE
    else supported_features in
  let supported_features :=
    if has_config self CONF_PRESET_MODE_DP
    then Z.lor supported_features SUPPORT_PRESET_MODE
    else supported_features in
  supported_features.

(** [hvac_modes] *)
Definition hvac_modes (self : t) : list string :=
  if has_config self CONF_HVAC_MODE_DP then
    [HVAC_MODE_AUTO; LocaltuyaClimate.HVAC_MODE_HEAT]
    ++ (if has_config_zigbee self then [] else [HVAC_MODE_OFF])
  else [].

(** [hvac_mode] *)
Definition hvac_mode (self : t) : pyval :=
  match LocaltuyaClimate.remapped_from LocaltuyaClimate.HVAC_PRESET_REMAP
          (LocaltuyaClimate._preset_mode (climate self)) with
  | Some mode => PyScalar (SStr mode)
  | None =>
      if existsb (LocaltuyaClimate.py_eq_str (_hvac_mode self)) (hvac_modes self)
      then _hvac_mode self
      else PyScalar (SStr LocaltuyaClimate.HVAC_MODE_HEAT)
  end.

End ClimateEntity.

(** ** Sequences of operations on a device *)

(** A call on a device, as the transport, the entities and the integration
    make them. *)
Inductive device_op :=
  | OpAsyncConnect
  | OpMakeConnection
  | OpClose
  | OpSetDp (state dp_index : scalar) (cid : option string)
  | OpSetDps (states : list (scalar * scalar)) (cid : option string)
  | OpRefreshSubdevice (cid : string) (dp value initial_value : scalar)
  | OpRefreshCallback (rc : TuyaDevice.refresh_closure)
  | OpStatus (cid : option string)
  | OpStatusUpdated (status : pyval) (cid : option string)
  | OpDisconnected.

Definition run_op (op : device_op) : M TuyaDevice.t unit :=
  match op with
  | OpAsyncConnect => TuyaDevice.async_connect
  | OpMakeConnection => TuyaDevice._make_connection
  | OpClose => TuyaDevice.close
  | OpSetDp state dp_index cid => TuyaDevice.set_dp state dp_index cid
  | OpSetDps states cid => TuyaDevice.set_dps states cid
  | OpRefreshSubdevice cid dp value initial_value =>
      TuyaDevice.refresh_subdevice cid dp value initial_value
  | OpRefreshCallback rc => TuyaDevice.refresh_callback rc
  | OpStatus cid => TuyaDevice.status cid
  | OpStatusUpdated status cid => TuyaDevice.status_updated status cid
  | OpDisconnected => TuyaDevice.disconnected
  end.

(** The calls one after the other; a call that raises ends alone, and the
    next one finds the device as it was left. *)
Fixpoint run_ops (ops : list device_op) (dev : TuyaDevice.t) (tr : trace)
  : TuyaDevice.t * trace :=
  match ops with
  | [] => (dev, tr)
  | op :: rest =>
      let '(_, dev', tr') := run_op op dev tr in
      run_ops rest dev' tr'
  end.

(** ** Vocabulary of the further properties *)

(** An entity of another sub-device than [c]. *)
Definition other_subdevice (c : string) (entity : EntityConfig) : Prop :=
  ∃ zigbee, CONF_ZIGBEE entity = Some zigbee ∧ CONF_ZIGBEE_CID zigbee ≠ c.

(** An entity of sub-device [c]. *)
Definition of_subdevice (c : string) (entity : EntityConfig) : Prop :=
  ∃ zigbee, CONF_ZIGBEE entity = Some zigbee ∧ CONF_ZIGBEE_CID zigbee = c.

(** A second entity of sub-device "30", on datapoint 3. *)
Definition config_30_3 : EntityConfig :=
  {| CONF_ID := SInt 3;
     CONF_ZIGBEE := Some {| CONF_ZIGBEE_CID := "30"; CONF_ZIGBEE_REFRESH := None |};
     platform_conf := λ _, None |}.

(** A computation keeps a relation [Q] between the state and trace it
    starts from and those it ends with, whether it returns or raises. *)
Definition keeps {S A : Type} (Q : S * trace → S * trace → Prop) (m : M S A)
  : Prop :=
  ∀ s tr, Q (s, tr) ((m s tr).1.2, (m s tr).2).

(** No [Exception] leaves the computation: it returns, or it raises what
    [except Exception] lets through. *)
Definition contained {S A : Type} (m : M S A) : Prop :=
  ∀ s tr, match (m s tr).1.1 with
          | Ok _ => True
          | Raise e => is_Exception e = false
          end.

(** What only ever grows on a device: the closing flag, the keys of the
    cache, the existence of [_refresh_callbacks]. *)
Definition grows (dev dev' : TuyaDevice.t) : Prop :=
  (TuyaDevice._is_closing dev = true → TuyaDevice._is_closing dev' = true)
  ∧ (∀ k, is_Some (TuyaDevice._status dev !! k) →
          is_Some (TuyaDevice._status dev' !! k))
  ∧ (is_Some (TuyaDevice._refresh_callbacks dev) →
     is_Some (TuyaDevice._refresh_callbacks dev')).

Definition growing (x y : TuyaDevice.t * trace) : Prop := grows x.1 y.1.

(** The trace is extended by events that satisfy [P]. *)
Definition extends (P : event → bool) (x y : TuyaDevice.t * trace) : Prop :=
  ∃ evs, y.2 = x.2 ++ evs ∧ forallb P evs = true.

(** The device is left as it was. *)
Definition untouched (x y : TuyaDevice.t * trace) : Prop := y.1 = x.1.

(** [_refresh_callbacks] is not created. *)
Definition unarmed (x y : TuyaDevice.t * trace) : Prop :=
  TuyaDevice._refresh_callbacks x.1 = None →
  TuyaDevice._refresh_callbacks y.1 = None.

(** The status query for the device itself. *)
Definition is_parent_query (ev : event) : bool :=
  match ev with
  | EvStatus None => true
  | _ => false
  end.

Definition parent_queries (evs : trace) : nat :=
  length (List.filter is_parent_query evs).

(** Configurations with an entity of a sub-device, and with a refresh
    descriptor. *)
Definition is_zigbee (entity : EntityConfig) : bool :=
  match CONF_ZIGBEE entity with
  | Some _ => true
  | None => false
  end.

Definition has_refresh (entity : EntityConfig) : bool :=
  match CONF_ZIGBEE entity with
  | Some zigbee =>
      match CONF_ZIGBEE_REFRESH zigbee with
      | Some _ => true
      | None => false
      end
  | None => false
  end.

(** The two events that mark the start of a connection attempt and the
    query for the device itself; every other event is ordinary. *)
Definition ordinary (ev : event) : bool :=
  negb (is_create_task ev) && negb (is_parent_query ev).

(** The armed device of the scenario with the echo in its cache, and a run
    of calls on it: link loss, reconnection, an update, the end. *)
Definition cached_device : TuyaDevice.t :=
  TuyaDevice.set_status echo_30 armed_device.

Definition churn : list device_op :=
  [OpDisconnected; OpAsyncConnect; OpMakeConnection;
   OpStatusUpdated (PyDict data_30) (Some "30"%string); OpClose;
   OpAsyncConnect; OpStatus None].

(** No connection task is created. *)
Definition no_task (ev : event) : bool := negb (is_create_task ev).

(** No status of the device itself is queried. *)
Definition no_parent_query (ev : event) : bool := negb (is_parent_query ev).

(** A transport on which every call but [close] raises, and devices
    connected through it. *)
Definition failing_interface : Interface :=
  {| if_set_dp := λ _ _ _ _, Raise OtherException;
     if_set_dps := λ _ _ _, Raise OtherException;
     if_status := λ _ _, Raise OtherException;
     if_close := λ _, Ok tt |}.

Definition failing_device : TuyaDevice.t :=
  TuyaDevice.set_interface (Some failing_interface) fresh_device.

(** Between two states of a device nothing but the cache differs. *)
Definition only_cache (x y : TuyaDevice.t * trace) : Prop :=
  y.1 = TuyaDevice.set_status (TuyaDevice._status y.1) x.1.

(** Devices that [pytuya.connect] reaches: one with entity A alone, one
    with entity B of sub-device "26", which has no refresh descriptor, and
    one with the entity of sub-device "30", which has one. *)
Definition reachable (config : list EntityConfig) (i : Interface) : TuyaDevice.t :=
  TuyaDevice.init config (λ _, Ok i).

Definition plain_device : TuyaDevice.t :=
  reachable [LocalTuyaEntity._config entity_A] accepting_interface.

Definition bridge_26 : TuyaDevice.t :=
  reachable [LocalTuyaEntity._config entity_A; LocalTuyaEntity._config entity_B]
    accepting_interface.

Definition bridge_30 : TuyaDevice.t :=
  reachable [LocalTuyaEntity._config entity_B; LocalTuyaEntity._config entity_30]
    failing_interface.

(** A snapshot with data for sub-device "26". *)
Definition data_26 : gmap string pyval :=
  {["26"%string := PyDict {["2"%string := PyScalar (SStr "off")]}]}.

(** A thermostat of sub-device "26" with an HVAC-mode datapoint, whose last
    report was the mode "off"; and the climate entity with the preset-mode
    datapoint and nothing else, with mode "auto". *)
Definition zigbee_thermostat : ClimateEntity.t :=
  ClimateEntity.mk
    (LocaltuyaClimate.mk
       (LocalTuyaEntity.mk (Some "26"%string) (SStr "2")
          {| CONF_ID := SInt 2;
             CONF_ZIGBEE := Some {| CONF_ZIGBEE_CID := "26";
                                    CONF_ZIGBEE_REFRESH := None |};
             platform_conf := λ k, match k with
                                   | CONF_HVAC_MODE_DP => Some (SInt 4)
                                   | _ => None
                                   end |}
          (PyDict ∅)
          LocalTuyaEntity.status_updated_base)
       (PyScalar SNone))
    (PyScalar (SStr "off")).

Definition preset_thermostat : ClimateEntity.t :=
  ClimateEntity.mk climate_preset (PyScalar (SStr "auto")).

(** * Properties *)

(** ** Python's conversions, on examples *)

Example py_str_examples :
  py_str (SInt 26) = "26"%string
  ∧ py_str (SInt (-1)) = "-1"%string
  ∧ py_str (SStr "2") = "2"%string
  ∧ py_str SNone = "None"%string.
Proof. repeat split; reflexivity. Qed.

Example truthy_examples :
  truthy (PyDict ∅) = false
  ∧ truthy (PyDict {["1"%string := PyScalar (SBool false)]}) = true
  ∧ truthy (PyScalar (SBool false)) = false
  ∧ truthy (PyScalar (SInt 0)) = false
  ∧ truthy (PyScalar (SStr "")) = false
  ∧ truthy (PyScalar SNone) = false.
Proof. repeat split; reflexivity. Qed.

Example py_contains_examples :
  py_contains "2" (PyDict {["2"%string := PyScalar SNone]}) = Ok true
  ∧ py_contains "2" (PyDict ∅) = Ok false
  ∧ py_contains "2" (PyScalar (SStr "26")) = Ok true
  ∧ py_contains "2" (PyScalar (SInt 26)) = Raise TypeError.
Proof. repeat split; reflexivity. Qed.

(** ** Running the monad *)

(** Running a computation of the monad: unfold its operations and reduce. *)
Ltac run :=
  repeat progress
    (cbn;
     unfold mbind, mret, M_bind, M_ret, bind, ret, get, modify, emit, history,
       lift_result, raise, try_except_Exception).

#[local] Arguments cid_truthy : simpl never.

Lemma cid_truthy_Some (c : string) : c ≠ ""%string → cid_truthy (Some c) = Some c.
Proof.
  intros H. unfold cid_truthy. destruct (String.eqb_spec c ""); congruence.
Qed.


(** ** The status cache *)

Lemma status_updated_scoped (dev : TuyaDevice.t) (tr : trace) (cid : string)
    (upd u : gmap string pyval) :
  cid ≠ ""%string →
  upd !! cid = Some (PyDict u) →
  store_ok dev cid →
  let dev' :=
    TuyaDevice.set_status
      (<[cid := PyDict (u ∪ store_of dev cid)]> (TuyaDevice._status dev)) dev in
  TuyaDevice.status_updated (PyDict upd) (Some cid) dev tr
  = (Ok tt, dev', tr ++ [EvDispatch (PyDict (TuyaDevice._status dev'))]).
Proof.
  intros Hc Hu Hwf. unfold TuyaDevice.status_updated, store_of.
  run. rewrite (cid_truthy_Some _ Hc). run.
  destruct (TuyaDevice._status dev !! cid) as [v|] eqn:E.
  - destruct (Hwf v E) as [old ->]. run. rewrite Hu. run. reflexivity.
  - run. rewrite Hu. run. rewrite (right_id_L ∅ (∪)). reflexivity.
Qed.

Lemma status_updated_unscoped (dev : TuyaDevice.t) (tr : trace)
    (cid : option string) (upd : gmap string pyval) :
  cid_truthy cid = None →
  let dev' := TuyaDevice.set_status (upd ∪ TuyaDevice._status dev) dev in
  TuyaDevice.status_updated (PyDict upd) cid dev tr
  = (Ok tt, dev', tr ++ [EvDispatch (PyDict (TuyaDevice._status dev'))]).
Proof.
  intros Hc. unfold TuyaDevice.status_updated. run. rewrite Hc. run. reflexivity.
Qed.

Lemma store_of_set_status (dev : TuyaDevice.t) (m : gmap string pyval)
    (cid : string) (s : gmap string pyval) :
  store_of (TuyaDevice.set_status (<[cid := PyDict s]> m) dev) cid = s.
Proof. unfold store_of. cbn. by rewrite lookup_insert_eq. Qed.

Lemma store_ok_set_status (dev : TuyaDevice.t) (m : gmap string pyval)
    (cid : string) (s : gmap string pyval) :
  store_ok (TuyaDevice.set_status (<[cid := PyDict s]> m) dev) cid.
Proof.
  intros v. cbn. rewrite lookup_insert_eq. intros [= <-]. by exists s.
Qed.

(** A merge, whatever its arguments and whether it returns or raises,
    keeps every key of the cache and every key of the store it targets. *)
Lemma status_updated_keeps_keys (dev : TuyaDevice.t) (tr : trace)
    (status : pyval) (cid : option string) :
  let dev' := (TuyaDevice.status_updated status cid dev tr).1.2 in
  (∀ k, is_Some (TuyaDevice._status dev !! k) →
        is_Some (TuyaDevice._status dev' !! k))
  ∧ (∀ c k, cid_truthy cid = Some c →
        is_Some (store_of dev c !! k) → is_Some (store_of dev' c !! k)).
Proof.
  unfold TuyaDevice.status_updated, store_of. run.
  destruct (cid_truthy cid) as [c|] eqn:Hc; run.
  - destruct (TuyaDevice._status dev !! c) as [[a|old]|] eqn:E; run.
    + split; [done|]. intros c' k [= <-]. rewrite E. by intros [? ?].
    + destruct (py_getitem status c) as [sub|e] eqn:G; run.
      2:{ split; [done|]. intros c' k [= <-]. by rewrite E. }
      destruct (dict_update old sub) as [new|e] eqn:U; run.
      2:{ split; [done|]. intros c' k [= <-]. by rewrite E. }
      split.
      * intros k Hk. destruct (decide (c = k)) as [->|Hne].
        -- rewrite lookup_insert_eq. eauto.
        -- by rewrite lookup_insert_ne.
      * intros c' k [= <-]. rewrite lookup_insert_eq, E. intros Hk.
        unfold dict_update in U. destruct sub as [[| |?|s]|u]; try done.
        -- destruct (String.eqb s ""); by simplify_eq.
        -- simplify_eq. destruct Hk as [x Hx].
           destruct (u !! k) as [y|] eqn:Y.
           ++ exists y. by apply lookup_union_Some_l.
           ++ exists x. by rewrite lookup_union_r.
    + destruct (py_getitem status c) as [sub|e] eqn:G; run.
      2:{ split; [done|]. intros c' k [= <-]. by rewrite E. }
      split.
      * intros k Hk. destruct (decide (c = k)) as [->|Hne].
        -- rewrite lookup_insert_eq. eauto.
        -- by rewrite lookup_insert_ne.
      * intros c' k [= <-]. rewrite E, lookup_empty. by intros [? ?].
  - split; [|done].
    destruct (dict_update (TuyaDevice._status dev) status) as [new|e] eqn:U; run;
      [|done].
    intros k [x Hx]. unfold dict_update in U.
    destruct status as [[| |?|s]|u]; try done.
    + destruct (String.eqb s ""); simplify_eq. eauto.
    + simplify_eq. destruct (u !! k) as [y|] eqn:Y.
      * exists y. by apply lookup_union_Some_l.
      * exists x. by rewrite lookup_union_r.
Qed.

(** C1.  Merge rule of the status cache.  An update scoped to a cid (a
    non-empty cid, carrying a dictionary under that cid) creates the per-cid
    store if there is none and overwrites exactly the keys of the update:
    every other key of that store and every other entry of the cache is as
    before.  An unscoped update overwrites key by key at the top level.
    Merging [{"1": "on"}] and then [{"2": "off"}] for one cid leaves both in
    the store.  No merge removes a key, from the cache or from the store it
    is scoped to. *)
Theorem status_updated_merge :
  (∀ (dev : TuyaDevice.t) (tr : trace) (cid : string) (upd u : gmap string pyval),
      cid ≠ ""%string →
      upd !! cid = Some (PyDict u) →
      store_ok dev cid →
      ∃ dev',
        TuyaDevice.status_updated (PyDict upd) (Some cid) dev tr
        = (Ok tt, dev', tr ++ [EvDispatch (PyDict (TuyaDevice._status dev'))])
        ∧ TuyaDevice._status dev' !! cid = Some (PyDict (store_of dev' cid))
        ∧ (∀ k v, u !! k = Some v → store_of dev' cid !! k = Some v)
        ∧ (∀ k, u !! k = None → store_of dev' cid !! k = store_of dev cid !! k)
        ∧ (∀ c, c ≠ cid →
             TuyaDevice._status dev' !! c = TuyaDevice._status dev !! c))
  ∧ (∀ (dev : TuyaDevice.t) (tr : trace) (cid : option string)
       (upd : gmap string pyval),
      cid_truthy cid = None →
      ∃ dev',
        TuyaDevice.status_updated (PyDict upd) cid dev tr
        = (Ok tt, dev', tr ++ [EvDispatch (PyDict (TuyaDevice._status dev'))])
        ∧ (∀ k v, upd !! k = Some v → TuyaDevice._status dev' !! k = Some v)
        ∧ (∀ k, upd !! k = None →
             TuyaDevice._status dev' !! k = TuyaDevice._status dev !! k))
  ∧ (∀ (dev : TuyaDevice.t) (tr : trace) (cid : string),
      cid ≠ ""%string →
      store_ok dev cid →
      ∃ dev1 tr1 dev2 tr2,
        TuyaDevice.status_updated
          (PyDict {[cid := PyDict {["1"%string := PyScalar (SStr "on")]}]})
          (Some cid) dev tr = (Ok tt, dev1, tr1)
        ∧ TuyaDevice.status_updated
            (PyDict {[cid := PyDict {["2"%string := PyScalar (SStr "off")]}]})
            (Some cid) dev1 tr1 = (Ok tt, dev2, tr2)
        ∧ store_of dev2 cid !! "1"%string = Some (PyScalar (SStr "on"))
        ∧ store_of dev2 cid !! "2"%string = Some (PyScalar (SStr "off")))
  ∧ (∀ (dev : TuyaDevice.t) (tr : trace) (status : pyval) (cid : option string),
      let dev' := (TuyaDevice.status_updated status cid dev tr).1.2 in
      (∀ k, is_Some (TuyaDevice._status dev !! k) →
            is_Some (TuyaDevice._status dev' !! k))
      ∧ (∀ c k, cid_truthy cid = Some c →
            is_Some (store_of dev c !! k) → is_Some (store_of dev' c !! k))).
Proof.
  split; [|split; [|split]].
  - intros dev tr cid upd u Hc Hu Hwf. eexists. split.
    { apply (status_updated_scoped dev tr cid upd u Hc Hu Hwf). }
    rewrite store_of_set_status. cbn. repeat split.
    + by rewrite lookup_insert_eq.
    + intros k v Hk. by apply lookup_union_Some_l.
    + intros k Hk. by rewrite lookup_union_r.
    + intros c Hne. by rewrite lookup_insert_ne.
  - intros dev tr cid upd Hc. eexists. split.
    { apply (status_updated_unscoped dev tr cid upd Hc). }
    cbn. split.
    + intros k v Hk. by apply lookup_union_Some_l.
    + intros k Hk. by rewrite lookup_union_r.
  - intros dev tr cid Hc Hwf. do 4 eexists. split; [|split].
    + apply status_updated_scoped; [done| |done]. apply lookup_singleton_eq.
    + apply status_updated_scoped; [done| |]; [apply lookup_singleton_eq|].
      apply store_ok_set_status.
    + rewrite !store_of_set_status. split.
      * rewrite lookup_union_r by done. apply lookup_union_Some_l.
        apply lookup_singleton_eq.
      * apply lookup_union_Some_l, lookup_singleton_eq.
  - intros dev tr status cid. apply status_updated_keeps_keys.
Qed.

Lemma status_updated_merge_witness :
  "26"%string ≠ ""%string
  ∧ ({["26"%string := PyDict {["1"%string := PyScalar (SStr "on")]}]}
       : gmap string pyval) !! "26"%string
    = Some (PyDict {["1"%string := PyScalar (SStr "on")]})
  ∧ store_ok fresh_device "26"
  ∧ ∃ dev',
      TuyaDevice.status_updated
        (PyDict {["26"%string := PyDict {["1"%string := PyScalar (SStr "on")]}]})
        (Some "26"%string) fresh_device []
      = (Ok tt, dev', [] ++ [EvDispatch (PyDict (TuyaDevice._status dev'))])
      ∧ TuyaDevice._status dev' !! "26"%string = Some (PyDict (store_of dev' "26"))
      ∧ (∀ k v, ({["1"%string := PyScalar (SStr "on")]} : gmap string pyval) !! k
                = Some v → store_of dev' "26" !! k = Some v)
      ∧ (∀ k, ({["1"%string := PyScalar (SStr "on")]} : gmap string pyval) !! k
              = None → store_of dev' "26" !! k = store_of fresh_device "26" !! k)
      ∧ (∀ c, c ≠ "26"%string →
           TuyaDevice._status dev' !! c = TuyaDevice._status fresh_device !! c).
Proof.
  assert (H1 : "26"%string ≠ ""%string) by discriminate.
  assert (H2 : ({["26"%string := PyDict {["1"%string := PyScalar (SStr "on")]}]}
                  : gmap string pyval) !! "26"%string
               = Some (PyDict {["1"%string := PyScalar (SStr "on")]}))
    by reflexivity.
  assert (H3 : store_ok fresh_device "26") by (intros v; discriminate).
  split; [exact H1|]. split; [exact H2|]. split; [exact H3|].
  exact (proj1 status_updated_merge fresh_device [] "26"%string _ _ H1 H2 H3).
Defined.

(** ** The connection guard *)

Lemma tasks_created_snoc (tr : trace) (ev : event) :
  tasks_created (tr ++ [ev])
  = (tasks_created tr + if is_create_task ev then 1 else 0)%nat.
Proof.
  unfold tasks_created. rewrite List.filter_app, length_app. f_equal.
  cbn. by destruct (is_create_task ev).
Qed.

Lemma async_connect_noop (dev : TuyaDevice.t) (tr : trace) :
  guarded dev → TuyaDevice.async_connect dev tr = (Ok tt, dev, tr).
Proof.
  unfold guarded, TuyaDevice.async_connect, TuyaDevice.connected. run.
  intros [H|[H|H]].
  - by rewrite H.
  - rewrite bool_decide_eq_false_2 by done. by rewrite andb_false_r.
  - destruct (TuyaDevice._interface dev); [|done]. by rewrite andb_false_r.
Qed.

Lemma async_connect_start (dev : TuyaDevice.t) (tr : trace) :
  ¬ guarded dev →
  TuyaDevice.async_connect dev tr
  = (Ok tt, TuyaDevice.set_connect_task (Some TuyaDevice.TaskPending) dev,
     tr ++ [EvCreateTask]).
Proof.
  unfold guarded, TuyaDevice.async_connect, TuyaDevice.connected. run.
  intros H.
  destruct (TuyaDevice._is_closing dev); [tauto|].
  destruct (TuyaDevice._connect_task dev) as [k|]; [exfalso; apply H; auto|].
  destruct (TuyaDevice._interface dev) as [i|]; [exfalso; apply H; auto|].
  reflexivity.
Qed.

Lemma guarded_or_not (dev : TuyaDevice.t) : guarded dev ∨ ¬ guarded dev.
Proof.
  unfold guarded.
  destruct (TuyaDevice._is_closing dev); [left; auto|].
  destruct (TuyaDevice._connect_task dev); [left; auto|].
  destruct (TuyaDevice._interface dev); [left; auto|].
  right. intros [?|[?|?]]; done.
Qed.

(** C6.  [async_connect] is guarded three ways.  While the device is
    closing, while a connection task is held, or while it is connected, a
    call changes nothing and creates no task.  Only when none of the three
    holds does it create a task, exactly one, and hold it; the device is
    guarded from then on, so a second call creates no further task. *)
Theorem async_connect_guard (dev : TuyaDevice.t) (tr : trace) :
  (guarded dev → TuyaDevice.async_connect dev tr = (Ok tt, dev, tr))
  ∧ (¬ guarded dev →
       ∃ dev',
         TuyaDevice.async_connect dev tr = (Ok tt, dev', tr ++ [EvCreateTask])
         ∧ TuyaDevice._connect_task dev' = Some TuyaDevice.TaskPending
         ∧ tasks_created (tr ++ [EvCreateTask]) = S (tasks_created tr)
         ∧ guarded dev')
  ∧ (∀ dev1 tr1 dev2 tr2,
       TuyaDevice.async_connect dev tr = (Ok tt, dev1, tr1) →
       TuyaDevice.async_connect dev1 tr1 = (Ok tt, dev2, tr2) →
       dev2 = dev1 ∧ tr2 = tr1 ∧ (tasks_created tr2 ≤ S (tasks_created tr))%nat).
Proof.
  split; [apply async_connect_noop|]. split.
  - intros H. eexists. split; [by apply async_connect_start|].
    split; [done|]. split.
    + rewrite tasks_created_snoc. cbn. lia.
    + right. left. done.
  - intros dev1 tr1 dev2 tr2 H1 H2.
    destruct (guarded_or_not dev) as [G|G].
    + rewrite async_connect_noop in H1 by done. simplify_eq.
      rewrite async_connect_noop in H2 by done. simplify_eq.
      repeat split; lia.
    + rewrite async_connect_start in H1 by done. simplify_eq.
      rewrite async_connect_noop in H2 by (right; left; done). simplify_eq.
      repeat split. rewrite tasks_created_snoc. cbn. lia.
Qed.

Lemma async_connect_guard_witness :
  ¬ guarded fresh_device
  ∧ ∃ dev',
      TuyaDevice.async_connect fresh_device [] = (Ok tt, dev', [] ++ [EvCreateTask])
      ∧ TuyaDevice._connect_task dev' = Some TuyaDevice.TaskPending
      ∧ tasks_created ([] ++ [EvCreateTask]) = S (tasks_created [])
      ∧ guarded dev'.
Proof.
  assert (H : ¬ guarded fresh_device).
  { intros [H|[H|H]]; cbn in H; done. }
  split; [exact H|].
  exact (proj1 (proj2 (async_connect_guard fresh_device [])) H).
Defined.

(** ** Read accessors of an entity *)

(** C8.  Reading a datapoint whose index, as a string, is no key of the
    entity's cached status returns [None], logs one warning, changes nothing
    and does not raise. *)
Theorem dps_unknown_datapoint (self : LocalTuyaEntity.t) (dev : TuyaDevice.t)
    (tr : trace) (m : gmap string pyval) (dp_index : scalar) :
  holds (self, dev) m →
  m !! py_str dp_index = None →
  LocalTuyaEntity.dps dp_index (self, dev) tr
  = (Ok (PyScalar SNone), (self, dev), tr ++ [EvLog Warning]).
Proof.
  unfold holds, LocalTuyaEntity.dps. intros Hs Hm. run.
  rewrite Hs. run. rewrite Hm. run. reflexivity.
Qed.

Lemma dps_unknown_datapoint_witness :
  holds (entity_1, fresh_device) {["1"%string := PyScalar (SBool true)]}
  ∧ ({["1"%string := PyScalar (SBool true)]} : gmap string pyval)
      !! py_str (SInt 2) = None
  ∧ LocalTuyaEntity.dps (SInt 2) (entity_1, fresh_device) []
    = (Ok (PyScalar SNone), (entity_1, fresh_device), [] ++ [EvLog Warning]).
Proof.
  assert (H1 : holds (entity_1, fresh_device)
                 {["1"%string := PyScalar (SBool true)]})
    by reflexivity.
  assert (H2 : ({["1"%string := PyScalar (SBool true)]} : gmap string pyval)
                 !! py_str (SInt 2) = None) by reflexivity.
  split; [exact H1|]. split; [exact H2|].
  exact (dps_unknown_datapoint entity_1 fresh_device [] _ (SInt 2) H1 H2).
Defined.

(** ** The update handler *)

Ltac norm_trace := rewrite <- ?app_assoc; cbn [app].

(** Case analysis along the paths of a computation: destruct what the next
    [match] or [if] looks at. *)
Ltac split_paths :=
  repeat (run;
    match goal with
    | |- context [match ?x with _ => _ end] =>
        lazymatch x with
        | context [match _ with _ => _ end] => fail
        | _ => destruct x eqn:?
        end
    | |- context [if ?x then _ else _] =>
        lazymatch x with
        | context [match _ with _ => _ end] => fail
        | context [if _ then _ else _] => fail
        | _ => destruct x eqn:?
        end
    end).

(** Reading through a reference. *)
Lemma deref_cache_get (dev : TuyaDevice.t) (c : string) :
  deref dev (cache_get dev c) = sub_map (TuyaDevice._status dev) c.
Proof.
  unfold cache_get, sub_map.
  destruct (TuyaDevice._status dev !! c) as [[a|d]|] eqn:E; cbn; by rewrite ?E.
Qed.

Lemma deref_ref_get (dev : TuyaDevice.t) (r sub : ref) (k : string) :
  ref_get dev r k = Ok sub →
  py_get (deref dev r) k = Ok (deref dev sub).
Proof.
  destruct r as [v| |c]; cbn.
  - destruct (py_get v k); by intros [= <-].
  - intros [= <-]. by rewrite deref_cache_get.
  - destruct (py_get _ k); by intros [= <-].
Qed.


Lemma store_status_truthy (status : ref) (self : LocalTuyaEntity.t)
    (dev : TuyaDevice.t) (tr : trace) :
  truthy (deref dev status) = true →
  LocalTuyaEntity.store_status status (self, dev) tr
  = ((LocalTuyaEntity.status_updated self (deref dev status)).1,
     (LocalTuyaEntity.set_status status self, dev),
     tr ++ hooked (LocalTuyaEntity.status_updated self (deref dev status))).
Proof.
  intros H. unfold LocalTuyaEntity.store_status, LocalTuyaEntity.on_self,
    LocalTuyaEntity.status_of, LocalTuyaEntity.call_hook, hooked.
  run. rewrite H. run.
  destruct (LocalTuyaEntity.status_updated self (deref dev status))
    as [[[]|e] evs]; run; norm_trace; by rewrite ?app_nil_r.
Qed.

Lemma store_status_falsy (status : ref) (self : LocalTuyaEntity.t)
    (dev : TuyaDevice.t) (tr : trace) :
  truthy (deref dev status) = false →
  LocalTuyaEntity.store_status status (self, dev) tr
  = (Ok tt, (LocalTuyaEntity.set_status (PyDict ∅) self, dev),
     tr ++ [EvScheduleUpdate]).
Proof.
  intros H. unfold LocalTuyaEntity.store_status, LocalTuyaEntity.on_self.
  run. rewrite H. by run.
Qed.

(** An entity of the device itself stores or clears. *)
Lemma handler_unscoped (payload : ref) (self : LocalTuyaEntity.t)
    (dev : TuyaDevice.t) (tr : trace) :
  cid_truthy (LocalTuyaEntity._cid self) = None →
  LocalTuyaEntity._update_handler payload (self, dev) tr
  = LocalTuyaEntity.store_status payload (self, dev) tr.
Proof.
  intros H. unfold LocalTuyaEntity._update_handler. run. by rewrite H.
Qed.

(** An entity of a sub-device calls [get] on the payload first. *)
Lemma handler_scoped_not_dict (a : scalar) (self : LocalTuyaEntity.t)
    (dev : TuyaDevice.t) (tr : trace) (c : string) :
  cid_truthy (LocalTuyaEntity._cid self) = Some c →
  LocalTuyaEntity._update_handler (PyScalar a) (self, dev) tr
  = (Raise AttributeError, (self, dev), tr).
Proof.
  intros H. unfold LocalTuyaEntity._update_handler. run. by rewrite H.
Qed.

(** The four ways of the handler of an entity of [c], on what the payload
    holds under [c]. *)
Lemma handler_scoped_falsy (payload sub : ref) (self : LocalTuyaEntity.t)
    (dev : TuyaDevice.t) (tr : trace) (c : string) :
  cid_truthy (LocalTuyaEntity._cid self) = Some c →
  ref_get dev payload c = Ok sub →
  truthy (deref dev sub) = false →
  LocalTuyaEntity._update_handler payload (self, dev) tr
  = (Ok tt, (LocalTuyaEntity.set_status (PyDict ∅) self, dev),
     tr ++ [EvScheduleUpdate]).
Proof.
  intros H Hg Hf. unfold LocalTuyaEntity._update_handler. run. rewrite H. run.
  rewrite Hg. run. rewrite Hf. by apply store_status_falsy.
Qed.

Lemma handler_scoped_pending (payload sub : ref) (self : LocalTuyaEntity.t)
    (dev : TuyaDevice.t) (tr : trace) (c : string)
    (cbs : gmap string TuyaDevice.refresh_closure)
    (callback : TuyaDevice.refresh_closure) :
  cid_truthy (LocalTuyaEntity._cid self) = Some c →
  ref_get dev payload c = Ok sub →
  truthy (deref dev sub) = true →
  TuyaDevice._refresh_callbacks dev = Some cbs →
  cbs !! c = Some callback →
  LocalTuyaEntity._update_handler payload (self, dev) tr
  = LocalTuyaEntity.on_device (TuyaDevice.refresh_callback callback) (self, dev) tr.
Proof.
  intros H Hg Ht Hcbs Hcb. unfold LocalTuyaEntity._update_handler. run.
  rewrite H. run. rewrite Hg. run. rewrite Ht, Hcbs, Hcb. reflexivity.
Qed.

Lemma handler_scoped_idle (payload sub : ref) (self : LocalTuyaEntity.t)
    (dev : TuyaDevice.t) (tr : trace) (c : string)
    (cbs : gmap string TuyaDevice.refresh_closure) :
  cid_truthy (LocalTuyaEntity._cid self) = Some c →
  ref_get dev payload c = Ok sub →
  truthy (deref dev sub) = true →
  TuyaDevice._refresh_callbacks dev = Some cbs →
  cbs !! c = None →
  LocalTuyaEntity._update_handler payload (self, dev) tr
  = ((LocalTuyaEntity.status_updated self (deref dev sub)).1,
     (LocalTuyaEntity.set_status sub self, dev),
     tr ++ hooked (LocalTuyaEntity.status_updated self (deref dev sub))).
Proof.
  intros H Hg Ht Hcbs Hcb. unfold LocalTuyaEntity._update_handler. run.
  rewrite H. run. rewrite Hg. run. rewrite Ht, Hcbs, Hcb.
  by apply store_status_truthy.
Qed.

(** Before any refresh was armed the device has no [_refresh_callbacks]. *)
Lemma handler_scoped_no_attribute (payload sub : ref)
    (self : LocalTuyaEntity.t) (dev : TuyaDevice.t) (tr : trace) (c : string) :
  cid_truthy (LocalTuyaEntity._cid self) = Some c →
  ref_get dev payload c = Ok sub →
  truthy (deref dev sub) = true →
  TuyaDevice._refresh_callbacks dev = None →
  LocalTuyaEntity._update_handler payload (self, dev) tr
  = (Raise AttributeError, (self, dev), tr).
Proof.
  intros H Hg Ht Hcbs. unfold LocalTuyaEntity._update_handler. run. rewrite H.
  run. rewrite Hg. run. rewrite Ht, Hcbs. reflexivity.
Qed.

(** On the published cache, the handler of an entity of [c] with nothing
    pending for [c] ends as [stored] says. *)
Lemma handler_cache_idle (self : LocalTuyaEntity.t) (dev : TuyaDevice.t)
    (tr : trace) (c : string) (cbs : gmap string TuyaDevice.refresh_closure) :
  scoped_to c self →
  has_data dev c →
  TuyaDevice._refresh_callbacks dev = Some cbs →
  cbs !! c = None →
  LocalTuyaEntity._update_handler Cache (self, dev) tr
  = ((stored c dev self).1, ((stored c dev self).2, dev),
     tr ++ stored_events c dev self).
Proof.
  intros Hc Hd Hcbs Hcb.
  rewrite (handler_scoped_idle Cache (cache_get dev c) self dev tr c cbs);
    try done.
  - unfold stored, stored_events. cbn. by rewrite deref_cache_get.
  - by rewrite deref_cache_get.
Qed.


(** ** The refresh of a sub-device *)

(** What a status query does to the device, whatever the transport
    answers: it appends device events only and leaves the pending
    callbacks and the connection as they are. *)
Lemma status_effect (cid : option string) (dev : TuyaDevice.t) (tr : trace) :
  ∃ r dev' evs,
    TuyaDevice.status cid dev tr = (r, dev', tr ++ evs)
    ∧ no_entity_event evs
    ∧ TuyaDevice._refresh_callbacks dev' = TuyaDevice._refresh_callbacks dev
    ∧ TuyaDevice._interface dev' = TuyaDevice._interface dev.
Proof.
  unfold TuyaDevice.status, TuyaDevice.status_updated.
  split_paths; norm_trace; do 3 eexists; (split; [reflexivity|]); done.
Qed.



(** The callback removes its own entry first; nothing it does afterwards,
    whether it returns or raises, touches the entity or the other entries. *)
Lemma refresh_callback_effect (rc : TuyaDevice.refresh_closure)
    (dev : TuyaDevice.t) (tr : trace)
    (cbs : gmap string TuyaDevice.refresh_closure) :
  TuyaDevice._refresh_callbacks dev = Some cbs →
  is_Some (cbs !! TuyaDevice.rc_cid rc) →
  ∃ r dev' evs,
    TuyaDevice.refresh_callback rc dev tr = (r, dev', tr ++ evs)
    ∧ no_entity_event evs
    ∧ TuyaDevice._refresh_callbacks dev'
      = Some (delete (TuyaDevice.rc_cid rc) cbs).
Proof.
  intros Hcbs [x Hx]. unfold TuyaDevice.refresh_callback. run.
  rewrite Hcbs, Hx. run.
  destruct (scalar_truthy (TuyaDevice.rc_initial_value rc)); run.
  - unfold TuyaDevice.interface_set_dps. run.
    destruct (TuyaDevice._interface dev) as [i|] eqn:Hi; run.
    2:{ do 3 eexists. norm_trace. split; [reflexivity|]. done. }
    match goal with |- context [if_set_dps i ?h ?s ?c] =>
      destruct (if_set_dps i h s c) as [[]|e] end; run.
    2:{ do 3 eexists. norm_trace. split; [reflexivity|]. done. }
    match goal with |- context [TuyaDevice.status ?c ?d ?t] =>
      destruct (status_effect c d t) as (r & dev' & evs & -> & Hev & Hcb & _) end.
    do 3 eexists. norm_trace. split; [reflexivity|]. split; [|done].
    unfold no_entity_event in *. by cbn.
  - match goal with |- context [TuyaDevice.status ?c ?d ?t] =>
      destruct (status_effect c d t) as (r & dev' & evs & -> & Hev & Hcb & _) end.
    do 3 eexists. norm_trace. split; [reflexivity|]. split; [|done].
    unfold no_entity_event in *. by cbn.
Qed.




(** *** Other subscribers

    The handlers of the other entities of the device run in between.  None
    of them touches what the cache holds under [c] or the callback pending
    for [c]: a callback they run belongs to another cid. *)












Section ClimateHook.

#[local] Arguments py_str : simpl never.
#[local] Arguments LocalTuyaEntity.dps : simpl never.
#[local] Arguments LocalTuyaEntity.dps_conf : simpl never.

(** What [dps] reads from a status that is a dictionary. *)
Lemma dps_reads (dp : scalar) (s : LocalTuyaEntity.state) (tr : trace)
    (m : gmap string pyval) :
  holds s m →
  LocalTuyaEntity.dps dp s tr
  = (Ok (default (PyScalar SNone) (m !! py_str dp)), s,
     tr ++ match default (PyScalar SNone) (m !! py_str dp) with
           | PyScalar SNone => [EvLog Warning]
           | _ => []
           end).
Proof.
  unfold holds, LocalTuyaEntity.dps. intros Hm. run. rewrite Hm. run.
  destruct (default (PyScalar SNone) (m !! py_str dp)) as [[| | |]|]; run;
    by rewrite ?app_nil_r.
Qed.

Lemma dps_conf_configured (conf_item : conf_key) (dp : scalar)
    (s : LocalTuyaEntity.state) (tr : trace) :
  platform_conf (LocalTuyaEntity._config s.1) conf_item = Some dp →
  dp ≠ SNone →
  LocalTuyaEntity.dps_conf conf_item s tr = LocalTuyaEntity.dps dp s tr.
Proof.
  intros Hc Hn. unfold LocalTuyaEntity.dps_conf. run. rewrite Hc. cbn.
  by destruct dp.
Qed.

(** The status hook of a climate entity raises [TypeError] when the
    target-temperature datapoint it is configured with is missing from the
    status: [dps] has logged its warning, and the product with the
    precision fails. *)
Lemma climate_hook_raises (p : ClimateStatus.precision) (cid : option string)
    (dp_id dp : scalar) (config : EntityConfig) (m : gmap string pyval) :
  platform_conf config CONF_TARGET_TEMPERATURE_DP = Some dp →
  dp ≠ SNone →
  dp ≠ SStr "-1" →
  m !! py_str dp = None →
  ∃ calls,
    ClimateStatus.hook p cid dp_id config (PyDict m) = (Raise TypeError, calls)
    ∧ last calls = Some (EvLog Warning).
Proof.
  intros Hc Hn Hm Hv.
  set (self := LocalTuyaEntity.mk cid dp_id config (PyDict m)
                 LocalTuyaEntity.status_updated_base).
  assert (Hcfg : LocalTuyaEntity.has_config self CONF_TARGET_TEMPERATURE_DP
                 = true).
  { unfold LocalTuyaEntity.has_config. cbn. rewrite Hc.
    destruct dp as [| | |x]; try done.
    destruct (String.eqb_spec x "-1"); [by subst|done]. }
  unfold ClimateStatus.hook, ClimateStatus.status_updated,
    ClimateStatus.inherited, ClimateStatus.assign.
  fold self. run. rewrite Hcfg.
  rewrite (dps_reads dp_id _ _ m) by reflexivity. run.
  rewrite (dps_conf_configured CONF_TARGET_TEMPERATURE_DP dp) by done.
  rewrite (dps_reads dp _ _ m) by reflexivity. rewrite Hv. run.
  eexists. split; [reflexivity|]. by rewrite last_snoc.
Qed.

End ClimateHook.

(** So the handler of such an entity stores the status, calls the hook and
    ends there, before the presentation refresh: here on the device after
    the callback's query has brought datapoints "101" and "2" of "30" and no
    datapoint "3". *)
Example hook_raises :
  TuyaDevice._status refreshed_device = data_30
  ∧ TuyaDevice._refresh_callbacks refreshed_device = Some ∅
  ∧ LocalTuyaEntity._update_handler Cache (entity_30_climate, refreshed_device) []
    = (Raise TypeError,
       (LocalTuyaEntity.set_status (Store "30") entity_30_climate,
        refreshed_device),
       [EvHook; EvLog Warning]).
Proof.
  split; [vm_compute; reflexivity|]. split; [vm_compute; reflexivity|].
  rewrite (handler_cache_idle entity_30_climate refreshed_device [] "30" ∅);
    [|reflexivity|reflexivity|vm_compute; reflexivity|reflexivity].
  unfold stored, stored_events, hooked. cbn [fst snd app].
  assert (Hh : LocalTuyaEntity.status_updated entity_30_climate
                 (sub_map (TuyaDevice._status refreshed_device) "30")
               = (Raise TypeError, [EvLog Warning]))
    by (vm_compute; reflexivity).
  rewrite Hh. cbn [fst snd app].
  assert (Hg : cache_get refreshed_device "30" = Store "30")
    by (vm_compute; reflexivity).
  by rewrite Hg.
Qed.

(** ** Where the trigger's echo goes *)

(** The merge does not read the pending callbacks. *)
Lemma status_updated_ignores_callbacks (status : pyval) (cid : option string)
    (dev : TuyaDevice.t) (tr : trace)
    (cbs : option (gmap string TuyaDevice.refresh_closure)) :
  TuyaDevice.status_updated status cid (TuyaDevice.set_refresh_callbacks cbs dev) tr
  = let '(r, dev', tr') := TuyaDevice.status_updated status cid dev tr in
    (r, TuyaDevice.set_refresh_callbacks cbs dev', tr').
Proof.
  unfold TuyaDevice.status_updated. split_paths; reflexivity.
Qed.

(** C3, as the code has it.  Nothing is intercepted before the merge: the
    device merges and publishes every update, pending refresh or not
    ([status_updated] never reads the pending callbacks), so the echo of the
    trigger write enters the cache and the published snapshot, and an entity
    that holds the dictionary of the cid reads it in its status from then
    on.  The interception comes after the publication, in the handler of an
    entity of that cid that finds data for the cid and the callback pending:
    it removes the pending entry, runs the callback and returns, assigning
    no status, without status hook or presentation refresh; what the entity
    reads afterwards is what the cache holds then.  A handler that finds the
    entry removed, as that of a further entity of the cid on the same
    snapshot, stores the dictionary and invokes the hook. *)
Theorem synthetic_payload_interception :
  (∀ (status : pyval) (cid : option string) (dev : TuyaDevice.t) (tr : trace)
     (cbs : option (gmap string TuyaDevice.refresh_closure)),
      TuyaDevice.status_updated status cid
        (TuyaDevice.set_refresh_callbacks cbs dev) tr
      = let '(r, dev', tr') := TuyaDevice.status_updated status cid dev tr in
        (r, TuyaDevice.set_refresh_callbacks cbs dev', tr'))
  ∧ (∀ (dev : TuyaDevice.t) (tr : trace) (c : string) (upd u : gmap string pyval)
       (cbs : gmap string TuyaDevice.refresh_closure),
      c ≠ ""%string →
      upd !! c = Some (PyDict u) →
      store_ok dev c →
      TuyaDevice._refresh_callbacks dev = Some cbs →
      is_Some (cbs !! c) →
      ∃ dev',
        TuyaDevice.status_updated (PyDict upd) (Some c) dev tr
        = (Ok tt, dev', tr ++ [EvDispatch (PyDict (TuyaDevice._status dev'))])
        ∧ TuyaDevice._status dev' !! c = Some (PyDict (u ∪ store_of dev c))
        ∧ TuyaDevice._refresh_callbacks dev' = Some cbs
        ∧ ∀ self : LocalTuyaEntity.t,
            LocalTuyaEntity._status self = Store c →
            holds (self, dev') (u ∪ store_of dev c))
  ∧ (∀ (self : LocalTuyaEntity.t) (dev : TuyaDevice.t) (tr : trace) (c : string)
       (payload sub : ref) (cbs : gmap string TuyaDevice.refresh_closure)
       (callback : TuyaDevice.refresh_closure),
      cid_truthy (LocalTuyaEntity._cid self) = Some c →
      ref_get dev payload c = Ok sub →
      truthy (deref dev sub) = true →
      TuyaDevice._refresh_callbacks dev = Some cbs →
      cbs !! c = Some callback →
      TuyaDevice.rc_cid callback = c →
      ∃ r dev' evs,
        LocalTuyaEntity._update_handler payload (self, dev) tr
        = (r, (self, dev'), tr ++ evs)
        ∧ TuyaDevice.refresh_callback callback dev tr = (r, dev', tr ++ evs)
        ∧ no_entity_event evs
        ∧ TuyaDevice._refresh_callbacks dev' = Some (delete c cbs)
        ∧ (LocalTuyaEntity._status self = Store c →
           LocalTuyaEntity.status_of (self, dev')
           = sub_map (TuyaDevice._status dev') c))
  ∧ (∀ (self : LocalTuyaEntity.t) (dev : TuyaDevice.t) (tr : trace) (c : string)
       (payload sub : ref) (cbs : gmap string TuyaDevice.refresh_closure),
      cid_truthy (LocalTuyaEntity._cid self) = Some c →
      ref_get dev payload c = Ok sub →
      truthy (deref dev sub) = true →
      TuyaDevice._refresh_callbacks dev = Some cbs →
      cbs !! c = None →
      LocalTuyaEntity._update_handler payload (self, dev) tr
      = ((LocalTuyaEntity.status_updated self (deref dev sub)).1,
         (LocalTuyaEntity.set_status sub self, dev),
         tr ++ hooked (LocalTuyaEntity.status_updated self (deref dev sub)))).
Proof.
  split; [apply status_updated_ignores_callbacks|]. split; [|split].
  - intros dev tr c upd u cbs Hc Hu Hok Hcbs _. eexists. split.
    { apply (status_updated_scoped dev tr c upd u Hc Hu Hok). }
    cbn. split; [apply lookup_insert_eq|]. split; [exact Hcbs|].
    intros self Hs. unfold holds, LocalTuyaEntity.status_of. cbn. rewrite Hs.
    cbn. by rewrite lookup_insert_eq.
  - intros self dev tr c payload sub cbs callback Hc Hg Ht Hcbs Hcb Hrc.
    destruct (refresh_callback_effect callback dev tr cbs Hcbs)
      as (r & dev' & evs & Hrun & Hev & Hdel).
    { rewrite Hrc. by eexists. }
    exists r, dev', evs. split.
    { rewrite (handler_scoped_pending payload sub self dev _ c cbs _
                 Hc Hg Ht Hcbs Hcb).
      unfold LocalTuyaEntity.on_device. cbn. by rewrite Hrun. }
    split; [exact Hrun|]. split; [exact Hev|]. split; [by rewrite <- Hrc|].
    intros Hs. unfold LocalTuyaEntity.status_of. cbn. by rewrite Hs.
  - intros self dev tr c payload sub cbs Hc Hg Ht Hcbs Hcb.
    by apply (handler_scoped_idle payload sub self dev tr c cbs).
Qed.

Lemma armed_device_pending :
  TuyaDevice._refresh_callbacks armed_device
  = Some {["30"%string := closure_of "30" (SStr "101") (SBool false)]}.
Proof. reflexivity. Qed.

Lemma synthetic_payload_interception_witness :
  "30"%string ≠ ""%string
  ∧ echo_30 !! "30"%string
    = Some (PyDict {["101"%string := PyScalar (SBool true)]})
  ∧ store_ok armed_device "30"
  ∧ TuyaDevice._refresh_callbacks armed_device
    = Some {["30"%string := closure_of "30" (SStr "101") (SBool false)]}
  ∧ is_Some (({["30"%string := closure_of "30" (SStr "101") (SBool false)]}
               : gmap string TuyaDevice.refresh_closure) !! "30"%string)
  ∧ ∃ dev',
      TuyaDevice.status_updated (PyDict echo_30) (Some "30"%string) armed_device []
      = (Ok tt, dev', [] ++ [EvDispatch (PyDict (TuyaDevice._status dev'))])
      ∧ TuyaDevice._status dev' !! "30"%string
        = Some (PyDict ({["101"%string := PyScalar (SBool true)]}
                        ∪ store_of armed_device "30"))
      ∧ TuyaDevice._refresh_callbacks dev'
        = Some {["30"%string := closure_of "30" (SStr "101") (SBool false)]}
      ∧ ∀ self : LocalTuyaEntity.t,
          LocalTuyaEntity._status self = Store "30" →
          holds (self, dev')
            ({["101"%string := PyScalar (SBool true)]}
             ∪ store_of armed_device "30").
Proof.
  assert (H1 : "30"%string ≠ ""%string) by discriminate.
  assert (H2 : echo_30 !! "30"%string
               = Some (PyDict {["101"%string := PyScalar (SBool true)]}))
    by reflexivity.
  assert (H3 : store_ok armed_device "30") by (intros v; discriminate).
  assert (H5 : is_Some (({["30"%string
                             := closure_of "30" (SStr "101") (SBool false)]}
                          : gmap string TuyaDevice.refresh_closure)
                          !! "30"%string)) by (by eexists).
  split; [exact H1|]. split; [exact H2|]. split; [exact H3|].
  split; [exact armed_device_pending|]. split; [exact H5|].
  exact (proj1 (proj2 synthetic_payload_interception) armed_device []
           "30"%string echo_30 _ _ H1 H2 H3 armed_device_pending H5).
Defined.

(** C3 as stated fails: with the refresh for "30" pending, the echo of the
    trigger write is merged into the cache and published. *)
Lemma synthetic_payload_counterexample :
  (∃ cbs, TuyaDevice._refresh_callbacks armed_device = Some cbs
          ∧ is_Some (cbs !! "30"%string))
  ∧ TuyaDevice._status armed_device = ∅
  ∧ ∃ dev',
      TuyaDevice.status_updated (PyDict echo_30) (Some "30"%string) armed_device []
      = (Ok tt, dev', [EvDispatch (PyDict echo_30)])
      ∧ TuyaDevice._status dev' = echo_30.
Proof.
  split.
  { eexists. split; [reflexivity|]. by eexists. }
  split; [reflexivity|].
  eexists. split; [vm_compute; reflexivity|]. vm_compute. reflexivity.
Qed.

(** An entity that holds the dictionary of "30" reads the echo before its
    handler has run, and what the callback's query merged after the handler
    has run and assigned nothing. *)
Example intercepted_entity_reads_the_merge :
  let self := LocalTuyaEntity.set_status (Store "30") entity_30 in
  holds (self, echoed_device) {["101"%string := PyScalar (SBool true)]}
  ∧ ∃ dev',
      LocalTuyaEntity._update_handler Cache (self, echoed_device) []
      = (Ok tt, (self, dev'),
         [EvLog Debug; EvLog Debug; EvStatus (Some "30"%string);
          EvDispatch (PyDict data_30)])
      ∧ holds (self, dev')
          {["101"%string := PyScalar (SBool false);
            "2"%string := PyScalar (SStr "off")]}.
Proof.
  cbn zeta. split.
  - vm_compute. reflexivity.
  - eexists. split; vm_compute; reflexivity.
Qed.

(** ** The callback and its seed *)

(** On a connected device a status query is one call on the transport. *)
Lemma status_transport_calls (cid : option string) (dev : TuyaDevice.t)
    (tr : trace) (i : Interface) :
  TuyaDevice._interface dev = Some i →
  ∃ r dev' evs,
    TuyaDevice.status cid dev tr = (r, dev', tr ++ evs)
    ∧ transport_calls evs = [EvStatus cid].
Proof.
  intros Hi. unfold TuyaDevice.status, TuyaDevice.status_updated. run.
  rewrite Hi.
  split_paths; norm_trace; do 3 eexists; (split; [reflexivity|]); done.
Qed.

(** A seed that is true in Python's sense is written, then the status is
    queried. *)
Lemma refresh_callback_truthy_seed (c : string) (dp seed : scalar)
    (dev : TuyaDevice.t) (tr : trace) (i : Interface)
    (cbs : gmap string TuyaDevice.refresh_closure) :
  TuyaDevice._interface dev = Some i →
  TuyaDevice._refresh_callbacks dev = Some cbs →
  is_Some (cbs !! c) →
  scalar_truthy seed = true →
  (∀ h, if_set_dps i h [(dp, seed)] (Some c) = Ok tt) →
  ∃ r dev' evs,
    TuyaDevice.refresh_callback (closure_of c dp seed) dev tr = (r, dev', tr ++ evs)
    ∧ transport_calls evs = [EvSetDps [(dp, seed)] (Some c); EvStatus (Some c)].
Proof.
  intros Hi Hcbs [x Hx] Hseed Hw.
  unfold TuyaDevice.refresh_callback, TuyaDevice.interface_set_dps. run.
  rewrite Hcbs, Hx. run. rewrite Hseed. run. rewrite Hi. run. rewrite Hw. run.
  match goal with |- context [TuyaDevice.status ?k ?d ?t] =>
    destruct (status_transport_calls k d t i Hi) as (r & dev' & evs & -> & Hev)
  end.
  do 3 eexists. norm_trace. split; [reflexivity|].
  cbn. unfold transport_calls in Hev. by rewrite Hev.
Qed.

(** A seed that is false in Python's sense ([None], [False], [0], the empty
    string) is not written: the status query is the only call. *)
Lemma refresh_callback_falsy_seed (c : string) (dp seed : scalar)
    (dev : TuyaDevice.t) (tr : trace) (i : Interface)
    (cbs : gmap string TuyaDevice.refresh_closure) :
  TuyaDevice._interface dev = Some i →
  TuyaDevice._refresh_callbacks dev = Some cbs →
  is_Some (cbs !! c) →
  scalar_truthy seed = false →
  ∃ r dev' evs,
    TuyaDevice.refresh_callback (closure_of c dp seed) dev tr = (r, dev', tr ++ evs)
    ∧ transport_calls evs = [EvStatus (Some c)].
Proof.
  intros Hi Hcbs [x Hx] Hseed.
  unfold TuyaDevice.refresh_callback. run.
  rewrite Hcbs, Hx. run. rewrite Hseed. run.
  match goal with |- context [TuyaDevice.status ?k ?d ?t] =>
    destruct (status_transport_calls k d t i Hi) as (r & dev' & evs & -> & Hev)
  end.
  do 3 eexists. norm_trace. split; [reflexivity|].
  cbn. unfold transport_calls in Hev. by rewrite Hev.
Qed.

(** C4 at the seed [False].  With the refresh of "30" armed by
    [refresh("30", "101", true, false)], the pending callback queries the
    status of "30" and writes nothing: the seed write [{"101": false}] is
    not issued, because [if initial_value:] tests the truth of the seed. *)
Theorem refresh_callback_false_seed :
  TuyaDevice._refresh_callbacks armed_device
  = Some {["30"%string := closure_of "30" (SStr "101") (SBool false)]}
  ∧ ∃ dev',
      TuyaDevice.refresh_callback (closure_of "30" (SStr "101") (SBool false))
        armed_device []
      = (Ok tt, dev',
         [EvLog Debug; EvLog Debug; EvStatus (Some "30"%string);
          EvDispatch (PyDict data_30)])
      ∧ TuyaDevice._status dev' = data_30.
Proof.
  split; [reflexivity|].
  eexists. split; [vm_compute; reflexivity|]. vm_compute. reflexivity.
Qed.

(** ** Disconnection *)

(** [disconnected] publishes the sentinel and forgets the connection. *)
Lemma disconnected_publishes (dev : TuyaDevice.t) (tr : trace) :
  TuyaDevice.disconnected dev tr
  = (Ok tt, TuyaDevice.set_interface None dev,
     tr ++ [EvDispatch (PyScalar SNone); EvLog Debug]).
Proof. unfold TuyaDevice.disconnected. run. by norm_trace. Qed.

(** An entity of the device itself clears its status on the sentinel and
    is unavailable afterwards; the status hook is not invoked. *)
Lemma handler_sentinel_unscoped (self : LocalTuyaEntity.t) (dev : TuyaDevice.t)
    (tr : trace) :
  cid_truthy (LocalTuyaEntity._cid self) = None →
  LocalTuyaEntity._update_handler (PyScalar SNone) (self, dev) tr
  = (Ok tt, (LocalTuyaEntity.set_status (PyDict ∅) self, dev),
     tr ++ [EvScheduleUpdate])
  ∧ LocalTuyaEntity.available (LocalTuyaEntity.set_status (PyDict ∅) self, dev)
    = Ok false.
Proof.
  intros H. split; [|reflexivity].
  rewrite handler_unscoped by done. by apply store_status_falsy.
Qed.

(** C5 on the two entities.  The sentinel reaches both handlers.  Entity A
    clears its status and becomes unavailable.  The handler of entity B, an
    entity of a sub-device, raises [AttributeError] at [status.get]: its
    local status is not cleared, no presentation refresh is scheduled, and B
    is still available.  So it is for every entity of a sub-device, whatever
    it and the device hold: its handler raises and changes nothing. *)
Theorem disconnect_propagation :
  TuyaDevice.disconnected connected_device []
  = (Ok tt, fresh_device, [EvDispatch (PyScalar SNone); EvLog Debug])
  ∧ deliver (PyScalar SNone) [entity_A; entity_B] fresh_device
      [EvDispatch (PyScalar SNone); EvLog Debug]
    = ([(Ok tt, LocalTuyaEntity.set_status (PyDict ∅) entity_A);
        (Raise AttributeError, entity_B)],
       fresh_device,
       [EvDispatch (PyScalar SNone); EvLog Debug; EvScheduleUpdate])
  ∧ LocalTuyaEntity.available
      (LocalTuyaEntity.set_status (PyDict ∅) entity_A, fresh_device)
    = Ok false
  ∧ LocalTuyaEntity.available (entity_B, fresh_device) = Ok true
  ∧ (∀ (self : LocalTuyaEntity.t) (dev : TuyaDevice.t) (tr : trace) (c : string),
      cid_truthy (LocalTuyaEntity._cid self) = Some c →
      LocalTuyaEntity._update_handler (PyScalar SNone) (self, dev) tr
      = (Raise AttributeError, (self, dev), tr)).
Proof.
  split; [reflexivity|]. split; [vm_compute; reflexivity|].
  split; [reflexivity|]. split; [reflexivity|].
  intros self dev tr c Hc. by apply (handler_scoped_not_dict SNone self dev tr c).
Qed.

(** ** Closing *)

(** A status query, the arming of a refresh and the loop over the entities
    leave [_connect_task] alone. *)
Lemma status_keeps_task (cid : option string) (dev : TuyaDevice.t) (tr : trace) :
  TuyaDevice._connect_task (TuyaDevice.status cid dev tr).1.2
  = TuyaDevice._connect_task dev.
Proof.
  unfold TuyaDevice.status, TuyaDevice.status_updated. split_paths; reflexivity.
Qed.

Lemma refresh_subdevice_keeps_task (cid : string) (dp value seed : scalar)
    (dev : TuyaDevice.t) (tr : trace) :
  TuyaDevice._connect_task
    (TuyaDevice.refresh_subdevice cid dp value seed dev tr).1.2
  = TuyaDevice._connect_task dev.
Proof.
  unfold TuyaDevice.refresh_subdevice, TuyaDevice.interface_set_dps.
  split_paths; reflexivity.
Qed.

Lemma query_subdevices_keeps_task (entities : list EntityConfig) (b : bool)
    (dev : TuyaDevice.t) (tr : trace) :
  TuyaDevice._connect_task (TuyaDevice.query_subdevices entities b dev tr).1.2
  = TuyaDevice._connect_task dev.
Proof.
  revert b dev tr. induction entities as [|entity rest IH]; intros b dev tr.
  - reflexivity.
  - cbn [TuyaDevice.query_subdevices].
    destruct (CONF_ZIGBEE entity) as [zigbee|]; [|apply IH].
    destruct (CONF_ZIGBEE_REFRESH zigbee) as [refresh|].
    + pose proof (refresh_subdevice_keeps_task (CONF_ZIGBEE_CID zigbee)
                    (CONF_ZIGBEE_REFRESH_DP refresh)
                    (CONF_ZIGBEE_REFRESH_VALUE refresh)
                    (default SNone (CONF_ZIGBEE_REFRESH_INITIAL_VALUE refresh))
                    dev tr) as H.
      unfold mbind, M_bind, bind.
      destruct (TuyaDevice.refresh_subdevice _ _ _ _ dev tr) as [[[[]|e] d] t];
        cbn in H |- *; [|done].
      by rewrite IH.
    + pose proof (status_keeps_task (Some (CONF_ZIGBEE_CID zigbee)) dev tr) as H.
      unfold mbind, M_bind, bind.
      destruct (TuyaDevice.status _ dev tr) as [[[[]|e] d] t];
        cbn in H |- *; [|done].
      by rewrite IH.
Qed.

(** [_make_connection] resets [_connect_task] on its last line only: a run
    that raises leaves the attribute as it was. *)
Lemma make_connection_task (dev : TuyaDevice.t) (tr : trace) :
  match (TuyaDevice._make_connection dev tr).1.1 with
  | Ok _ => TuyaDevice._connect_task (TuyaDevice._make_connection dev tr).1.2 = None
  | Raise _ =>
      TuyaDevice._connect_task (TuyaDevice._make_connection dev tr).1.2
      = TuyaDevice._connect_task dev
  end.
Proof.
  unfold TuyaDevice._make_connection. run.
  repeat
    (run;
     match goal with
     | |- context [TuyaDevice.query_subdevices ?l ?b ?d ?t] =>
         let H := fresh "H" in
         pose proof (query_subdevices_keeps_task l b d t) as H;
         destruct (TuyaDevice.query_subdevices l b d t) as [[[[]|?] ?] ?];
         cbn in H
     | |- context [TuyaDevice.status ?c ?d ?t] =>
         let H := fresh "H" in
         pose proof (status_keeps_task c d t) as H;
         destruct (TuyaDevice.status c d t) as [[[[]|?] ?] ?];
         cbn in H
     | |- context [match ?x with _ => _ end] =>
         lazymatch x with
         | context [match _ with _ => _ end] => fail
         | _ => destruct x eqn:?
         end
     | |- context [if ?x then _ else _] =>
         lazymatch x with
         | context [match _ with _ => _ end] => fail
         | context [if _ then _ else _] => fail
         | _ => destruct x eqn:?
         end
     end); cbn in *; congruence.
Qed.

(** A cancellation while the task waits for [pytuya.connect] goes through
    the handler: the task ends with [CancelledError], nothing is closed and
    [_connect_task] still refers to it. *)
Lemma make_connection_cancelled (dev : TuyaDevice.t) (tr : trace) :
  TuyaDevice.pytuya_connect dev (tr ++ [EvLog Debug; EvConnect])
  = Raise CancelledError →
  TuyaDevice._make_connection dev tr
  = (Raise CancelledError, dev, tr ++ [EvLog Debug; EvConnect]).
Proof.
  intros H. unfold TuyaDevice._make_connection. run.
  rewrite <- app_assoc. cbn [app]. by rewrite H.
Qed.

(** With no task held, [close] sets the flag and closes the transport if
    there is one; [_interface] is not reset, so a further [close] closes it
    again. *)
Lemma close_without_task (dev : TuyaDevice.t) (tr : trace) :
  TuyaDevice._connect_task dev = None →
  TuyaDevice.close dev tr
  = match TuyaDevice._interface dev with
    | Some i =>
        (if_close i (tr ++ [EvInterfaceClose]),
         TuyaDevice.set_is_closing true dev, tr ++ [EvInterfaceClose])
    | None => (Ok tt, TuyaDevice.set_is_closing true dev, tr)
    end.
Proof.
  intros H. unfold TuyaDevice.close. run. rewrite H. run.
  destruct (TuyaDevice._interface dev) as [i|]; run; [|done].
  by destruct (if_close i (tr ++ [EvInterfaceClose])) as [[]|e].
Qed.

(** With a task held, [close] ends at the [await]: it raises unless the
    task had finished normally, the transport is not closed, and the task
    stays in [_connect_task]. *)
Lemma close_with_task (dev : TuyaDevice.t) (tr : trace) (k : TuyaDevice.task) :
  TuyaDevice._connect_task dev = Some k →
  (∀ r, k = TuyaDevice.TaskDone r → ∃ e, r = Raise e) →
  ∃ e dev',
    TuyaDevice.close dev tr = (Raise e, dev', tr ++ [EvTaskCancel])
    ∧ (∃ k', TuyaDevice._connect_task dev' = Some k')
    ∧ TuyaDevice._interface dev' = TuyaDevice._interface dev.
Proof.
  intros H Hk. unfold TuyaDevice.close, TuyaDevice.cancel_and_await. run.
  rewrite H. run. destruct k as [|r]; run.
  - do 2 eexists. split; [reflexivity|]. split; [by eexists | done].
  - destruct (Hk r eq_refl) as [e ->]. run.
    do 2 eexists. split; [reflexivity|]. cbn. rewrite H. split; [by eexists | done].
Qed.

(** C7 with a connection attempt in flight.  [close] right after
    [async_connect] raises [CancelledError] at [await self._connect_task];
    the cancelled task stays in [_connect_task], so a second [close] raises
    again.  When the attempt had already opened the transport, [close] never
    reaches [self._interface.close()]: the transport stays open. *)
Theorem close_in_flight_raises :
  ∃ dev1 dev2 dev3,
    TuyaDevice.async_connect fresh_device [] = (Ok tt, dev1, [EvCreateTask])
    ∧ TuyaDevice.close dev1 [EvCreateTask]
      = (Raise CancelledError, dev2, [EvCreateTask; EvTaskCancel])
    ∧ TuyaDevice._connect_task dev2
      = Some (TuyaDevice.TaskDone (Raise CancelledError))
    ∧ TuyaDevice.close dev2 [EvCreateTask; EvTaskCancel]
      = (Raise CancelledError, dev2, [EvCreateTask; EvTaskCancel; EvTaskCancel])
    ∧ TuyaDevice.close connecting_device []
      = (Raise CancelledError, dev3, [EvTaskCancel])
    ∧ TuyaDevice._interface dev3 = Some accepting_interface
    ∧ TuyaDevice.close dev3 [EvTaskCancel]
      = (Raise CancelledError, dev3, [EvTaskCancel; EvTaskCancel]).
Proof.
  do 3 eexists. repeat split; reflexivity.
Qed.

(** ** Availability *)

(** C10.  [available] is true exactly when the entity's own datapoint id,
    as a string, is a key of its local status.  A cleared local status hence
    makes the entity unavailable, as after the sentinel for an entity of the
    device itself and after a snapshot without its cid for an entity of a
    sub-device; and an entity is available while another datapoint it is
    configured with is missing. *)
Theorem available_criterion :
  (∀ (self : LocalTuyaEntity.t) (dev : TuyaDevice.t) (m : gmap string pyval),
      holds (self, dev) m →
      LocalTuyaEntity.available (self, dev)
      = Ok (bool_decide (is_Some (m !! py_str (LocalTuyaEntity._dp_id self)))))
  ∧ (∀ (self : LocalTuyaEntity.t) (dev : TuyaDevice.t),
      LocalTuyaEntity.available (LocalTuyaEntity.set_status (PyDict ∅) self, dev)
      = Ok false)
  ∧ (∀ (self : LocalTuyaEntity.t) (dev : TuyaDevice.t) (tr : trace),
      cid_truthy (LocalTuyaEntity._cid self) = None →
      ∃ self',
        LocalTuyaEntity._update_handler (PyScalar SNone) (self, dev) tr
        = (Ok tt, (self', dev), tr ++ [EvScheduleUpdate])
        ∧ LocalTuyaEntity.available (self', dev) = Ok false)
  ∧ (∀ (self : LocalTuyaEntity.t) (dev : TuyaDevice.t) (tr : trace) (c : string)
       (p : gmap string pyval),
      cid_truthy (LocalTuyaEntity._cid self) = Some c →
      p !! c = None →
      ∃ self',
        LocalTuyaEntity._update_handler (PyDict p) (self, dev) tr
        = (Ok tt, (self', dev), tr ++ [EvScheduleUpdate])
        ∧ LocalTuyaEntity.available (self', dev) = Ok false)
  ∧ (∀ (self : LocalTuyaEntity.t) (dev : TuyaDevice.t) (tr : trace) (c : string),
      cid_truthy (LocalTuyaEntity._cid self) = Some c →
      TuyaDevice._status dev !! c = None →
      ∃ self',
        LocalTuyaEntity._update_handler Cache (self, dev) tr
        = (Ok tt, (self', dev), tr ++ [EvScheduleUpdate])
        ∧ LocalTuyaEntity.available (self', dev) = Ok false)
  ∧ (∀ dev : TuyaDevice.t,
      LocalTuyaEntity.available (entity_1, dev) = Ok true
      ∧ LocalTuyaEntity.has_config entity_1 CONF_TARGET_TEMPERATURE_DP = true
      ∧ LocalTuyaEntity.dps_conf CONF_TARGET_TEMPERATURE_DP (entity_1, dev) []
        = (Ok (PyScalar SNone), (entity_1, dev), [EvLog Warning])).
Proof.
  split; [|split; [|split; [|split; [|split]]]].
  - intros self dev m Hm. unfold LocalTuyaEntity.available.
    unfold holds in Hm. by rewrite Hm.
  - reflexivity.
  - intros self dev tr Hc. eexists.
    destruct (handler_sentinel_unscoped self dev tr Hc) as [-> Ha]. done.
  - intros self dev tr c p Hc Hp. eexists. split.
    + apply (handler_scoped_falsy (PyDict p) (PyScalar SNone) self dev tr c Hc);
        [|done]. cbn. by rewrite Hp.
    + reflexivity.
  - intros self dev tr c Hc Hp. eexists. split.
    + apply (handler_scoped_falsy Cache (cache_get dev c) self dev tr c Hc);
        [done|]. rewrite deref_cache_get. unfold sub_map. by rewrite Hp.
    + reflexivity.
  - intros dev. repeat split; reflexivity.
Qed.

Lemma available_criterion_witness :
  holds (entity_1, fresh_device) {["1"%string := PyScalar (SBool true)]}
  ∧ LocalTuyaEntity.available (entity_1, fresh_device)
    = Ok (bool_decide
            (is_Some (({["1"%string := PyScalar (SBool true)]}
                         : gmap string pyval)
                        !! py_str (LocalTuyaEntity._dp_id entity_1)))).
Proof.
  assert (H : holds (entity_1, fresh_device)
                {["1"%string := PyScalar (SBool true)]})
    by reflexivity.
  split; [exact H|].
  exact (proj1 available_criterion entity_1 fresh_device _ H).
Defined.

(** ** Capabilities a climate entity is not configured for *)

#[local] Arguments LocaltuyaClimate.table_get : simpl never.

(** A write of a climate entity goes to the device once. *)
Lemma climate_set_dp_forwards (value dp_index : scalar)
    (self : LocaltuyaClimate.t) (dev : TuyaDevice.t) (tr : trace) :
  (LocaltuyaClimate.set_dp value dp_index;;
   mret (LocaltuyaClimate.Value SNone)) (self, dev) tr
  = forwards value dp_index (self, dev) tr.
Proof.
  unfold forwards, LocaltuyaClimate.set_dp, LocalTuyaEntity.set_dp,
    LocalTuyaEntity.on_device, TuyaDevice.set_dp.
  run. destruct self as [e pm]. cbn.
  destruct (TuyaDevice._interface dev) as [i|]; run; [|done].
  match goal with |- context [if_set_dp i ?h ?a ?b ?c] =>
    destruct (if_set_dp i h a b c) as [[]|[]] end; run; by norm_trace.
Qed.

Lemma heat_is_manual :
  LocaltuyaClimate.table_get LocaltuyaClimate.HVAC_PRESET_REMAP
    LocaltuyaClimate.HVAC_MODE_HEAT = Some "manual"%string.
Proof. reflexivity. Qed.

Lemma manual_is_no_preset :
  LocaltuyaClimate.table_get LocaltuyaClimate.PRESET_REMAP "manual" = None.
Proof. reflexivity. Qed.

Lemma preset_mode_configured (self : LocaltuyaClimate.t) :
  LocaltuyaClimate.has_config self CONF_PRESET_MODE_DP = true →
  ∃ s, LocaltuyaClimate.preset_mode self = LocaltuyaClimate.Value (PyScalar (SStr s))
       ∧ s ∈ LocaltuyaClimate.preset_list.
Proof.
  intros H. unfold LocaltuyaClimate.preset_mode. rewrite H.
  destruct (LocaltuyaClimate._preset_mode self) as [[| | |x]|d]; cbn;
    try (exists LocaltuyaClimate.PRESET_HOME; split; [reflexivity|];
         cbn; set_solver).
  repeat
    match goal with
    | |- context [String.eqb x ?s] =>
        destruct (String.eqb_spec x s); subst; cbn
    end;
    eexists; (split; [reflexivity|]); cbn; set_solver.
Qed.

(** C9, and where the code departs from it.  Without a preset-mode
    datapoint, reading the preset mode, reading the preset modes and setting
    the preset mode each return an instance of [NotImplementedError] as
    their value: nothing is raised, written or changed; so does setting an
    HVAC mode other than "heat" without an HVAC-mode datapoint.  Setting the
    HVAC mode "heat" goes through [async_set_preset_mode], and without a
    preset-mode datapoint it returns [None] with nothing written: the
    instance its callee returned is dropped, and the caller gets the value
    of a call that worked.  With the datapoint configured, the preset mode
    read is one of the preset names, and each setter forwards one write of
    the mapped value and returns [None]. *)
Theorem preset_unsupported_outcome (self : LocaltuyaClimate.t)
    (dev : TuyaDevice.t) (tr : trace) :
  (LocaltuyaClimate.has_config self CONF_PRESET_MODE_DP = false →
     LocaltuyaClimate.preset_mode self = LocaltuyaClimate.NotImplementedError_instance
     ∧ LocaltuyaClimate.preset_modes self
       = LocaltuyaClimate.NotImplementedError_instance
     ∧ (∀ preset,
         LocaltuyaClimate.async_set_preset_mode preset (self, dev) tr
         = (Ok LocaltuyaClimate.NotImplementedError_instance, (self, dev), tr))
     ∧ LocaltuyaClimate.async_set_hvac_mode LocaltuyaClimate.HVAC_MODE_HEAT
         (self, dev) tr
       = (Ok (LocaltuyaClimate.Value SNone), (self, dev), tr))
  ∧ (LocaltuyaClimate.has_config self CONF_HVAC_MODE_DP = false →
     ∀ mode,
       LocaltuyaClimate.table_get LocaltuyaClimate.HVAC_PRESET_REMAP mode = None →
       LocaltuyaClimate.async_set_hvac_mode mode (self, dev) tr
       = (Ok LocaltuyaClimate.NotImplementedError_instance, (self, dev), tr))
  ∧ (LocaltuyaClimate.has_config self CONF_PRESET_MODE_DP = true →
     (∃ s, LocaltuyaClimate.preset_mode self
           = LocaltuyaClimate.Value (PyScalar (SStr s))
           ∧ s ∈ LocaltuyaClimate.preset_list)
     ∧ LocaltuyaClimate.preset_modes self
       = LocaltuyaClimate.Value LocaltuyaClimate.preset_list
     ∧ (∀ preset,
         LocaltuyaClimate.async_set_preset_mode preset (self, dev) tr
         = forwards (preset_code preset) (configured self CONF_PRESET_MODE_DP)
             (self, dev) tr)
     ∧ LocaltuyaClimate.async_set_hvac_mode LocaltuyaClimate.HVAC_MODE_HEAT
         (self, dev) tr
       = forwards (SStr "manual") (configured self CONF_PRESET_MODE_DP)
           (self, dev) tr)
  ∧ (LocaltuyaClimate.has_config self CONF_HVAC_MODE_DP = true →
     ∀ mode,
       LocaltuyaClimate.table_get LocaltuyaClimate.HVAC_PRESET_REMAP mode = None →
       LocaltuyaClimate.async_set_hvac_mode mode (self, dev) tr
       = forwards (SStr mode) (configured self CONF_HVAC_MODE_DP) (self, dev) tr).
Proof.
  split; [|split; [|split]].
  - intros H. unfold LocaltuyaClimate.preset_mode, LocaltuyaClimate.preset_modes.
    rewrite H. repeat split.
    + intros preset. unfold LocaltuyaClimate.async_set_preset_mode. run.
      by rewrite H.
    + unfold LocaltuyaClimate.async_set_hvac_mode,
        LocaltuyaClimate.async_set_preset_mode. run. rewrite heat_is_manual.
      run. by rewrite H.
  - intros H mode Hm. unfold LocaltuyaClimate.async_set_hvac_mode. run.
    by rewrite Hm, H.
  - intros H. split; [by apply preset_mode_configured|]. split.
    { unfold LocaltuyaClimate.preset_modes. by rewrite H. }
    split.
    + intros preset.
      rewrite <- climate_set_dp_forwards.
      unfold LocaltuyaClimate.async_set_preset_mode, preset_code, configured.
      run. by rewrite H.
    + rewrite <- climate_set_dp_forwards.
      unfold LocaltuyaClimate.async_set_hvac_mode,
        LocaltuyaClimate.async_set_preset_mode, configured.
      run. rewrite heat_is_manual. run. rewrite H. run.
      rewrite manual_is_no_preset. cbn [default].
      match goal with |- context [LocaltuyaClimate.set_dp ?a ?b ?s ?t] =>
        by destruct (LocaltuyaClimate.set_dp a b s t) as [[[[]|e] s'] t'] end.
  - intros H mode Hm.
    rewrite <- climate_set_dp_forwards.
    unfold LocaltuyaClimate.async_set_hvac_mode, configured. run.
    by rewrite Hm, H.
Qed.

Example preset_mode_holiday :
  LocaltuyaClimate.preset_mode climate_preset
  = LocaltuyaClimate.Value (PyScalar (SStr "away")).
Proof. reflexivity. Qed.

Example set_preset_mode_away :
  LocaltuyaClimate.async_set_preset_mode "away" (climate_preset, connected_device) []
  = (Ok (LocaltuyaClimate.Value SNone), (climate_preset, connected_device),
     [EvSetDp (SStr "holiday") (SInt 4) None]).
Proof. reflexivity. Qed.

Lemma preset_unsupported_outcome_witness :
  (LocaltuyaClimate.has_config climate_plain CONF_PRESET_MODE_DP = false
   ∧ LocaltuyaClimate.preset_mode climate_plain
     = LocaltuyaClimate.NotImplementedError_instance
   ∧ LocaltuyaClimate.preset_modes climate_plain
     = LocaltuyaClimate.NotImplementedError_instance
   ∧ (∀ preset,
       LocaltuyaClimate.async_set_preset_mode preset
         (climate_plain, connected_device) []
       = (Ok LocaltuyaClimate.NotImplementedError_instance,
          (climate_plain, connected_device), []))
   ∧ LocaltuyaClimate.async_set_hvac_mode LocaltuyaClimate.HVAC_MODE_HEAT
       (climate_plain, connected_device) []
     = (Ok (LocaltuyaClimate.Value SNone), (climate_plain, connected_device), []))
  ∧ (LocaltuyaClimate.has_config climate_preset CONF_PRESET_MODE_DP = true
     ∧ LocaltuyaClimate.async_set_hvac_mode LocaltuyaClimate.HVAC_MODE_HEAT
         (climate_preset, connected_device) []
       = forwards (SStr "manual") (configured climate_preset CONF_PRESET_MODE_DP)
           (climate_preset, connected_device) []).
Proof.
  split.
  - split; [reflexivity|].
    exact (proj1 (preset_unsupported_outcome climate_plain connected_device [])
             eq_refl).
  - split; [reflexivity|].
    exact (proj2 (proj2 (proj2 (proj1 (proj2 (proj2
             (preset_unsupported_outcome climate_preset connected_device [])))
             eq_refl)))).
Defined.

(** The two calls side by side: "heat" without a preset-mode datapoint
    returns [None] and writes nothing; with one it returns [None] and has
    written "manual". *)
Example hvac_heat_outcomes :
  LocaltuyaClimate.has_config climate_plain CONF_PRESET_MODE_DP = false
  ∧ LocaltuyaClimate.has_config climate_plain CONF_HVAC_MODE_DP = false
  ∧ LocaltuyaClimate.async_set_hvac_mode LocaltuyaClimate.HVAC_MODE_HEAT
      (climate_plain, connected_device) []
    = (Ok (LocaltuyaClimate.Value SNone), (climate_plain, connected_device), [])
  ∧ LocaltuyaClimate.async_set_hvac_mode LocaltuyaClimate.HVAC_MODE_HEAT
      (climate_preset, connected_device) []
    = (Ok (LocaltuyaClimate.Value SNone), (climate_preset, connected_device),
       [EvSetDp (SStr "manual") (SInt 4) None]).
Proof. repeat split; reflexivity. Qed.

(** * Further properties *)

(** ** Entity ids *)

Lemma split_on_length (sep : Ascii.ascii) (s : string) :
  length (split_on sep s) = S (count_char sep s).
Proof.
  induction s as [|c s IH]; [done|]. cbn.
  destruct (Ascii.eqb c sep); cbn; [by rewrite IH|].
  destruct (split_on sep s) as [|w ws]; cbn in *; lia.
Qed.

Lemma split_on_whole (sep : Ascii.ascii) (s : string) :
  count_char sep s = 0%nat → split_on sep s = [s].
Proof.
  induction s as [|c s IH]; [done|]. cbn.
  destruct (Ascii.eqb c sep); [done|]. cbn. intros H. by rewrite IH.
Qed.

Lemma append_cons (c : Ascii.ascii) (a b : string) :
  (String c a ++ b = String c (a ++ b))%string.
Proof. reflexivity. Qed.

Lemma append_empty (b : string) : ("" ++ b = b)%string.
Proof. reflexivity. Qed.

Lemma split_on_append (sep : Ascii.ascii) (a b : string) :
  count_char sep a = 0%nat →
  split_on sep (a ++ String sep b) = a :: split_on sep b.
Proof.
  induction a as [|c a IH].
  - intros _. rewrite append_empty. cbn [split_on]. by rewrite Ascii.eqb_refl.
  - rewrite append_cons. cbn [split_on count_char].
    destruct (Ascii.eqb c sep); [done|]. intros H. by rewrite IH.
Qed.

Lemma count_char_append (sep : Ascii.ascii) (a b : string) :
  count_char sep (a ++ b) = (count_char sep a + count_char sep b)%nat.
Proof.
  induction a as [|c a IH]; [done|].
  rewrite append_cons. cbn [count_char]. rewrite IH. lia.
Qed.

Lemma has_underscore (s : string) :
  is_substring "_" s = negb (Nat.eqb (count_char underscore s) 0).
Proof.
  induction s as [|c s IH]; [done|].
  cbn [is_substring is_prefix count_char]. unfold underscore in *.
  rewrite (Ascii.eqb_sym _ c).
  destruct (Ascii.eqb c _); [done|]. by rewrite IH.
Qed.

(** X1.  The id [async_setup_entry] builds and the parse in
    [LocalTuyaEntity.__init__] are inverse to each other as long as neither
    the cid nor the datapoint id has an underscore: the entity gets the cid
    and the datapoint id as a string (an entity of the device itself keeps
    its id as configured).  An underscore in either part of a sub-device id
    makes the constructor raise [ValueError]. *)
Theorem parse_id_entity_id (device_config : EntityConfig) :
  (∀ zigbee,
      CONF_ZIGBEE device_config = Some zigbee →
      count_char underscore (CONF_ZIGBEE_CID zigbee) = 0%nat →
      count_char underscore (py_str (CONF_ID device_config)) = 0%nat →
      parse_id (entity_id device_config)
      = Ok (Some (CONF_ZIGBEE_CID zigbee),
            SStr (py_str (CONF_ID device_config))))
  ∧ (CONF_ZIGBEE device_config = None →
     count_char underscore (py_str (CONF_ID device_config)) = 0%nat →
     parse_id (entity_id device_config) = Ok (None, CONF_ID device_config))
  ∧ (∀ zigbee,
      CONF_ZIGBEE device_config = Some zigbee →
      (0 < count_char underscore (CONF_ZIGBEE_CID zigbee)
           + count_char underscore (py_str (CONF_ID device_config)))%nat →
      parse_id (entity_id device_config) = Raise ValueError).
Proof.
  unfold parse_id, entity_id. split; [|split].
  - intros zigbee -> Hc Hd. cbn [py_str]. rewrite append_cons, append_empty.
    rewrite has_underscore, count_char_append. cbn [count_char].
    rewrite Hc, Hd. cbn [Nat.add].
    fold underscore. rewrite Ascii.eqb_refl. cbn [Nat.add Nat.eqb negb].
    rewrite split_on_append by done. by rewrite split_on_whole.
  - intros -> Hd. rewrite has_underscore, Hd. reflexivity.
  - intros zigbee -> Hpos. cbn [py_str]. rewrite append_cons, append_empty.
    fold underscore.
    pose proof (split_on_length underscore
                  (CONF_ZIGBEE_CID zigbee
                   ++ String underscore (py_str (CONF_ID device_config)))) as Hlen.
    rewrite has_underscore.
    rewrite count_char_append in Hlen |- *. cbn [count_char] in Hlen |- *.
    rewrite Ascii.eqb_refl in Hlen |- *.
    destruct (count_char underscore (CONF_ZIGBEE_CID zigbee) + (1 + _))%nat
      as [|n] eqn:E; [lia|]. cbn [Nat.eqb negb].
    destruct (split_on underscore _) as [|a [|b [|c l]]]; cbn in Hlen;
      try done; lia.
Qed.

Lemma parse_id_entity_id_witness :
  CONF_ZIGBEE (LocalTuyaEntity._config entity_30)
  = Some {| CONF_ZIGBEE_CID := "30";
            CONF_ZIGBEE_REFRESH :=
              Some {| CONF_ZIGBEE_REFRESH_DP := SStr "101";
                      CONF_ZIGBEE_REFRESH_VALUE := SBool true;
                      CONF_ZIGBEE_REFRESH_INITIAL_VALUE := Some (SBool false) |} |}
  ∧ count_char underscore "30" = 0%nat
  ∧ count_char underscore (py_str (CONF_ID (LocalTuyaEntity._config entity_30)))
    = 0%nat
  ∧ parse_id (entity_id (LocalTuyaEntity._config entity_30))
    = Ok (Some "30"%string,
          SStr (py_str (CONF_ID (LocalTuyaEntity._config entity_30)))).
Proof.
  split; [reflexivity|]. split; [reflexivity|]. split; [reflexivity|].
  exact (proj1 (parse_id_entity_id (LocalTuyaEntity._config entity_30))
           _ eq_refl eq_refl eq_refl).
Defined.

(** ** Looking up the configuration of an entity *)

Lemma get_entity_config_skip (c : string) (cid : option string)
    (pre rest : list EntityConfig) (dp_id : scalar) :
  cid_truthy cid = Some c →
  Forall (other_subdevice c) pre →
  get_entity_config (pre ++ rest) dp_id cid = get_entity_config rest dp_id cid.
Proof.
  intros Hc. induction 1 as [|e pre (z & Hz & Hne) _ IH]; [done|].
  cbn. rewrite Hc, Hz. by destruct (String.eqb_spec (CONF_ZIGBEE_CID z) c).
Qed.

(** X2.  With a cid, [get_entity_config] looks at the cid alone: the
    datapoint id has no influence, the entity returned is the first one of
    that sub-device, and two entities of one sub-device therefore get the
    same configuration.  An entity without [CONF_ZIGBEE] that stands before
    the first match makes the lookup raise [KeyError]; with entities of
    other sub-devices only, the lookup raises the "missing entity config"
    exception. *)
Theorem get_entity_config_by_cid (entities : list EntityConfig) (c : string)
    (cid : option string) :
  cid_truthy cid = Some c →
  (∀ dp_id dp_id',
      get_entity_config entities dp_id cid = get_entity_config entities dp_id' cid)
  ∧ (∀ dp_id entity,
      get_entity_config entities dp_id cid = Ok entity →
      entity ∈ entities ∧ of_subdevice c entity)
  ∧ (∀ dp_id pre entity rest,
      entities = pre ++ entity :: rest →
      Forall (other_subdevice c) pre →
      (of_subdevice c entity → get_entity_config entities dp_id cid = Ok entity)
      ∧ (CONF_ZIGBEE entity = None →
         get_entity_config entities dp_id cid = Raise KeyError))
  ∧ (∀ dp_id,
      Forall (other_subdevice c) entities →
      get_entity_config entities dp_id cid = Raise OtherException).
Proof.
  intros Hc. split; [|split; [|split]].
  - intros d d'. induction entities as [|e es IH]; [done|].
    cbn. rewrite Hc. destruct (CONF_ZIGBEE e) as [z|]; [|done].
    by destruct (String.eqb (CONF_ZIGBEE_CID z) c).
  - intros d entity. induction entities as [|e es IH]; [done|].
    cbn. rewrite Hc. destruct (CONF_ZIGBEE e) as [z|] eqn:Hz; [|done].
    destruct (String.eqb_spec (CONF_ZIGBEE_CID z) c) as [Heq|Hne].
    + intros [= <-]. split; [left|]. by exists z.
    + intros H. destruct (IH H) as [Hin Hof]. split; [by right | done].
  - intros d pre entity rest -> Hpre.
    rewrite (get_entity_config_skip c cid pre _ d Hc Hpre). cbn. rewrite Hc.
    split.
    + intros (z & -> & <-). by rewrite String.eqb_refl.
    + by intros ->.
  - intros d Hall.
    rewrite <- (app_nil_r entities).
    by rewrite (get_entity_config_skip c cid entities [] d Hc Hall).
Qed.

Lemma get_entity_config_by_cid_witness :
  cid_truthy (Some "30"%string) = Some "30"%string
  ∧ ∀ dp_id dp_id',
      get_entity_config
        [LocalTuyaEntity._config entity_B; LocalTuyaEntity._config entity_30]
        dp_id (Some "30"%string)
      = get_entity_config
          [LocalTuyaEntity._config entity_B; LocalTuyaEntity._config entity_30]
          dp_id' (Some "30"%string).
Proof.
  split; [reflexivity|].
  exact (proj1 (get_entity_config_by_cid
                  [LocalTuyaEntity._config entity_B;
                   LocalTuyaEntity._config entity_30]
                  "30" (Some "30"%string) eq_refl)).
Defined.

(** X3.  Without a cid, [get_entity_config] returns the first entity whose
    [CONF_ID] equals the datapoint id; when there is none it raises the
    "missing entity config" exception.  It never reads [CONF_ZIGBEE], so it
    never raises [KeyError]. *)
Theorem get_entity_config_by_id (entities : list EntityConfig) (dp_id : scalar)
    (cid : option string) :
  cid_truthy cid = None →
  (∀ pre entity rest,
      entities = pre ++ entity :: rest →
      Forall (λ e, scalar_eq (CONF_ID e) dp_id = false) pre →
      scalar_eq (CONF_ID entity) dp_id = true →
      get_entity_config entities dp_id cid = Ok entity)
  ∧ (Forall (λ e, scalar_eq (CONF_ID e) dp_id = false) entities →
     get_entity_config entities dp_id cid = Raise OtherException)
  ∧ get_entity_config entities dp_id cid ≠ Raise KeyError.
Proof.
  intros Hc.
  assert (Hskip : ∀ pre rest,
            Forall (λ e, scalar_eq (CONF_ID e) dp_id = false) pre →
            get_entity_config (pre ++ rest) dp_id cid
            = get_entity_config rest dp_id cid).
  { intros pre rest. induction 1 as [|e pre He _ IH]; [done|].
    cbn. by rewrite Hc, He. }
  split; [|split].
  - intros pre entity rest -> Hpre He. rewrite Hskip by done.
    cbn. by rewrite Hc, He.
  - intros Hall. rewrite <- (app_nil_r entities). by rewrite Hskip.
  - induction entities as [|e es IH]; [done|]. cbn. rewrite Hc.
    by destruct (scalar_eq (CONF_ID e) dp_id).
Qed.

Lemma get_entity_config_by_id_witness :
  cid_truthy None = None
  ∧ get_entity_config
      [LocalTuyaEntity._config entity_B; LocalTuyaEntity._config entity_A]
      (SInt 1) None
    = Ok (LocalTuyaEntity._config entity_A).
Proof.
  split; [reflexivity|].
  apply (proj1 (get_entity_config_by_id
                  [LocalTuyaEntity._config entity_B;
                   LocalTuyaEntity._config entity_A] (SInt 1) None eq_refl)
           [LocalTuyaEntity._config entity_B] _ []); [reflexivity| |reflexivity].
  repeat constructor.
Defined.

(** X4.  All entities of one sub-device collapse to one identity.  Two
    entities built by [async_setup_entry] from configurations with the same
    cid (non-empty, no underscore in cid or ids) get the same configuration
    from the constructor, whatever their own datapoint ids, and the same
    [unique_id]. *)
Theorem entities_of_one_subdevice (entities : list EntityConfig)
    (device_id : string) (c1 c2 : EntityConfig) (z1 z2 : ZigbeeConfig)
    (e1 e2 : LocalTuyaEntity.t) :
  CONF_ZIGBEE c1 = Some z1 →
  CONF_ZIGBEE c2 = Some z2 →
  CONF_ZIGBEE_CID z1 = CONF_ZIGBEE_CID z2 →
  CONF_ZIGBEE_CID z1 ≠ ""%string →
  count_char underscore (CONF_ZIGBEE_CID z1) = 0%nat →
  count_char underscore (py_str (CONF_ID c1)) = 0%nat →
  count_char underscore (py_str (CONF_ID c2)) = 0%nat →
  entity_init entities (entity_id c1) = Ok e1 →
  entity_init entities (entity_id c2) = Ok e2 →
  LocalTuyaEntity._config e1 = LocalTuyaEntity._config e2
  ∧ unique_id device_id e1 = unique_id device_id e2
  ∧ LocalTuyaEntity._dp_id e1 = SStr (py_str (CONF_ID c1))
  ∧ LocalTuyaEntity._dp_id e2 = SStr (py_str (CONF_ID c2)).
Proof.
  intros Hz1 Hz2 Hcid Hne Hu Hd1 Hd2. unfold entity_init.
  rewrite (proj1 (parse_id_entity_id c1) z1 Hz1 Hu Hd1).
  rewrite (proj1 (parse_id_entity_id c2) z2 Hz2) by (by rewrite <- ?Hcid).
  rewrite <- Hcid.
  pose proof (cid_truthy_Some _ Hne) as Hc.
  rewrite (proj1 (get_entity_config_by_cid entities _ _ Hc)
             (SStr (py_str (CONF_ID c1))) (SStr (py_str (CONF_ID c2)))).
  destruct (get_entity_config entities _ _) as [config|e]; [|done].
  intros [= <-] [= <-]. unfold unique_id. cbn. by rewrite Hc.
Qed.

Lemma entities_of_one_subdevice_witness :
  ∃ e1 e2,
    entity_init [LocalTuyaEntity._config entity_30; config_30_3]
      (entity_id (LocalTuyaEntity._config entity_30)) = Ok e1
    ∧ entity_init [LocalTuyaEntity._config entity_30; config_30_3]
        (entity_id config_30_3) = Ok e2
    ∧ LocalTuyaEntity._config e1 = LocalTuyaEntity._config e2
    ∧ unique_id "bf01" e1 = unique_id "bf01" e2
    ∧ LocalTuyaEntity._dp_id e1 = SStr "2"
    ∧ LocalTuyaEntity._dp_id e2 = SStr "3".
Proof.
  do 2 eexists. split; [reflexivity|]. split; [reflexivity|].
  refine (entities_of_one_subdevice
            [LocalTuyaEntity._config entity_30; config_30_3] "bf01"
            (LocalTuyaEntity._config entity_30) config_30_3 _ _ _ _
            eq_refl eq_refl eq_refl _ eq_refl eq_refl eq_refl eq_refl eq_refl).
  discriminate.
Defined.

(** ** Relations that every step of a computation keeps *)

Section Keeps.
Context {S : Type} (Q : S * trace → S * trace → Prop).
Hypothesis Q_refl : ∀ x, Q x x.
Hypothesis Q_trans : ∀ x y z, Q x y → Q y z → Q x z.

Lemma keeps_ret {A} (a : A) : keeps Q (mret a : M S A).
Proof. intros s tr. apply Q_refl. Qed.

Lemma keeps_raise {A} (e : exn) : keeps Q (raise e : M S A).
Proof. intros s tr. apply Q_refl. Qed.

Lemma keeps_get : keeps Q (get : M S S).
Proof. intros s tr. apply Q_refl. Qed.

Lemma keeps_history : keeps Q (history : M S trace).
Proof. intros s tr. apply Q_refl. Qed.

Lemma keeps_lift_result {A} (r : result A) : keeps Q (lift_result r : M S A).
Proof. intros s tr. apply Q_refl. Qed.

Lemma keeps_bind {A B} (m : M S A) (f : A → M S B) :
  keeps Q m → (∀ a, keeps Q (f a)) → keeps Q (m ≫= f).
Proof.
  intros Hm Hf s tr. specialize (Hm s tr).
  unfold mbind, M_bind, bind. destruct (m s tr) as [[[a|e] s'] tr']; [|done].
  cbn in Hm. eapply Q_trans; [exact Hm|]. apply Hf.
Qed.

Lemma keeps_try {A} (body handler : M S A) :
  keeps Q body → keeps Q handler → keeps Q (try_except_Exception body handler).
Proof.
  intros Hb Hh s tr. specialize (Hb s tr). unfold try_except_Exception.
  destruct (body s tr) as [[[a|e] s'] tr']; [done|]. cbn in Hb.
  destruct (is_Exception e); [|done].
  eapply Q_trans; [exact Hb|]. apply Hh.
Qed.

Lemma keeps_emit (ev : event) :
  (∀ s tr, Q (s, tr) (s, tr ++ [ev])) → keeps Q (emit ev : M S unit).
Proof. intros H s tr. apply H. Qed.

Lemma keeps_modify (f : S → S) :
  (∀ s tr, Q (s, tr) (f s, tr)) → keeps Q (modify f).
Proof. intros H s tr. apply H. Qed.
End Keeps.

Section Contained.
Context {S : Type}.

Lemma contained_ret {A} (a : A) : contained (mret a : M S A).
Proof. by intros s tr. Qed.

Lemma contained_emit (ev : event) : contained (emit ev : M S unit).
Proof. by intros s tr. Qed.

Lemma contained_modify (f : S → S) : contained (modify f).
Proof. by intros s tr. Qed.

Lemma contained_bind {A B} (m : M S A) (f : A → M S B) :
  contained m → (∀ a, contained (f a)) → contained (m ≫= f).
Proof.
  intros Hm Hf s tr. specialize (Hm s tr).
  unfold mbind, M_bind, bind. destruct (m s tr) as [[[a|e] s'] tr']; [|done].
  apply Hf.
Qed.

(** Whatever the body raises, a handler that is contained makes the
    whole statement contained. *)
Lemma contained_try {A} (body handler : M S A) :
  contained handler → contained (try_except_Exception body handler).
Proof.
  intros Hh s tr. unfold try_except_Exception.
  destruct (body s tr) as [[[a|e] s'] tr']; [done|].
  destruct (is_Exception e) eqn:E; [apply Hh | done].
Qed.
End Contained.

Lemma growing_refl (x : TuyaDevice.t * trace) : growing x x.
Proof. unfold growing, grows. auto. Qed.

Lemma growing_trans (x y z : TuyaDevice.t * trace) :
  growing x y → growing y z → growing x z.
Proof.
  unfold growing, grows. intros (H1 & H2 & H3) (H4 & H5 & H6).
  repeat split; auto.
Qed.

Lemma extends_refl (P : event → bool) (x : TuyaDevice.t * trace) : extends P x x.
Proof. exists []. by rewrite app_nil_r. Qed.

Lemma extends_trans (P : event → bool) (x y z : TuyaDevice.t * trace) :
  extends P x y → extends P y z → extends P x z.
Proof.
  intros (e1 & H1 & P1) (e2 & H2 & P2). exists (e1 ++ e2).
  rewrite H2, H1, app_assoc, forallb_app, P1, P2. done.
Qed.

Lemma extends_one (P : event → bool) (s : TuyaDevice.t) (tr : trace) (ev : event) :
  P ev = true → extends P (s, tr) (s, tr ++ [ev]).
Proof. intros H. exists [ev]. cbn. by rewrite H. Qed.

Lemma untouched_refl (x : TuyaDevice.t * trace) : untouched x x.
Proof. done. Qed.

Lemma untouched_trans (x y z : TuyaDevice.t * trace) :
  untouched x y → untouched y z → untouched x z.
Proof. unfold untouched. congruence. Qed.

Lemma unarmed_refl (x : TuyaDevice.t * trace) : unarmed x x.
Proof. by unfold unarmed. Qed.

Lemma unarmed_trans (x y z : TuyaDevice.t * trace) :
  unarmed x y → unarmed y z → unarmed x z.
Proof. unfold unarmed. auto. Qed.

(** One step of a proof that a computation keeps a relation: take the
    computation apart along its binds, handlers and case distinctions;
    [side] closes what an [emit] or a [modify] asks for and [known] applies
    what is known of the calls. *)
Ltac keep_with refl trans side known :=
  repeat first
    [ solve [known]
    | apply (keeps_bind _ trans); [|intros ?]
    | apply (keeps_ret _ refl)
    | apply (keeps_raise _ refl)
    | apply (keeps_get _ refl)
    | apply (keeps_history _ refl)
    | apply (keeps_lift_result _ refl)
    | apply (keeps_try _ trans)
    | apply keeps_emit; solve [side]
    | apply keeps_modify; solve [side]
    | match goal with
      | |- keeps _ (match ?x with _ => _ end) => destruct x
      | |- keeps _ (if ?x then _ else _) => destruct x
      end ].

Ltac grow_side :=
  intros ? ?; unfold growing, grows; cbn; repeat split; eauto.

Lemma status_updated_frame (status : pyval) (cid : option string)
    (dev : TuyaDevice.t) (tr : trace) :
  let dev' := (TuyaDevice.status_updated status cid dev tr).1.2 in
  TuyaDevice._is_closing dev' = TuyaDevice._is_closing dev
  ∧ TuyaDevice._refresh_callbacks dev' = TuyaDevice._refresh_callbacks dev
  ∧ TuyaDevice._interface dev' = TuyaDevice._interface dev
  ∧ TuyaDevice._connect_task dev' = TuyaDevice._connect_task dev.
Proof.
  unfold TuyaDevice.status_updated. split_paths; done.
Qed.

Lemma status_updated_growing (status : pyval) (cid : option string) :
  keeps growing (TuyaDevice.status_updated status cid).
Proof.
  intros dev tr. unfold growing, grows. cbn.
  destruct (status_updated_frame status cid dev tr) as (Hc & Hr & _ & _).
  destruct (status_updated_keeps_keys dev tr status cid) as [Hk _].
  cbn in *. rewrite Hc, Hr. auto.
Qed.

Lemma status_growing (cid : option string) : keeps growing (TuyaDevice.status cid).
Proof.
  unfold TuyaDevice.status.
  keep_with growing_refl growing_trans grow_side
    ltac:(apply status_updated_growing).
Qed.

Lemma interface_set_dps_growing (states : list (scalar * scalar))
    (cid : option string) :
  keeps growing (TuyaDevice.interface_set_dps states cid).
Proof.
  unfold TuyaDevice.interface_set_dps.
  keep_with growing_refl growing_trans grow_side idtac.
Qed.

Lemma refresh_subdevice_growing (cid : string) (dp value seed : scalar) :
  keeps growing (TuyaDevice.refresh_subdevice cid dp value seed).
Proof.
  unfold TuyaDevice.refresh_subdevice.
  keep_with growing_refl growing_trans grow_side
    ltac:(apply interface_set_dps_growing).
Qed.

Lemma refresh_callback_growing (rc : TuyaDevice.refresh_closure) :
  keeps growing (TuyaDevice.refresh_callback rc).
Proof.
  unfold TuyaDevice.refresh_callback.
  keep_with growing_refl growing_trans grow_side
    ltac:(first [apply interface_set_dps_growing | apply status_growing]).
Qed.

Lemma query_subdevices_growing (entities : list EntityConfig) (b : bool) :
  keeps growing (TuyaDevice.query_subdevices entities b).
Proof.
  revert b. induction entities as [|entity rest IH]; intros b;
    cbn [TuyaDevice.query_subdevices].
  - apply (keeps_ret _ growing_refl).
  - keep_with growing_refl growing_trans grow_side
      ltac:(first [apply IH | apply refresh_subdevice_growing
                  | apply status_growing]).
Qed.

Lemma run_op_growing (op : device_op) : keeps growing (run_op op).
Proof.
  destruct op; cbn [run_op];
    unfold TuyaDevice.async_connect, TuyaDevice._make_connection,
      TuyaDevice.close, TuyaDevice.cancel_and_await, TuyaDevice.set_dp,
      TuyaDevice.set_dps, TuyaDevice.disconnected;
    keep_with growing_refl growing_trans grow_side
      ltac:(first [ apply query_subdevices_growing
                  | apply status_growing
                  | apply status_updated_growing
                  | apply refresh_subdevice_growing
                  | apply refresh_callback_growing
                  | apply interface_set_dps_growing ]).
Qed.

Section Extends.
Variable P : event → bool.
Hypothesis HP : ∀ ev, ordinary ev = true → P ev = true.

Lemma status_updated_extends (status : pyval) (cid : option string) :
  keeps (extends P) (TuyaDevice.status_updated status cid).
Proof.
  unfold TuyaDevice.status_updated.
  keep_with (extends_refl P) (extends_trans P)
    ltac:(intros ? ?; first [apply extends_refl | apply extends_one; by apply HP])
    idtac.
Qed.

Lemma status_extends (cid : option string) :
  P (EvStatus cid) = true → keeps (extends P) (TuyaDevice.status cid).
Proof.
  intros Hq. unfold TuyaDevice.status.
  keep_with (extends_refl P) (extends_trans P)
    ltac:(intros ? ?; first [ apply extends_refl
                            | apply extends_one; first [done | by apply HP] ])
    ltac:(apply status_updated_extends).
Qed.

Lemma interface_set_dps_extends (states : list (scalar * scalar))
    (cid : option string) :
  keeps (extends P) (TuyaDevice.interface_set_dps states cid).
Proof.
  unfold TuyaDevice.interface_set_dps.
  keep_with (extends_refl P) (extends_trans P)
    ltac:(intros ? ?; first [apply extends_refl | apply extends_one; by apply HP])
    idtac.
Qed.

Lemma refresh_subdevice_extends (cid : string) (dp value seed : scalar) :
  keeps (extends P) (TuyaDevice.refresh_subdevice cid dp value seed).
Proof.
  unfold TuyaDevice.refresh_subdevice.
  keep_with (extends_refl P) (extends_trans P)
    ltac:(intros ? ?; first [apply extends_refl | apply extends_one; by apply HP])
    ltac:(apply interface_set_dps_extends).
Qed.

Lemma refresh_callback_extends (rc : TuyaDevice.refresh_closure) :
  keeps (extends P) (TuyaDevice.refresh_callback rc).
Proof.
  unfold TuyaDevice.refresh_callback.
  keep_with (extends_refl P) (extends_trans P)
    ltac:(intros ? ?; first [apply extends_refl | apply extends_one; by apply HP])
    ltac:(first [ apply interface_set_dps_extends
                | apply status_extends; by apply HP ]).
Qed.

Lemma query_subdevices_extends (entities : list EntityConfig) (b : bool) :
  keeps (extends P) (TuyaDevice.query_subdevices entities b).
Proof.
  revert b. induction entities as [|entity rest IH]; intros b;
    cbn [TuyaDevice.query_subdevices].
  - apply (keeps_ret _ (extends_refl P)).
  - keep_with (extends_refl P) (extends_trans P)
      ltac:(intros ? ?; first [apply extends_refl | apply extends_one; by apply HP])
      ltac:(first [ apply IH | apply refresh_subdevice_extends
                  | apply status_extends; by apply HP ]).
Qed.

Lemma run_op_extends (op : device_op) :
  op ≠ OpAsyncConnect →
  P (EvStatus None) = true →
  keeps (extends P) (run_op op).
Proof.
  intros Hop Hq. destruct op; [done|..]; cbn [run_op];
    unfold TuyaDevice._make_connection, TuyaDevice.close,
      TuyaDevice.cancel_and_await, TuyaDevice.set_dp, TuyaDevice.set_dps,
      TuyaDevice.disconnected;
    keep_with (extends_refl P) (extends_trans P)
      ltac:(intros ? ?; first [ apply extends_refl
                              | apply extends_one; by apply HP ])
      ltac:(first [ apply query_subdevices_extends
                  | apply status_extends; first [done | by destruct cid; [apply HP|]]
                  | apply status_updated_extends
                  | apply refresh_subdevice_extends
                  | apply refresh_callback_extends
                  | apply interface_set_dps_extends ]).
Qed.
End Extends.

(** ** What a device never loses *)

Lemma run_ops_growing (ops : list device_op) (dev : TuyaDevice.t) (tr : trace) :
  grows dev (run_ops ops dev tr).1.
Proof.
  revert dev tr. induction ops as [|op ops IH]; intros dev tr.
  - apply (growing_refl (dev, tr)).
  - cbn [run_ops]. pose proof (run_op_growing op dev tr) as H.
    destruct (run_op op dev tr) as [[r dev'] tr']. cbn in H.
    apply (growing_trans (dev, tr) (dev', tr') (_, tr')); [exact H|].
    apply IH.
Qed.

(** X5.  Whatever is called on a device, in whatever order and with
    whatever outcome (updates, queries, writes, refreshes, link loss,
    connection attempts, close), a key that is in the status cache stays in
    it, and [_refresh_callbacks], once created, stays created. *)
Theorem cache_never_shrinks (ops : list device_op) (dev : TuyaDevice.t)
    (tr : trace) :
  (∀ k, is_Some (TuyaDevice._status dev !! k) →
        is_Some (TuyaDevice._status (run_ops ops dev tr).1 !! k))
  ∧ (is_Some (TuyaDevice._refresh_callbacks dev) →
     is_Some (TuyaDevice._refresh_callbacks (run_ops ops dev tr).1)).
Proof.
  destruct (run_ops_growing ops dev tr) as (_ & Hk & Hc). by split.
Qed.

Lemma cache_never_shrinks_witness :
  is_Some (TuyaDevice._status cached_device !! "30"%string)
  ∧ is_Some (TuyaDevice._status (run_ops churn cached_device []).1 !! "30"%string)
  ∧ is_Some (TuyaDevice._refresh_callbacks cached_device)
  ∧ is_Some (TuyaDevice._refresh_callbacks (run_ops churn cached_device []).1).
Proof.
  assert (H1 : is_Some (TuyaDevice._status cached_device !! "30"%string))
    by (by eexists).
  assert (H2 : is_Some (TuyaDevice._refresh_callbacks cached_device))
    by (by eexists).
  split; [exact H1|]. split.
  - exact (proj1 (cache_never_shrinks churn cached_device []) _ H1).
  - split; [exact H2|].
    exact (proj2 (cache_never_shrinks churn cached_device []) H2).
Defined.

(** ** After [close] *)

Lemma tasks_created_quiet (tr evs : trace) :
  forallb no_task evs = true → tasks_created (tr ++ evs) = tasks_created tr.
Proof.
  intros H. unfold tasks_created. rewrite List.filter_app, length_app.
  induction evs as [|ev evs IH]; cbn in *; [lia|].
  apply andb_prop in H as [H1 H2]. unfold no_task in H1.
  destruct (is_create_task ev); [done|]. by apply IH.
Qed.

Lemma close_sets_flag (dev : TuyaDevice.t) (tr : trace) :
  TuyaDevice._is_closing (TuyaDevice.close dev tr).1.2 = true.
Proof.
  unfold TuyaDevice.close, TuyaDevice.cancel_and_await. split_paths; done.
Qed.

Lemma run_ops_closing (ops : list device_op) (dev : TuyaDevice.t) (tr : trace) :
  TuyaDevice._is_closing dev = true →
  TuyaDevice._is_closing (run_ops ops dev tr).1 = true
  ∧ tasks_created (run_ops ops dev tr).2 = tasks_created tr.
Proof.
  revert dev tr. induction ops as [|op ops IH]; intros dev tr Hc; [done|].
  cbn [run_ops].
  pose proof (run_op_growing op dev tr) as (Hg & _ & _).
  assert (Ht : tasks_created (run_op op dev tr).2 = tasks_created tr).
  { assert (Hdec : op = OpAsyncConnect ∨ op ≠ OpAsyncConnect)
      by (destruct op; (by left) || (by right)).
    destruct Hdec as [->|Hop].
    - cbn [run_op]. rewrite async_connect_noop; [done | by left].
    - destruct (run_op_extends no_task) with (op := op) (s := dev) (tr := tr)
        as (evs & Hevs & Hq); [|done|done|].
      + intros ev Hev. unfold ordinary in Hev. unfold no_task.
        by apply andb_prop in Hev as [-> _].
      + cbn in Hevs. rewrite Hevs. by apply tasks_created_quiet. }
  destruct (run_op op dev tr) as [[r dev'] tr']. cbn in Hg, Ht |- *.
  destruct (IH dev' tr' (Hg Hc)) as [H1 H2]. split; [done|].
  rewrite H2. exact Ht.
Qed.

(** X6.  [close] is final.  It sets the closing flag whether it returns or
    raises, no later call clears the flag, and while it is set no call,
    [async_connect] included, creates a connection task: a closed device
    cannot be connected again. *)
Theorem closing_is_final (ops : list device_op) (dev : TuyaDevice.t)
    (tr : trace) :
  TuyaDevice._is_closing (TuyaDevice.close dev tr).1.2 = true
  ∧ (TuyaDevice._is_closing dev = true →
     TuyaDevice._is_closing (run_ops ops dev tr).1 = true
     ∧ tasks_created (run_ops ops dev tr).2 = tasks_created tr).
Proof.
  split; [apply close_sets_flag | apply run_ops_closing].
Qed.

Lemma closing_is_final_witness :
  TuyaDevice._is_closing (TuyaDevice.close connected_device []).1.2 = true
  ∧ TuyaDevice._is_closing
      (run_ops churn (TuyaDevice.close connected_device []).1.2 []).1 = true
  ∧ tasks_created (run_ops churn (TuyaDevice.close connected_device []).1.2 []).2
    = tasks_created [].
Proof.
  assert (H : TuyaDevice._is_closing (TuyaDevice.close connected_device []).1.2
              = true) by reflexivity.
  split; [exact H|].
  exact (proj2 (closing_is_final churn
                  (TuyaDevice.close connected_device []).1.2 []) H).
Defined.

(** ** Failures of the transport *)

Lemma status_updated_raises (status : pyval) (cid : option string)
    (dev : TuyaDevice.t) (tr : trace) (e : exn) :
  (TuyaDevice.status_updated status cid dev tr).1.1 = Raise e →
  is_Exception e = true
  ∧ (TuyaDevice.status_updated status cid dev tr).1.2 = dev
  ∧ (TuyaDevice.status_updated status cid dev tr).2 = tr.
Proof.
  unfold TuyaDevice.status_updated, dict_update, py_getitem.
  split_paths; intros [= <-]; done.
Qed.

Lemma status_contained (cid : option string) : contained (TuyaDevice.status cid).
Proof.
  unfold TuyaDevice.status. apply contained_bind; [done|]. intros self.
  destruct (TuyaDevice._interface self); [|apply contained_emit].
  apply contained_bind; [apply contained_emit|]. intros _.
  apply contained_try, contained_emit.
Qed.

(** X7.  A status query never lets an [Exception] out.  Without a
    connection it logs an error and calls nothing.  When the transport
    answers [None] or raises, or when merging the answer raises (an answer
    to a query for a cid that lacks that cid), the failure is logged once
    and dropped: the device, its cache included, is as before and nothing
    is published. *)
Theorem status_failure_contained (cid : option string) (dev : TuyaDevice.t)
    (tr : trace) :
  match (TuyaDevice.status cid dev tr).1.1 with
  | Ok _ => True
  | Raise e => is_Exception e = false
  end
  ∧ (TuyaDevice._interface dev = None →
     TuyaDevice.status cid dev tr = (Ok tt, dev, tr ++ [EvLog Error]))
  ∧ (∀ i answer,
      TuyaDevice._interface dev = Some i →
      if_status i (tr ++ [EvLog Debug; EvStatus cid]) cid = answer →
      match answer with
      | Raise e => is_Exception e = true
      | Ok st =>
          st = PyScalar SNone
          ∨ ∃ e, (TuyaDevice.status_updated st cid dev
                    (tr ++ [EvLog Debug; EvStatus cid])).1.1 = Raise e
      end →
      TuyaDevice.status cid dev tr
      = (Ok tt, dev, tr ++ [EvLog Debug; EvStatus cid; EvLog Exception])).
Proof.
  split; [apply status_contained|]. split.
  - intros Hi. unfold TuyaDevice.status. run. by rewrite Hi.
  - intros i answer Hi Ha Hbad. unfold TuyaDevice.status. run. rewrite Hi. run.
    rewrite <- app_assoc. cbn [app]. rewrite Ha.
    destruct answer as [st|e]; run.
    + assert (Hmerge : st ≠ PyScalar SNone →
                ∃ e, TuyaDevice.status_updated st cid dev
                       (tr ++ [EvLog Debug; EvStatus cid])
                     = (Raise e, dev, tr ++ [EvLog Debug; EvStatus cid])
                     ∧ is_Exception e = true).
      { intros Hst. destruct Hbad as [-> | [e He]]; [done|].
        destruct (status_updated_raises st cid dev _ e He) as (Hexc & Hd & Ht).
        exists e. split; [|done].
        destruct (TuyaDevice.status_updated st cid dev _) as [[r d] t].
        cbn in He, Hd, Ht. by subst. }
      destruct st as [[| | |]|]; run; try (by norm_trace);
        (destruct Hmerge as (e & -> & ->); [done|]; by norm_trace).
    + rewrite Hbad. run. by norm_trace.
Qed.

Lemma status_failure_contained_witness :
  (TuyaDevice._interface fresh_device = None
   ∧ TuyaDevice.status (Some "30"%string) fresh_device []
     = (Ok tt, fresh_device, [] ++ [EvLog Error]))
  ∧ (TuyaDevice._interface failing_device = Some failing_interface
     ∧ TuyaDevice.status None failing_device []
       = (Ok tt, failing_device,
          [] ++ [EvLog Debug; EvStatus None; EvLog Exception])).
Proof.
  split.
  - split; [reflexivity|].
    exact (proj1 (proj2 (status_failure_contained (Some "30"%string)
                           fresh_device [])) eq_refl).
  - split; [reflexivity|].
    exact (proj2 (proj2 (status_failure_contained None failing_device []))
             failing_interface (Raise OtherException) eq_refl eq_refl eq_refl).
Defined.

Lemma set_dp_untouched (state dp_index : scalar) (cid : option string) :
  keeps untouched (TuyaDevice.set_dp state dp_index cid).
Proof.
  unfold TuyaDevice.set_dp.
  keep_with untouched_refl untouched_trans ltac:(by intros ? ?) idtac.
Qed.

Lemma set_dps_untouched (states : list (scalar * scalar)) (cid : option string) :
  keeps untouched (TuyaDevice.set_dps states cid).
Proof.
  unfold TuyaDevice.set_dps, TuyaDevice.interface_set_dps.
  keep_with untouched_refl untouched_trans ltac:(by intros ? ?) idtac.
Qed.

Lemma set_dp_contained (state dp_index : scalar) (cid : option string) :
  contained (TuyaDevice.set_dp state dp_index cid).
Proof.
  unfold TuyaDevice.set_dp. apply contained_bind; [done|]. intros self.
  destruct (TuyaDevice._interface self); [|apply contained_emit].
  apply contained_try, contained_emit.
Qed.

Lemma set_dps_contained (states : list (scalar * scalar)) (cid : option string) :
  contained (TuyaDevice.set_dps states cid).
Proof.
  unfold TuyaDevice.set_dps. apply contained_bind; [done|]. intros self.
  destruct (TuyaDevice._interface self); [|apply contained_emit].
  apply contained_try, contained_emit.
Qed.

(** X8.  Writes are fire-and-forget.  [set_dp] and [set_dps] never change
    the device (the cache is not updated in anticipation), never let an
    [Exception] of the transport out, and without a connection they log an
    error and call nothing. *)
Theorem writes_contained (dev : TuyaDevice.t) (tr : trace) (cid : option string) :
  (∀ state dp_index,
      (TuyaDevice.set_dp state dp_index cid dev tr).1.2 = dev
      ∧ match (TuyaDevice.set_dp state dp_index cid dev tr).1.1 with
        | Ok _ => True
        | Raise e => is_Exception e = false
        end
      ∧ (TuyaDevice._interface dev = None →
         TuyaDevice.set_dp state dp_index cid dev tr
         = (Ok tt, dev, tr ++ [EvLog Error])))
  ∧ (∀ states,
      (TuyaDevice.set_dps states cid dev tr).1.2 = dev
      ∧ match (TuyaDevice.set_dps states cid dev tr).1.1 with
        | Ok _ => True
        | Raise e => is_Exception e = false
        end
      ∧ (TuyaDevice._interface dev = None →
         TuyaDevice.set_dps states cid dev tr
         = (Ok tt, dev, tr ++ [EvLog Error]))).
Proof.
  split.
  - intros state dp_index. split; [apply (set_dp_untouched state dp_index cid)|].
    split; [apply set_dp_contained|].
    intros Hi. unfold TuyaDevice.set_dp. run. by rewrite Hi.
  - intros states. split; [apply (set_dps_untouched states cid)|].
    split; [apply set_dps_contained|].
    intros Hi. unfold TuyaDevice.set_dps. run. by rewrite Hi.
Qed.

Lemma writes_contained_witness :
  TuyaDevice._interface fresh_device = None
  ∧ TuyaDevice.set_dp (SBool true) (SInt 1) None fresh_device []
    = (Ok tt, fresh_device, [] ++ [EvLog Error]).
Proof.
  split; [reflexivity|].
  exact (proj2 (proj2 (proj1 (writes_contained fresh_device [] None)
                         (SBool true) (SInt 1))) eq_refl).
Defined.

(** X9.  Arming a refresh on a device without connection raises
    [AttributeError] at the trigger write, which no handler of
    [refresh_subdevice] catches; the callback was registered before, so the
    refresh is pending all the same, in place of one pending for that cid
    before and beside those of the other cids. *)
Theorem refresh_subdevice_disconnected (cid : string) (dp value seed : scalar)
    (dev : TuyaDevice.t) (tr : trace) :
  TuyaDevice._interface dev = None →
  ∃ dev',
    TuyaDevice.refresh_subdevice cid dp value seed dev tr
    = (Raise AttributeError, dev', tr ++ [EvLog Debug])
    ∧ ∃ cbs,
        TuyaDevice._refresh_callbacks dev' = Some cbs
        ∧ cbs !! cid = Some (closure_of cid dp seed)
        ∧ ∀ c, c ≠ cid →
               cbs !! c = default ∅ (TuyaDevice._refresh_callbacks dev) !! c.
Proof.
  intros Hi. unfold TuyaDevice.refresh_subdevice, TuyaDevice.interface_set_dps.
  run. rewrite Hi. run. eexists. split; [reflexivity|]. cbn.
  eexists. split; [reflexivity|]. split.
  - apply lookup_insert_eq.
  - intros c Hc. by rewrite lookup_insert_ne.
Qed.

Lemma refresh_subdevice_disconnected_witness :
  TuyaDevice._interface fresh_device = None
  ∧ ∃ dev',
      TuyaDevice.refresh_subdevice "30" (SStr "101") (SBool true) (SBool false)
        fresh_device []
      = (Raise AttributeError, dev', [] ++ [EvLog Debug])
      ∧ ∃ cbs,
          TuyaDevice._refresh_callbacks dev' = Some cbs
          ∧ cbs !! "30"%string = Some (closure_of "30" (SStr "101") (SBool false))
          ∧ ∀ c, c ≠ "30"%string →
                 cbs !! c
                 = default ∅ (TuyaDevice._refresh_callbacks fresh_device) !! c.
Proof.
  split; [reflexivity|].
  exact (refresh_subdevice_disconnected "30" (SStr "101") (SBool true)
           (SBool false) fresh_device [] eq_refl).
Defined.

(** ** Connection attempts *)

(** X10.  A connection attempt in which [pytuya.connect] raises an
    [Exception] ends quietly: the failure is logged, nothing is closed, the
    device is still disconnected and holds no task, so that, unless the
    device is closing, the next [async_connect] starts a new attempt. *)
Theorem make_connection_failure (dev : TuyaDevice.t) (tr : trace) (e : exn) :
  TuyaDevice._interface dev = None →
  is_Exception e = true →
  TuyaDevice.pytuya_connect dev (tr ++ [EvLog Debug; EvConnect]) = Raise e →
  TuyaDevice._make_connection dev tr
  = (Ok tt, TuyaDevice.set_connect_task None dev,
     tr ++ [EvLog Debug; EvConnect; EvLog Exception])
  ∧ (TuyaDevice._is_closing dev = false →
     ∀ tr',
       TuyaDevice.async_connect (TuyaDevice.set_connect_task None dev) tr'
       = (Ok tt, TuyaDevice.set_connect_task (Some TuyaDevice.TaskPending) dev,
          tr' ++ [EvCreateTask])).
Proof.
  intros Hi He Hc. split.
  - unfold TuyaDevice._make_connection. run. rewrite <- app_assoc. cbn [app].
    rewrite Hc. run. rewrite He. run. rewrite Hi. run. by norm_trace.
  - intros Hcl tr'. rewrite async_connect_start.
    + reflexivity.
    + intros [H|[H|H]]; cbn in H; congruence.
Qed.

Lemma make_connection_failure_witness :
  TuyaDevice._interface fresh_device = None
  ∧ is_Exception OtherException = true
  ∧ TuyaDevice.pytuya_connect fresh_device ([] ++ [EvLog Debug; EvConnect])
    = Raise OtherException
  ∧ TuyaDevice._make_connection fresh_device []
    = (Ok tt, TuyaDevice.set_connect_task None fresh_device,
       [] ++ [EvLog Debug; EvConnect; EvLog Exception]).
Proof.
  split; [reflexivity|]. split; [reflexivity|]. split; [reflexivity|].
  exact (proj1 (make_connection_failure fresh_device [] OtherException
                  eq_refl eq_refl eq_refl)).
Defined.

Lemma query_subdevices_plain (entities : list EntityConfig) (b : bool)
    (dev : TuyaDevice.t) (tr : trace) :
  forallb (λ e, negb (is_zigbee e)) entities = true →
  TuyaDevice.query_subdevices entities b dev tr = (Ok b, dev, tr).
Proof.
  induction entities as [|entity rest IH]; [done|]. cbn.
  unfold is_zigbee at 1. destruct (CONF_ZIGBEE entity); [done|]. exact IH.
Qed.

Lemma query_subdevices_flag (entities : list EntityConfig) (b b' : bool)
    (dev : TuyaDevice.t) (tr : trace) :
  existsb is_zigbee entities = true →
  (TuyaDevice.query_subdevices entities b dev tr).1.1 = Ok b' → b' = false.
Proof.
  assert (Hfalse : ∀ l d t b',
            (TuyaDevice.query_subdevices l false d t).1.1 = Ok b' → b' = false).
  { induction l as [|entity rest IH]; intros d t c; cbn.
    - by intros [= <-].
    - destruct (CONF_ZIGBEE entity) as [zigbee|]; [|apply IH].
      unfold mbind, M_bind, bind.
      destruct (CONF_ZIGBEE_REFRESH zigbee) as [refresh|].
      + destruct (TuyaDevice.refresh_subdevice _ _ _ _ d t) as [[[[]|e] d'] t'];
          [apply IH | done].
      + destruct (TuyaDevice.status _ d t) as [[[[]|e] d'] t'];
          [apply IH | done]. }
  revert b dev tr. induction entities as [|entity rest IH]; intros b dev tr;
    [done|].
  cbn. unfold is_zigbee at 1.
  destruct (CONF_ZIGBEE entity) as [zigbee|]; cbn; [intros _ | apply IH].
  unfold mbind, M_bind, bind.
  destruct (CONF_ZIGBEE_REFRESH zigbee) as [refresh|].
  - destruct (TuyaDevice.refresh_subdevice _ _ _ _ dev tr) as [[[[]|e] d'] t'];
      [apply Hfalse | done].
  - destruct (TuyaDevice.status _ dev tr) as [[[[]|e] d'] t'];
      [apply Hfalse | done].
Qed.

Lemma parent_queries_none (evs : trace) :
  forallb no_parent_query evs = true → parent_queries evs = 0%nat.
Proof.
  unfold parent_queries. induction evs as [|ev evs IH]; [done|]. cbn.
  intros H. apply andb_prop in H as [H1 H2]. unfold no_parent_query in H1.
  destruct (is_parent_query ev); [done|]. by apply IH.
Qed.

Lemma no_parent_query_ordinary (ev : event) :
  ordinary ev = true → no_parent_query ev = true.
Proof.
  unfold ordinary, no_parent_query. intros H. by apply andb_prop in H as [_ ->].
Qed.

(** X11.  Which status is queried on connecting.  After [pytuya.connect]
    has returned and the datapoints to request are handed over, a device
    with no entity of a sub-device makes one read or write on the transport,
    the status query for the device itself.  As soon as one configured
    entity belongs to a sub-device, with or without a refresh descriptor,
    the status of the device itself is not queried at all. *)
Theorem initial_parent_query (dev : TuyaDevice.t) (tr : trace) (i : Interface) :
  TuyaDevice.pytuya_connect dev (tr ++ [EvLog Debug; EvConnect]) = Ok i →
  (forallb (λ e, negb (is_zigbee e)) (TuyaDevice._config_entry dev) = true →
     ∃ r dev' evs,
       TuyaDevice._make_connection dev tr = (r, dev', tr ++ evs)
       ∧ transport_calls evs = [EvStatus None])
  ∧ (existsb is_zigbee (TuyaDevice._config_entry dev) = true →
     ∃ r dev' evs,
       TuyaDevice._make_connection dev tr = (r, dev', tr ++ evs)
       ∧ parent_queries evs = 0%nat).
Proof.
  intros Hc. split.
  - intros Hplain. unfold TuyaDevice._make_connection. run.
    rewrite <- app_assoc. cbn [app]. rewrite Hc. run.
    rewrite query_subdevices_plain by done. run.
    match goal with |- context [TuyaDevice.status None ?d ?t] =>
      pose proof (status_contained None d t) as Hsafe;
      destruct (status_transport_calls None d t i eq_refl)
        as (r & dev' & evs & Hrun & Hcalls)
    end.
    rewrite Hrun in Hsafe |- *. cbn in Hsafe.
    destruct r as [[]|e]; run.
    + do 3 eexists. split; [by norm_trace|]. cbn. exact Hcalls.
    + rewrite Hsafe. do 3 eexists. split; [by norm_trace|]. cbn. exact Hcalls.
  - intros Hz. unfold TuyaDevice._make_connection. run.
    rewrite <- app_assoc. cbn [app]. rewrite Hc. run.
    match goal with |- context [TuyaDevice.query_subdevices ?l ?b ?d ?t] =>
      pose proof (query_subdevices_flag l b) as Hflag;
      destruct (query_subdevices_extends no_parent_query
                  no_parent_query_ordinary l b d t) as (evs & Hevs & Hq);
      specialize (λ b', Hflag b' d t Hz);
      destruct (TuyaDevice.query_subdevices l b d t) as [[[b'|e] d'] t']
    end; cbn in Hevs, Hflag; subst t'; run.
    + rewrite (Hflag b' eq_refl). run.
      do 3 eexists. split; [by norm_trace|].
      apply parent_queries_none. cbn. exact Hq.
    + destruct (is_Exception e); run.
      * destruct (TuyaDevice._interface d') as [i'|]; run.
        -- match goal with |- context [if_close i' ?h] =>
             destruct (if_close i' h) as [[]|e'] end; run;
             do 3 eexists; (split; [by norm_trace|]);
             apply parent_queries_none; cbn;
             rewrite forallb_app, Hq; reflexivity.
        -- do 3 eexists. split; [by norm_trace|].
           apply parent_queries_none. cbn. rewrite forallb_app, Hq. reflexivity.
      * do 3 eexists. split; [by norm_trace|].
        apply parent_queries_none. cbn. exact Hq.
Qed.

Lemma initial_parent_query_witness :
  (TuyaDevice.pytuya_connect plain_device ([] ++ [EvLog Debug; EvConnect])
   = Ok accepting_interface
   ∧ forallb (λ e, negb (is_zigbee e)) (TuyaDevice._config_entry plain_device)
     = true
   ∧ ∃ r dev' evs,
       TuyaDevice._make_connection plain_device [] = (r, dev', [] ++ evs)
       ∧ transport_calls evs = [EvStatus None])
  ∧ (TuyaDevice.pytuya_connect bridge_26 ([] ++ [EvLog Debug; EvConnect])
     = Ok accepting_interface
     ∧ existsb is_zigbee (TuyaDevice._config_entry bridge_26) = true
     ∧ ∃ r dev' evs,
         TuyaDevice._make_connection bridge_26 [] = (r, dev', [] ++ evs)
         ∧ parent_queries evs = 0%nat).
Proof.
  split.
  - split; [reflexivity|]. split; [reflexivity|].
    exact (proj1 (initial_parent_query plain_device [] accepting_interface
                    eq_refl) eq_refl).
  - split; [reflexivity|]. split; [reflexivity|].
    exact (proj2 (initial_parent_query bridge_26 [] accepting_interface
                    eq_refl) eq_refl).
Defined.

(** ** Sub-devices without a refresh descriptor *)

Lemma only_cache_refl (x : TuyaDevice.t * trace) : only_cache x x.
Proof. unfold only_cache. by destruct x as [[] ?]. Qed.

Lemma only_cache_trans (x y z : TuyaDevice.t * trace) :
  only_cache x y → only_cache y z → only_cache x z.
Proof. unfold only_cache. intros H1 H2. rewrite H2, H1. reflexivity. Qed.

Lemma status_updated_only_cache (status : pyval) (cid : option string) :
  keeps only_cache (TuyaDevice.status_updated status cid).
Proof.
  intros dev tr. unfold only_cache, TuyaDevice.status_updated.
  destruct dev. split_paths; reflexivity.
Qed.

Lemma status_only_cache (cid : option string) :
  keeps only_cache (TuyaDevice.status cid).
Proof.
  unfold TuyaDevice.status.
  keep_with only_cache_refl only_cache_trans
    ltac:(intros ? ?; apply only_cache_refl)
    ltac:(apply status_updated_only_cache).
Qed.

Lemma query_subdevices_no_refresh (entities : list EntityConfig) (b : bool) :
  forallb (λ e, negb (has_refresh e)) entities = true →
  keeps only_cache (TuyaDevice.query_subdevices entities b)
  ∧ contained (TuyaDevice.query_subdevices entities b).
Proof.
  revert b. induction entities as [|entity rest IH]; intros b H;
    cbn [TuyaDevice.query_subdevices].
  - split; [apply (keeps_ret _ only_cache_refl) | done].
  - cbn in H. apply andb_prop in H as [H1 H2]. unfold has_refresh in H1.
    destruct (CONF_ZIGBEE entity) as [zigbee|]; [|by apply IH].
    destruct (CONF_ZIGBEE_REFRESH zigbee); [done|]. split.
    + apply (keeps_bind _ only_cache_trans); [apply status_only_cache|].
      intros _. by apply IH.
    + apply contained_bind; [apply status_contained|]. intros _. by apply IH.
Qed.

Lemma make_connection_no_refresh (dev : TuyaDevice.t) (tr : trace) (i : Interface) :
  TuyaDevice.pytuya_connect dev (tr ++ [EvLog Debug; EvConnect]) = Ok i →
  forallb (λ e, negb (has_refresh e)) (TuyaDevice._config_entry dev) = true →
  ∃ r dev' tr',
    TuyaDevice._make_connection dev tr = (r, dev', tr')
    ∧ TuyaDevice._interface dev' = Some i
    ∧ TuyaDevice._refresh_callbacks dev' = TuyaDevice._refresh_callbacks dev
    ∧ match r with
      | Ok _ => TuyaDevice._connect_task dev' = None
      | Raise e => is_Exception e = false
      end.
Proof.
  intros Hc Hno. unfold TuyaDevice._make_connection. run.
  rewrite <- app_assoc. cbn [app]. rewrite Hc. run.
  match goal with |- context [TuyaDevice.query_subdevices ?l ?b ?d ?t] =>
    destruct (query_subdevices_no_refresh l b Hno) as [Hkeep Hsafe];
    specialize (Hkeep d t); specialize (Hsafe d t);
    destruct (TuyaDevice.query_subdevices l b d t) as [[[b'|e] d'] t']
  end; unfold only_cache in Hkeep; cbn in Hkeep, Hsafe; run.
  - destruct b'; run.
    + pose proof (status_only_cache None d' t') as Hk2.
      pose proof (status_contained None d' t') as Hs2.
      destruct (TuyaDevice.status None d' t') as [[[[]|e] d''] t''];
        unfold only_cache in Hk2; cbn in Hk2, Hs2; run.
      * do 3 eexists. split; [reflexivity|]. rewrite Hk2, Hkeep. by cbn.
      * rewrite Hs2. do 3 eexists. split; [reflexivity|].
        rewrite Hk2, Hkeep. by cbn.
    + do 3 eexists. split; [reflexivity|]. rewrite Hkeep. by cbn.
  - rewrite Hsafe. do 3 eexists. split; [reflexivity|]. rewrite Hkeep. by cbn.
Qed.

(** X12.  Failing initial queries do not cost the connection.  On a device
    none of whose entities has a refresh descriptor, once [pytuya.connect]
    has returned, the attempt leaves the device connected whatever the
    transport answers to the status queries: no [Exception] ends the
    attempt, nothing closes the transport, and an attempt that returns has
    released [_connect_task]. *)
Theorem initial_queries_tolerated (dev : TuyaDevice.t) (tr : trace)
    (i : Interface) :
  TuyaDevice.pytuya_connect dev (tr ++ [EvLog Debug; EvConnect]) = Ok i →
  forallb (λ e, negb (has_refresh e)) (TuyaDevice._config_entry dev) = true →
  ∃ r dev' tr',
    TuyaDevice._make_connection dev tr = (r, dev', tr')
    ∧ TuyaDevice._interface dev' = Some i
    ∧ match r with
      | Ok _ => TuyaDevice._connect_task dev' = None
      | Raise e => is_Exception e = false
      end.
Proof.
  intros Hc Hno.
  destruct (make_connection_no_refresh dev tr i Hc Hno)
    as (r & dev' & tr' & Hrun & Hi & _ & Hr).
  by exists r, dev', tr'.
Qed.

Lemma initial_queries_tolerated_witness :
  TuyaDevice.pytuya_connect
    (reachable [LocalTuyaEntity._config entity_A; LocalTuyaEntity._config entity_B]
       failing_interface) ([] ++ [EvLog Debug; EvConnect])
  = Ok failing_interface
  ∧ forallb (λ e, negb (has_refresh e))
      (TuyaDevice._config_entry
         (reachable
            [LocalTuyaEntity._config entity_A; LocalTuyaEntity._config entity_B]
            failing_interface)) = true
  ∧ ∃ r dev' tr',
      TuyaDevice._make_connection
        (reachable
           [LocalTuyaEntity._config entity_A; LocalTuyaEntity._config entity_B]
           failing_interface) [] = (r, dev', tr')
      ∧ TuyaDevice._interface dev' = Some failing_interface
      ∧ match r with
        | Ok _ => TuyaDevice._connect_task dev' = None
        | Raise e => is_Exception e = false
        end.
Proof.
  split; [reflexivity|]. split; [reflexivity|].
  exact (initial_queries_tolerated
           (reachable
              [LocalTuyaEntity._config entity_A; LocalTuyaEntity._config entity_B]
              failing_interface) [] failing_interface eq_refl eq_refl).
Defined.

(** X13.  A bridge without refresh descriptors starves its sub-device
    entities.  [_refresh_callbacks] is created by [refresh_subdevice] only,
    so after such a device has connected the attribute still does not
    exist, and the handler of every entity of a sub-device raises
    [AttributeError] on every snapshot that has data for its cid, be it the
    published cache or a dictionary of its own: the data is not stored, the
    status hook is not invoked and no presentation refresh is scheduled. *)
Theorem unarmed_bridge_starves (dev : TuyaDevice.t) (tr : trace) (i : Interface)
    (self : LocalTuyaEntity.t) (c : string) (p : gmap string pyval) :
  TuyaDevice.pytuya_connect dev (tr ++ [EvLog Debug; EvConnect]) = Ok i →
  forallb (λ e, negb (has_refresh e)) (TuyaDevice._config_entry dev) = true →
  TuyaDevice._refresh_callbacks dev = None →
  cid_truthy (LocalTuyaEntity._cid self) = Some c →
  truthy (sub_map p c) = true →
  TuyaDevice._refresh_callbacks (TuyaDevice._make_connection dev tr).1.2 = None
  ∧ (∀ tr',
      LocalTuyaEntity._update_handler (PyDict p)
        (self, (TuyaDevice._make_connection dev tr).1.2) tr'
      = (Raise AttributeError,
         (self, (TuyaDevice._make_connection dev tr).1.2), tr'))
  ∧ (∀ tr',
      has_data (TuyaDevice._make_connection dev tr).1.2 c →
      LocalTuyaEntity._update_handler Cache
        (self, (TuyaDevice._make_connection dev tr).1.2) tr'
      = (Raise AttributeError,
         (self, (TuyaDevice._make_connection dev tr).1.2), tr')).
Proof.
  intros Hc Hno Hcb Hcid Ht.
  destruct (make_connection_no_refresh dev tr i Hc Hno)
    as (r & dev' & tr1 & Hrun & _ & Hsame & _).
  rewrite Hrun. cbn. rewrite Hcb in Hsame. split; [exact Hsame|]. split.
  - intros tr'.
    by apply (handler_scoped_no_attribute (PyDict p) (sub_map p c) self dev' tr' c).
  - intros tr' Hd.
    apply (handler_scoped_no_attribute Cache (cache_get dev' c) self dev' tr' c);
      try done. by rewrite deref_cache_get.
Qed.

Lemma unarmed_bridge_starves_witness :
  TuyaDevice.pytuya_connect bridge_26 ([] ++ [EvLog Debug; EvConnect])
  = Ok accepting_interface
  ∧ forallb (λ e, negb (has_refresh e)) (TuyaDevice._config_entry bridge_26) = true
  ∧ TuyaDevice._refresh_callbacks bridge_26 = None
  ∧ cid_truthy (LocalTuyaEntity._cid entity_B) = Some "26"%string
  ∧ truthy (sub_map data_26 "26") = true
  ∧ TuyaDevice._refresh_callbacks (TuyaDevice._make_connection bridge_26 []).1.2
    = None
  ∧ (∀ tr',
      LocalTuyaEntity._update_handler (PyDict data_26)
        (entity_B, (TuyaDevice._make_connection bridge_26 []).1.2) tr'
      = (Raise AttributeError,
         (entity_B, (TuyaDevice._make_connection bridge_26 []).1.2), tr'))
  ∧ (∀ tr',
      has_data (TuyaDevice._make_connection bridge_26 []).1.2 "26" →
      LocalTuyaEntity._update_handler Cache
        (entity_B, (TuyaDevice._make_connection bridge_26 []).1.2) tr'
      = (Raise AttributeError,
         (entity_B, (TuyaDevice._make_connection bridge_26 []).1.2), tr')).
Proof.
  split; [reflexivity|]. split; [reflexivity|]. split; [reflexivity|].
  split; [reflexivity|]. split; [reflexivity|].
  exact (unarmed_bridge_starves bridge_26 [] accepting_interface entity_B
           "26" data_26 eq_refl eq_refl eq_refl eq_refl eq_refl).
Defined.

(** ** A refresh trigger that cannot be written *)

Lemma query_subdevices_app (pre l : list EntityConfig) (b : bool)
    (dev : TuyaDevice.t) (tr : trace) :
  TuyaDevice.query_subdevices (pre ++ l) b dev tr
  = match TuyaDevice.query_subdevices pre b dev tr with
    | (Ok b', d, t) => TuyaDevice.query_subdevices l b' d t
    | (Raise e, d, t) => (Raise e, d, t)
    end.
Proof.
  revert b dev tr. induction pre as [|entity rest IH]; intros b dev tr; [done|].
  cbn [app TuyaDevice.query_subdevices].
  destruct (CONF_ZIGBEE entity) as [zigbee|]; [|apply IH].
  unfold mbind, M_bind, bind.
  destruct (CONF_ZIGBEE_REFRESH zigbee) as [refresh|].
  - destruct (TuyaDevice.refresh_subdevice _ _ _ _ dev tr) as [[[[]|e] d] t];
      [apply IH | done].
  - destruct (TuyaDevice.status _ dev tr) as [[[[]|e] d] t]; [apply IH | done].
Qed.

Lemma status_returns (cid : option string) (dev : TuyaDevice.t) (tr : trace)
    (i : Interface) :
  TuyaDevice._interface dev = Some i →
  (∀ h c, if_status i h c ≠ Raise CancelledError) →
  (TuyaDevice.status cid dev tr).1.1 = Ok tt.
Proof.
  intros Hi Hq. unfold TuyaDevice.status. run. rewrite Hi. run.
  match goal with |- context [if_status i ?h ?c] =>
    pose proof (Hq h c) as Hne; destruct (if_status i h c) as [st|e] end; run.
  - assert (Hm : ∀ t, match (TuyaDevice.status_updated st cid dev t).1.1 with
                      | Ok _ => True
                      | Raise e => is_Exception e = true
                      end).
    { intros t. pose proof (status_updated_raises st cid dev t) as H.
      destruct (TuyaDevice.status_updated st cid dev t) as [[[[]|e] d'] t'];
        [done|]. by destruct (H e eq_refl). }
    destruct st as [[| | |]|]; run; try done;
      match goal with |- context [TuyaDevice.status_updated ?v cid dev ?t] =>
        specialize (Hm t);
        destruct (TuyaDevice.status_updated v cid dev t) as [[[[]|e] d'] t']
      end; cbn in Hm |- *; by rewrite ?Hm.
  - by destruct e.
Qed.

Lemma query_subdevices_returns (entities : list EntityConfig) (b : bool)
    (dev : TuyaDevice.t) (tr : trace) (i : Interface) :
  forallb (λ e, negb (has_refresh e)) entities = true →
  TuyaDevice._interface dev = Some i →
  (∀ h c, if_status i h c ≠ Raise CancelledError) →
  ∃ b' dev' tr',
    TuyaDevice.query_subdevices entities b dev tr = (Ok b', dev', tr')
    ∧ dev' = TuyaDevice.set_status (TuyaDevice._status dev') dev.
Proof.
  intros Hno Hi Hq. revert b dev tr Hi.
  induction entities as [|entity rest IH]; intros b dev tr Hi.
  - exists b, dev, tr. split; [done|]. by destruct dev.
  - cbn in Hno. apply andb_prop in Hno as [H1 H2]. unfold has_refresh in H1.
    cbn [TuyaDevice.query_subdevices].
    destruct (CONF_ZIGBEE entity) as [zigbee|]; [|by apply IH].
    destruct (CONF_ZIGBEE_REFRESH zigbee); [done|].
    unfold mbind, M_bind, bind.
    pose proof (status_returns (Some (CONF_ZIGBEE_CID zigbee)) dev tr i Hi Hq)
      as Hok.
    pose proof (status_only_cache (Some (CONF_ZIGBEE_CID zigbee)) dev tr) as Hk.
    destruct (TuyaDevice.status _ dev tr) as [[r d] t].
    unfold only_cache in Hk. cbn in Hok, Hk. subst r.
    destruct (IH H2 false d t) as (b' & dev' & tr' & Hrun & Hdev').
    { rewrite Hk. by cbn. }
    exists b', dev', tr'. split; [done|]. rewrite Hdev', Hk. reflexivity.
Qed.

(** X14.  A refresh trigger that cannot be written costs the whole
    connection.  Let the first entity with a refresh descriptor stand after
    entities without one, and let the transport refuse the trigger write
    with an [Exception] (status queries may fail as they like).  Then the
    connection attempt closes the transport it has just opened and leaves
    the device disconnected with no task held, while the refresh of that
    sub-device remains pending. *)
Theorem refresh_failure_disconnects (dev : TuyaDevice.t) (tr : trace)
    (i : Interface) (pre rest : list EntityConfig) (entity : EntityConfig)
    (zigbee : ZigbeeConfig) (refresh : RefreshConfig) (e : exn) :
  TuyaDevice.pytuya_connect dev (tr ++ [EvLog Debug; EvConnect]) = Ok i →
  TuyaDevice._config_entry dev = pre ++ entity :: rest →
  forallb (λ e, negb (has_refresh e)) pre = true →
  CONF_ZIGBEE entity = Some zigbee →
  CONF_ZIGBEE_REFRESH zigbee = Some refresh →
  is_Exception e = true →
  (∀ h states c, if_set_dps i h states c = Raise e) →
  (∀ h c, if_status i h c ≠ Raise CancelledError) →
  (∀ h, if_close i h = Ok tt) →
  ∃ dev' evs cbs,
    TuyaDevice._make_connection dev tr = (Ok tt, dev', tr ++ evs)
    ∧ TuyaDevice._interface dev' = None
    ∧ TuyaDevice._connect_task dev' = None
    ∧ last evs = Some EvInterfaceClose
    ∧ TuyaDevice._refresh_callbacks dev' = Some cbs
    ∧ is_Some (cbs !! CONF_ZIGBEE_CID zigbee).
Proof.
  intros Hc Hconf Hno Hz Hr He Hw Hq Hcl.
  unfold TuyaDevice._make_connection. run.
  rewrite <- app_assoc. cbn [app]. rewrite Hc. run.
  rewrite Hconf, query_subdevices_app.
  match goal with |- context [TuyaDevice.query_subdevices pre ?b ?d ?t] =>
    destruct (query_subdevices_returns pre b d t i Hno eq_refl Hq)
      as (b' & d' & t' & Hrun & Hd');
    destruct (query_subdevices_extends (λ _, true) (λ _ _, eq_refl) pre b d t)
      as (evs & Hevs & _)
  end.
  rewrite Hrun in Hevs |- *. cbn in Hevs. subst t'.
  cbn [TuyaDevice.query_subdevices]. rewrite Hz, Hr.
  unfold TuyaDevice.refresh_subdevice, TuyaDevice.interface_set_dps. run.
  rewrite Hd'. run. rewrite Hw. run. rewrite He. run. rewrite Hcl. run.
  do 3 eexists. split.
  { rewrite <- !app_assoc. cbn [app]. reflexivity. }
  cbn. split; [done|]. split; [done|]. split.
  { rewrite !app_comm_cons, last_app. reflexivity. }
  split; [reflexivity|]. rewrite lookup_insert_eq. by eexists.
Qed.

Lemma refresh_failure_disconnects_witness :
  TuyaDevice.pytuya_connect bridge_30 ([] ++ [EvLog Debug; EvConnect])
  = Ok failing_interface
  ∧ TuyaDevice._config_entry bridge_30
    = [LocalTuyaEntity._config entity_B] ++ LocalTuyaEntity._config entity_30 :: []
  ∧ forallb (λ e, negb (has_refresh e)) [LocalTuyaEntity._config entity_B] = true
  ∧ is_Exception OtherException = true
  ∧ (∀ h states c, if_set_dps failing_interface h states c = Raise OtherException)
  ∧ (∀ h c, if_status failing_interface h c ≠ Raise CancelledError)
  ∧ (∀ h, if_close failing_interface h = Ok tt)
  ∧ ∃ dev' evs cbs,
      TuyaDevice._make_connection bridge_30 [] = (Ok tt, dev', [] ++ evs)
      ∧ TuyaDevice._interface dev' = None
      ∧ TuyaDevice._connect_task dev' = None
      ∧ last evs = Some EvInterfaceClose
      ∧ TuyaDevice._refresh_callbacks dev' = Some cbs
      ∧ is_Some (cbs !! "30"%string).
Proof.
  assert (H6 : ∀ h c, if_status failing_interface h c ≠ Raise CancelledError)
    by (intros h c; discriminate).
  split; [reflexivity|]. split; [reflexivity|]. split; [reflexivity|].
  split; [reflexivity|]. split; [reflexivity|]. split; [exact H6|].
  split; [reflexivity|].
  exact (refresh_failure_disconnects bridge_30 [] failing_interface
           [LocalTuyaEntity._config entity_B] []
           (LocalTuyaEntity._config entity_30) _ _ OtherException
           eq_refl eq_refl eq_refl eq_refl eq_refl eq_refl
           (λ _ _ _, eq_refl) H6 (λ _, eq_refl)).
Defined.

(** ** The algebra of the merge *)

(** X15.  Merging is idempotent and, for different sub-devices, independent
    of the order.  Delivering the same update for a cid twice leaves the
    cache as after the first delivery, and updates for two different cids
    give the same cache in either order. *)
Theorem merge_idempotent_commutes (dev : TuyaDevice.t) (tr : trace) :
  (∀ (c : string) (upd u : gmap string pyval),
      c ≠ ""%string →
      upd !! c = Some (PyDict u) →
      store_ok dev c →
      ∃ dev1 tr1 tr2,
        TuyaDevice.status_updated (PyDict upd) (Some c) dev tr = (Ok tt, dev1, tr1)
        ∧ TuyaDevice.status_updated (PyDict upd) (Some c) dev1 tr1
          = (Ok tt, dev1, tr2))
  ∧ (∀ (c c' : string) (upd upd' u u' : gmap string pyval),
      c ≠ ""%string → c' ≠ ""%string → c ≠ c' →
      upd !! c = Some (PyDict u) →
      upd' !! c' = Some (PyDict u') →
      store_ok dev c → store_ok dev c' →
      ∃ dev1 tr1 dev2 tr2 dev1' tr1' dev2' tr2',
        TuyaDevice.status_updated (PyDict upd) (Some c) dev tr = (Ok tt, dev1, tr1)
        ∧ TuyaDevice.status_updated (PyDict upd') (Some c') dev1 tr1
          = (Ok tt, dev2, tr2)
        ∧ TuyaDevice.status_updated (PyDict upd') (Some c') dev tr
          = (Ok tt, dev1', tr1')
        ∧ TuyaDevice.status_updated (PyDict upd) (Some c) dev1' tr1'
          = (Ok tt, dev2', tr2')
        ∧ dev2 = dev2').
Proof.
  split.
  - intros c upd u Hc Hu Hok. do 3 eexists. split.
    { apply (status_updated_scoped dev tr c upd u Hc Hu Hok). }
    rewrite (status_updated_scoped _ _ c upd u Hc Hu)
      by apply store_ok_set_status.
    rewrite store_of_set_status. cbn.
    rewrite insert_insert_eq, (assoc_L (∪)), (idemp_L (∪) u). reflexivity.
  - intros c c' upd upd' u u' Hc Hc' Hne Hu Hu' Hok Hok'.
    assert (Hother : ∀ (a b : string) (m : gmap string pyval) s,
              a ≠ b →
              store_of (TuyaDevice.set_status (<[a := PyDict s]> m) dev) b
              = match m !! b with Some (PyDict x) => x | _ => ∅ end).
    { intros a b m s Hab. unfold store_of. cbn. by rewrite lookup_insert_ne. }
    assert (Hokother : ∀ (a b : string) s,
              a ≠ b → store_ok dev b →
              store_ok (TuyaDevice.set_status
                          (<[a := PyDict s]> (TuyaDevice._status dev)) dev) b).
    { intros a b s Hab H v. cbn. rewrite lookup_insert_ne by done. apply H. }
    do 8 eexists. split; [|split; [|split; [|split]]].
    + apply (status_updated_scoped dev tr c upd u Hc Hu Hok).
    + apply (status_updated_scoped _ _ c' upd' u' Hc' Hu'). by apply Hokother.
    + apply (status_updated_scoped dev tr c' upd' u' Hc' Hu' Hok').
    + apply (status_updated_scoped _ _ c upd u Hc Hu).
      apply Hokother; [done | exact Hok].
    + rewrite !Hother by done. cbn. unfold store_of.
      by rewrite insert_insert_ne.
Qed.

Lemma merge_idempotent_commutes_witness :
  "30"%string ≠ ""%string
  ∧ echo_30 !! "30"%string = Some (PyDict {["101"%string := PyScalar (SBool true)]})
  ∧ store_ok fresh_device "30"
  ∧ ∃ dev1 tr1 tr2,
      TuyaDevice.status_updated (PyDict echo_30) (Some "30"%string) fresh_device []
      = (Ok tt, dev1, tr1)
      ∧ TuyaDevice.status_updated (PyDict echo_30) (Some "30"%string) dev1 tr1
        = (Ok tt, dev1, tr2).
Proof.
  assert (H1 : "30"%string ≠ ""%string) by discriminate.
  assert (H3 : store_ok fresh_device "30") by (intros v; discriminate).
  split; [exact H1|]. split; [reflexivity|]. split; [exact H3|].
  exact (proj1 (merge_idempotent_commutes fresh_device []) "30"%string echo_30
           _ H1 eq_refl H3).
Defined.

(** ** The climate entity: presets, modes, features *)

(** X16.  Presets survive the round trip through the device.  For each of
    the five preset names, [async_set_preset_mode] on a connected device
    whose transport accepts the write sends one code, and an entity whose
    [_preset_mode] is that code reads the same preset name back.  "heat"
    set as HVAC mode is sent as the code "manual", which reads back as
    preset "home" and as HVAC mode "heat". *)
Theorem preset_round_trip (self : LocaltuyaClimate.t) (dev : TuyaDevice.t)
    (tr : trace) (i : Interface) :
  LocaltuyaClimate.has_config self CONF_PRESET_MODE_DP = true →
  TuyaDevice._interface dev = Some i →
  (∀ h value dp_index c, if_set_dp i h value dp_index c = Ok tt) →
  (∀ preset,
      preset ∈ LocaltuyaClimate.preset_list →
      ∃ code,
        LocaltuyaClimate.async_set_preset_mode preset (self, dev) tr
        = (Ok (LocaltuyaClimate.Value SNone), (self, dev),
           tr ++ [EvSetDp code (configured self CONF_PRESET_MODE_DP)
                    (LocalTuyaEntity._cid (LocaltuyaClimate.entity self))])
        ∧ LocaltuyaClimate.preset_mode
            (LocaltuyaClimate.mk (LocaltuyaClimate.entity self) (PyScalar code))
          = LocaltuyaClimate.Value (PyScalar (SStr preset)))
  ∧ ∃ code,
      LocaltuyaClimate.async_set_hvac_mode LocaltuyaClimate.HVAC_MODE_HEAT
        (self, dev) tr
      = (Ok (LocaltuyaClimate.Value SNone), (self, dev),
         tr ++ [EvSetDp code (configured self CONF_PRESET_MODE_DP)
                  (LocalTuyaEntity._cid (LocaltuyaClimate.entity self))])
      ∧ LocaltuyaClimate.preset_mode
          (LocaltuyaClimate.mk (LocaltuyaClimate.entity self) (PyScalar code))
        = LocaltuyaClimate.Value (PyScalar (SStr LocaltuyaClimate.PRESET_HOME))
      ∧ ∀ hvac,
          ClimateEntity.hvac_mode
            (ClimateEntity.mk
               (LocaltuyaClimate.mk (LocaltuyaClimate.entity self) (PyScalar code))
               hvac)
          = PyScalar (SStr LocaltuyaClimate.HVAC_MODE_HEAT).
Proof.
  intros Hconf Hi Hw.
  assert (Hset : ∀ preset,
            LocaltuyaClimate.async_set_preset_mode preset (self, dev) tr
            = (Ok (LocaltuyaClimate.Value SNone), (self, dev),
               tr ++ [EvSetDp (preset_code preset)
                        (configured self CONF_PRESET_MODE_DP)
                        (LocalTuyaEntity._cid (LocaltuyaClimate.entity self))])).
  { intros preset.
    unfold LocaltuyaClimate.async_set_preset_mode, LocaltuyaClimate.set_dp,
      LocalTuyaEntity.set_dp, LocalTuyaEntity.on_device, TuyaDevice.set_dp.
    run. rewrite Hconf. run. rewrite Hi. run. rewrite Hw. run.
    by destruct self. }
  assert (Hread : ∀ code,
            LocaltuyaClimate.preset_mode
              (LocaltuyaClimate.mk (LocaltuyaClimate.entity self) code)
            = match LocaltuyaClimate.remapped_from LocaltuyaClimate.PRESET_REMAP code with
              | Some preset => LocaltuyaClimate.Value (PyScalar (SStr preset))
              | None =>
                  if existsb (LocaltuyaClimate.py_eq_str code)
                       LocaltuyaClimate.preset_list
                  then LocaltuyaClimate.Value code
                  else LocaltuyaClimate.Value
                         (PyScalar (SStr LocaltuyaClimate.PRESET_HOME))
              end).
  { intros code. unfold LocaltuyaClimate.preset_mode.
    change (LocaltuyaClimate.has_config (LocaltuyaClimate.mk _ code)
              CONF_PRESET_MODE_DP)
      with (LocaltuyaClimate.has_config self CONF_PRESET_MODE_DP).
    by rewrite Hconf. }
  split.
  - intros preset Hin. exists (preset_code preset). split; [apply Hset|].
    rewrite Hread.
    repeat (apply elem_of_cons in Hin as [->|Hin]; [reflexivity|]).
    by apply elem_of_nil in Hin.
  - exists (SStr "manual"). split; [|split].
    + unfold LocaltuyaClimate.async_set_hvac_mode. run.
      change (LocaltuyaClimate.table_get LocaltuyaClimate.HVAC_PRESET_REMAP
                LocaltuyaClimate.HVAC_MODE_HEAT) with (Some "manual"%string).
      run. rewrite Hset. reflexivity.
    + by rewrite Hread.
    + reflexivity.
Qed.

Lemma preset_round_trip_witness :
  LocaltuyaClimate.has_config climate_preset CONF_PRESET_MODE_DP = true
  ∧ TuyaDevice._interface connected_device = Some accepting_interface
  ∧ (∀ h value dp_index c, if_set_dp accepting_interface h value dp_index c = Ok tt)
  ∧ "away"%string ∈ LocaltuyaClimate.preset_list
  ∧ ∃ code,
      LocaltuyaClimate.async_set_preset_mode "away" (climate_preset, connected_device) []
      = (Ok (LocaltuyaClimate.Value SNone), (climate_preset, connected_device),
         [] ++ [EvSetDp code (configured climate_preset CONF_PRESET_MODE_DP)
                  (LocalTuyaEntity._cid (LocaltuyaClimate.entity climate_preset))])
      ∧ LocaltuyaClimate.preset_mode
          (LocaltuyaClimate.mk (LocaltuyaClimate.entity climate_preset)
             (PyScalar code))
        = LocaltuyaClimate.Value (PyScalar (SStr "away")).
Proof.
  assert (H4 : "away"%string ∈ LocaltuyaClimate.preset_list).
  { cbn. set_solver. }
  split; [reflexivity|]. split; [reflexivity|]. split; [reflexivity|].
  split; [exact H4|].
  exact (proj1 (preset_round_trip climate_preset connected_device []
                  accepting_interface eq_refl eq_refl (λ _ _ _ _, eq_refl))
           "away"%string H4).
Defined.

(** X17.  The feature flags agree with the operations.  Bit 0 of
    [supported_features] (target temperature) is set exactly when a
    target-temperature datapoint is configured, and bit 4 (preset mode)
    exactly when a preset-mode datapoint is; the preset flag is set exactly
    when [preset_mode] and [preset_modes] return values rather than the
    [NotImplementedError] instance. *)
Theorem supported_features_agree (self : ClimateEntity.t) :
  Z.testbit (ClimateEntity.supported_features self) 0
  = ClimateEntity.has_config self CONF_TARGET_TEMPERATURE_DP
  ∧ Z.testbit (ClimateEntity.supported_features self) 4
    = ClimateEntity.has_config self CONF_PRESET_MODE_DP
  ∧ ((Z.land (ClimateEntity.supported_features self)
        ClimateEntity.SUPPORT_PRESET_MODE ≠ 0)
     ↔ ((∃ v, LocaltuyaClimate.preset_mode (ClimateEntity.climate self)
              = LocaltuyaClimate.Value v)
        ∧ LocaltuyaClimate.preset_modes (ClimateEntity.climate self)
          = LocaltuyaClimate.Value LocaltuyaClimate.preset_list)).
Proof.
  unfold ClimateEntity.supported_features, ClimateEntity.has_config,
    LocaltuyaClimate.preset_modes.
  destruct (LocaltuyaClimate.has_config (ClimateEntity.climate self)
              CONF_TARGET_TEMPERATURE_DP) eqn:Ht;
    destruct (LocaltuyaClimate.has_config (ClimateEntity.climate self)
                CONF_PRESET_MODE_DP) eqn:Hp;
    (split; [reflexivity|]); (split; [reflexivity|]); cbn; split;
    try (intros H; done); try (intros _; split; [|reflexivity]);
    try (destruct (preset_mode_configured _ Hp) as (s & -> & _); by eexists);
    try (intros [[v Hv] _]; unfold LocaltuyaClimate.preset_mode in Hv;
         by rewrite Hp in Hv).
Qed.

(** X18.  The HVAC mode reported against the modes offered.  With an
    HVAC-mode datapoint the reported mode is always one of [hvac_modes];
    without one the list is empty and the reported mode is "heat"
    nevertheless.  An entity of a sub-device never offers "off", and a
    device report "off" is then shown as "heat". *)
Theorem hvac_mode_reported (self : ClimateEntity.t) :
  (ClimateEntity.has_config self CONF_HVAC_MODE_DP = true →
     ∃ mode, ClimateEntity.hvac_mode self = PyScalar (SStr mode)
             ∧ mode ∈ ClimateEntity.hvac_modes self)
  ∧ (ClimateEntity.has_config self CONF_HVAC_MODE_DP = false →
     ClimateEntity.hvac_modes self = []
     ∧ ClimateEntity.hvac_mode self = PyScalar (SStr LocaltuyaClimate.HVAC_MODE_HEAT))
  ∧ (ClimateEntity.has_config_zigbee self = true →
     (ClimateEntity.HVAC_MODE_OFF ∉ ClimateEntity.hvac_modes self)
     ∧ ClimateEntity.hvac_mode self ≠ PyScalar (SStr ClimateEntity.HVAC_MODE_OFF)
     ∧ (ClimateEntity._hvac_mode self = PyScalar (SStr ClimateEntity.HVAC_MODE_OFF) →
        ClimateEntity.hvac_mode self
        = PyScalar (SStr LocaltuyaClimate.HVAC_MODE_HEAT))).
Proof.
  unfold ClimateEntity.hvac_mode, ClimateEntity.hvac_modes.
  assert (Hremap : ∀ v mode,
            LocaltuyaClimate.remapped_from LocaltuyaClimate.HVAC_PRESET_REMAP v
            = Some mode → mode = LocaltuyaClimate.HVAC_MODE_HEAT).
  { intros v mode. cbn. destruct (LocaltuyaClimate.py_eq_str v "manual"); [|done].
    by intros [= <-]. }
  assert (Hin : ∀ v l, existsb (LocaltuyaClimate.py_eq_str v) l = true →
            ∃ s, v = PyScalar (SStr s) ∧ s ∈ l).
  { intros v l. induction l as [|x l IH]; cbn; [done|].
    destruct v as [[| | |s]|]; cbn; try (intros H; by destruct (IH H) as (? & ? & ?)).
    destruct (String.eqb_spec s x) as [->|_]; cbn.
    - intros _. exists x. split; [done | by left].
    - intros H. destruct (IH H) as (s' & [= ->] & Hs'). exists s'.
      split; [done | by right]. }
  split; [|split].
  - intros Hc. rewrite Hc.
    destruct (LocaltuyaClimate.remapped_from _ _) as [mode|] eqn:Hr.
    + apply Hremap in Hr as ->. eexists. split; [reflexivity|]. set_solver.
    + destruct (existsb _ _) eqn:He.
      * apply Hin in He as (s & -> & Hs). by exists s.
      * eexists. split; [reflexivity|]. set_solver.
  - intros Hc. rewrite Hc. split; [done|]. cbn [existsb].
    destruct (LocaltuyaClimate.remapped_from _ _) as [mode|] eqn:Hr; [|done].
    by apply Hremap in Hr as ->.
  - intros Hz. rewrite Hz.
    assert (Hoff : ClimateEntity.HVAC_MODE_OFF
                   ∉ (if ClimateEntity.has_config self CONF_HVAC_MODE_DP
                      then [ClimateEntity.HVAC_MODE_AUTO;
                            LocaltuyaClimate.HVAC_MODE_HEAT] ++ []
                      else [])).
    { destruct (ClimateEntity.has_config self CONF_HVAC_MODE_DP); cbn;
        [|set_solver].
      intros H. repeat (apply elem_of_cons in H as [H|H]; [done|]).
      by apply elem_of_nil in H. }
    split; [exact Hoff|].
    assert (Hmode : ∀ s,
              match LocaltuyaClimate.remapped_from
                      LocaltuyaClimate.HVAC_PRESET_REMAP
                      (LocaltuyaClimate._preset_mode (ClimateEntity.climate self))
              with
              | Some mode => PyScalar (SStr mode)
              | None =>
                  if existsb (LocaltuyaClimate.py_eq_str
                                (ClimateEntity._hvac_mode self))
                       (if ClimateEntity.has_config self CONF_HVAC_MODE_DP
                        then [ClimateEntity.HVAC_MODE_AUTO;
                              LocaltuyaClimate.HVAC_MODE_HEAT] ++ []
                        else [])
                  then ClimateEntity._hvac_mode self
                  else PyScalar (SStr LocaltuyaClimate.HVAC_MODE_HEAT)
              end = PyScalar (SStr s) →
              s = LocaltuyaClimate.HVAC_MODE_HEAT
              ∨ s ∈ (if ClimateEntity.has_config self CONF_HVAC_MODE_DP
                     then [ClimateEntity.HVAC_MODE_AUTO;
                           LocaltuyaClimate.HVAC_MODE_HEAT] ++ []
                     else [])).
    { intros s. destruct (LocaltuyaClimate.remapped_from _ _) as [mode|] eqn:Hr.
      - apply Hremap in Hr as ->. intros [= <-]. by left.
      - destruct (existsb _ _) eqn:He.
        + apply Hin in He as (s' & -> & Hs'). intros [= <-]. by right.
        + intros [= <-]. by left. }
    split.
    + intros H. destruct (Hmode _ H) as [H'|H']; [done | by apply Hoff].
    + intros Hv.
      destruct (LocaltuyaClimate.remapped_from _ _) as [mode|] eqn:Hr.
      * by apply Hremap in Hr as ->.
      * destruct (existsb _ _) eqn:He; [|done].
        apply Hin in He as (s' & Hs & Hs'). rewrite Hv in Hs.
        injection Hs as <-. by apply Hoff in Hs'.
Qed.

Lemma hvac_mode_reported_witness :
  ClimateEntity.has_config zigbee_thermostat CONF_HVAC_MODE_DP = true
  ∧ (∃ mode, ClimateEntity.hvac_mode zigbee_thermostat = PyScalar (SStr mode)
             ∧ mode ∈ ClimateEntity.hvac_modes zigbee_thermostat)
  ∧ ClimateEntity.has_config_zigbee zigbee_thermostat = true
  ∧ ClimateEntity._hvac_mode zigbee_thermostat
    = PyScalar (SStr ClimateEntity.HVAC_MODE_OFF)
  ∧ ClimateEntity.hvac_mode zigbee_thermostat
    = PyScalar (SStr LocaltuyaClimate.HVAC_MODE_HEAT).
Proof.
  split; [reflexivity|]. split.
  - exact (proj1 (hvac_mode_reported zigbee_thermostat) eq_refl).
  - split; [reflexivity|]. split; [reflexivity|].
    exact (proj2 (proj2 (proj2 (proj2 (hvac_mode_reported zigbee_thermostat))
                           eq_refl)) eq_refl).
Defined.

Lemma supported_features_agree_witness :
  ClimateEntity.supported_features preset_thermostat = 16
  ∧ Z.testbit (ClimateEntity.supported_features preset_thermostat) 4
    = ClimateEntity.has_config preset_thermostat CONF_PRESET_MODE_DP
  ∧ Z.land (ClimateEntity.supported_features preset_thermostat)
      ClimateEntity.SUPPORT_PRESET_MODE ≠ 0
  ∧ LocaltuyaClimate.preset_modes (ClimateEntity.climate preset_thermostat)
    = LocaltuyaClimate.Value LocaltuyaClimate.preset_list.
Proof.
  assert (H : Z.land (ClimateEntity.supported_features preset_thermostat)
                ClimateEntity.SUPPORT_PRESET_MODE ≠ 0) by discriminate.
  split; [reflexivity|]. split.
  - exact (proj1 (proj2 (supported_features_agree preset_thermostat))).
  - split; [exact H|].
    exact (proj2 (proj1 (proj2 (proj2 (supported_features_agree
                                          preset_thermostat))) H)).
Defined.

(** ** Reading a datapoint through the configuration *)

(** X19.  [dps_conf] composes the configuration with the cache.  For an
    item configured with a datapoint that the status holds with a value
    other than [None], it returns that value silently.  For an item that is
    not configured it looks up the key ["None"]: with no such key it logs
    two warnings, one for the item and one for the datapoint, and returns
    [None]; it does not raise. *)
Theorem dps_conf_reads (self : LocalTuyaEntity.t) (dev : TuyaDevice.t)
    (tr : trace) (m : gmap string pyval) (conf_item : conf_key) :
  holds (self, dev) m →
  (∀ dp_index value,
      platform_conf (LocalTuyaEntity._config self) conf_item = Some dp_index →
      dp_index ≠ SNone →
      m !! py_str dp_index = Some value →
      value ≠ PyScalar SNone →
      LocalTuyaEntity.dps_conf conf_item (self, dev) tr
      = (Ok value, (self, dev), tr))
  ∧ (platform_conf (LocalTuyaEntity._config self) conf_item = None →
     m !! "None"%string = None →
     LocalTuyaEntity.dps_conf conf_item (self, dev) tr
     = (Ok (PyScalar SNone), (self, dev), tr ++ [EvLog Warning; EvLog Warning])).
Proof.
  unfold holds. intros Hm. split.
  - intros dp_index value Hc Hd Hv Hn.
    unfold LocalTuyaEntity.dps_conf, LocalTuyaEntity.dps. run. rewrite Hc. cbn.
    destruct dp_index as [| | |]; [done|..]; run; rewrite Hm; run;
      cbn in Hv; rewrite Hv; run;
      by destruct value as [[| | |]|].
  - intros Hc Hv. unfold LocalTuyaEntity.dps_conf, LocalTuyaEntity.dps. run.
    rewrite Hc. run. rewrite Hm. run. rewrite Hv. run. by norm_trace.
Qed.

Lemma dps_conf_reads_witness :
  holds (entity_1, fresh_device) {["1"%string := PyScalar (SBool true)]}
  ∧ platform_conf (LocalTuyaEntity._config entity_1) CONF_PRESET_MODE_DP = None
  ∧ ({["1"%string := PyScalar (SBool true)]} : gmap string pyval) !! "None"%string
    = None
  ∧ LocalTuyaEntity.dps_conf CONF_PRESET_MODE_DP (entity_1, fresh_device) []
    = (Ok (PyScalar SNone), (entity_1, fresh_device),
       [] ++ [EvLog Warning; EvLog Warning]).
Proof.
  assert (H : holds (entity_1, fresh_device)
                {["1"%string := PyScalar (SBool true)]})
    by reflexivity.
  split; [exact H|]. split; [reflexivity|]. split; [reflexivity|].
  exact (proj2 (dps_conf_reads entity_1 fresh_device [] _ CONF_PRESET_MODE_DP H)
           eq_refl eq_refl).
Defined.
